(* Verification of the asset lifecycle of planet_downloader.py:
   activation, polling, download and the status ledger.

   The script is embedded shallowly.  Every function that touches the
   network, the clock or the file system becomes a computation in a small
   state-and-exception monad over a [world]; the provider is an arbitrary
   deterministic function of the interaction history. *)

From Stdlib Require Import ZArith Lia Ascii String.
From stdpp Require Import gmap strings list fin_maps.

Open Scope string_scope.
Open Scope list_scope.

(* ===================================================================== *)
(** * Python strings and paths *)
(* ===================================================================== *)

Module PyStr.

(** [s.split(sep)] for a one-character separator: every occurrence
    splits, empty pieces are kept, the result is never empty. *)
Fixpoint split (sep : ascii) (s : string) : list string :=
  match s with
  | EmptyString => [EmptyString]
  | String c rest =>
      if Ascii.eqb c sep then EmptyString :: split sep rest
      else match split sep rest with
           | p :: ps => String c p :: ps
           | [] => [String c EmptyString]
           end
  end.

(** [l[-k]] for [1 <= k]; [None] stands for Python's IndexError. *)
Definition index_from_end {A} (l : list A) (k : nat) : option A :=
  if (k <=? length l)%nat then l !! (length l - k)%nat else None.

(** [sub in s] on strings. *)
Fixpoint contains (sub s : string) : bool :=
  String.prefix sub s ||
  match s with
  | EmptyString => false
  | String _ rest => contains sub rest
  end.

Fixpoint last_char (s : string) : option ascii :=
  match s with
  | EmptyString => None
  | String c EmptyString => Some c
  | String _ rest => last_char rest
  end.

Definition starts_with_sep (s : string) : bool :=
  match s with
  | String c _ => Ascii.eqb c "/"
  | EmptyString => false
  end.

Definition ends_with_sep (s : string) : bool :=
  match last_char s with
  | Some c => Ascii.eqb c "/"
  | None => false
  end.

(** [os.path.join(a, b)] of posixpath. *)
Definition path_join (a b : string) : string :=
  if starts_with_sep b then b
  else if String.eqb a "" || ends_with_sep a then a +:+ b
  else a +:+ "/" +:+ b.

End PyStr.

(* ===================================================================== *)
(** * Decoded JSON values and the Python operations the script applies *)
(* ===================================================================== *)

#[local] Set Warnings "-register-all".

Inductive json : Type :=
| JNull
| JBool (b : bool)
| JNum (z : Z)
| JStr (s : string)
| JArr (items : list json)
| JObj (fields : list (string * json)).

(** Exceptions the modelled fragment can raise. *)
Inductive exn : Type :=
| KeyError (key : string)
| TypeError
| AttributeError
| RequestException
| RequestsJSONDecodeError   (* requests.exceptions.JSONDecodeError, a
                               RequestException since requests 2.27 *)
| JSONDecodeError.          (* json.JSONDecodeError, from json.load *)

Inductive result (A : Type) : Type :=
| Ok (a : A)
| Raise (e : exn).
Arguments Ok {A} a.
Arguments Raise {A} e.

Module Py.

(** Truth value of a decoded JSON value ([not x] is its negation). *)
Definition truthy (j : json) : bool :=
  match j with
  | JNull => false
  | JBool b => b
  | JNum z => negb (Z.eqb z 0)
  | JStr s => negb (String.eqb s "")
  | JArr l => match l with [] => false | _ => true end
  | JObj f => match f with [] => false | _ => true end
  end.

Fixpoint assoc (k : string) (f : list (string * json)) : option json :=
  match f with
  | [] => None
  | (k', v) :: rest => if String.eqb k k' then Some v else assoc k rest
  end.

Definition is_str (s : string) (j : json) : bool :=
  match j with
  | JStr s' => String.eqb s' s
  | _ => false
  end.

(** [k in j] for a string [k]. *)
Definition contains (k : string) (j : json) : result bool :=
  match j with
  | JObj f => Ok (bool_decide (is_Some (assoc k f)))
  | JArr l => Ok (existsb (is_str k) l)
  | JStr s => Ok (PyStr.contains k s)
  | JNull | JBool _ | JNum _ => Raise TypeError
  end.

(** [j[k]] for a string [k]. *)
Definition getitem (j : json) (k : string) : result json :=
  match j with
  | JObj f => match assoc k f with
              | Some v => Ok v
              | None => Raise (KeyError k)
              end
  | _ => Raise TypeError
  end.

(** [j.get(k, d)]: only a dict has [get]. *)
Definition get (j : json) (k : string) (d : json) : result json :=
  match j with
  | JObj f => Ok (default d (assoc k f))
  | _ => Raise AttributeError
  end.

(** The receiver of a string method such as [split]: a value that is
    not a string has no such attribute. *)
Definition as_str (j : json) : result string :=
  match j with
  | JStr s => Ok s
  | _ => Raise AttributeError
  end.

(** What [len(j)] counts and [for x in j] yields: the items of a list,
    the keys of a dict, the characters of a string; other values have no
    length. *)
Definition items (j : json) : result (list json) :=
  match j with
  | JArr l => Ok l
  | JObj f => Ok (map (λ kv, JStr kv.1) f)
  | JStr s => Ok (map (λ c, JStr (String c EmptyString)) (list_ascii_of_string s))
  | JNull | JBool _ | JNum _ => Raise TypeError
  end.

End Py.

(* ===================================================================== *)
(** * The status ledger, the provider and the world *)
(* ===================================================================== *)

(** The decoded content of planet_status.json:
    [{"activated_scenes": {key: "activating"|"active"},
      "downloaded_scenes": {key: true}}]. *)
Record ledger : Type := Ledger {
  activated_scenes : gmap string string;
  downloaded_scenes : gmap string bool
}.

Definition empty_ledger : ledger := Ledger ∅ ∅.

(** State of the status file on disk.  [Snapshot l] is the file as a
    completed [json.dump] of the ledger [l] leaves it; the JSON text is not
    modelled, and [json.load] is taken to read such a file back as [l].
    [Torn] is a file that was opened for writing (truncated) and whose
    dump has not completed: it does not decode.  A file that decodes to
    something other than a ledger with its two tables is not in the
    model. *)
Inductive file_state : Type :=
| Absent
| Snapshot (l : ledger)
| Torn.

(** The call sites of the script that reach the network. *)
Inductive site : Type :=
| Search      (* search_planet_imagery: POST SEARCH_URL, no timeout *)
| Listing     (* process_scene: GET {BASE_URL}/item-types/../items/../assets *)
| Activate    (* activate_asset: POST activation link, timeout 30 *)
| Status      (* get_asset_activation_status: GET self link, timeout 30 *)
| Download.   (* download_asset: GET location, stream, timeout 60 *)

Inductive http_method : Type := GET | POST.

Record request : Type := Request {
  req_site : site;
  req_method : http_method;
  req_url : json   (* the Python value passed as the URL *)
}.

(** What the script reads from a [requests] response: the status code,
    the JSON body and, for a streamed download, the chunks [iter_content]
    yields; [stream_ok = false] says the stream breaks after those chunks
    (a RequestException raised from [iter_content]).  [json_ok] says
    whether the body is JSON: [response.json()] returns [body] when it
    is, and raises [requests.exceptions.JSONDecodeError] when it is not
    ([body] is then not looked at). *)
Record response : Type := Response {
  status_code : nat;
  body : json;
  chunks : list string;
  stream_ok : bool;
  json_ok : bool
}.

(** [Failed] is a transport fault: [requests] raises a RequestException
    (timeout, connection error). *)
Inductive outcome : Type :=
| Replied (r : response)
| Failed.

(** The log lines kept in the trace (the decisions the ledger and the
    summary depend on); other log lines are not recorded. *)
Inductive log_msg : Type :=
| LogSummary (activated downloaded : nat)
| LogNoImagery
| LogTally (successful total : nat)
| LogSkipActivation (key : string)
| LogSkipDownload (key : string)
| LogNoAssetKey (url : string)
| LogTimeout
| LogStatusUpdated (key : string).

Inductive event : Type :=
| EReq (r : request) (o : outcome)
| ESleep (seconds : nat)
| EOpenW (path : string)                 (* open(path, "w"/"wb"): truncate *)
| EWrite (path : string) (data : string) (* f.write(data) *)
| EDump (path : string) (l : ledger)     (* json.dump(status, f) completed *)
| ELog (m : log_msg).

(** Everything outside the interpreter that the script reads or changes.
    The status file lives in the working directory and is kept apart from
    the files under the output directory ([disk]), whose names end in
    [.tif] or [_metadata.json]. *)
Record world : Type := World {
  clock : nat;                 (* time.time(), in whole seconds *)
  trace : list event;
  status_file : file_state;    (* planet_status.json *)
  disk : gmap string string
}.

(** The provider: any deterministic function of the history so far and
    of the request; it also says how long the call takes. *)
Definition provider : Type := list event → request → outcome * nat.

(* ===================================================================== *)
(** * The monad of the script: world passing with exceptions *)
(* ===================================================================== *)

Definition M (A : Type) : Type := world → result A * world.

#[global] Instance M_ret : MRet M := λ A a w, (Ok a, w).
#[global] Instance M_bind : MBind M := λ A B f m w,
  match m w with
  | (Ok a, w') => f a w'
  | (Raise e, w') => (Raise e, w')
  end.

Definition raise {A} (e : exn) : M A := λ w, (Raise e, w).

(** Lift a pure Python operation that may raise. *)
Definition lift {A} (r : result A) : M A := λ w, (r, w).

(** [try: m  except requests.exceptions.RequestException: h]; the
    JSONDecodeError of [requests] is one of them. *)
Definition try_except_request {A} (m : M A) (h : M A) : M A := λ w,
  match m w with
  | (Raise RequestException, w') => h w'
  | (Raise RequestsJSONDecodeError, w') => h w'
  | other => other
  end.

(** [response.json()] *)
Definition response_json (r : response) : M json :=
  if json_ok r then mret (body r) else raise RequestsJSONDecodeError.

Definition emit (e : event) : M unit := λ w,
  (Ok tt, World (clock w) (trace w ++ [e]) (status_file w) (disk w)).

Definition log (m : log_msg) : M unit := emit (ELog m).

(** [time.time()] *)
Definition time_now : M nat := λ w, (Ok (clock w), w).

(** [time.sleep(d)] *)
Definition sleep (d : nat) : M unit := λ w,
  (Ok tt, World (clock w + d) (trace w ++ [ESleep d]) (status_file w) (disk w)).

(** One search result, as far as the lifecycle reads it: [scene["id"]],
    [scene["properties"]["acquired"]], [scene["properties"]["item_type"]]. *)
Record scene : Type := Scene {
  scene_id : string;
  acquired : string;
  scene_item_type : string
}.

Definition BASE_URL : string := "https://api.planet.com/data/v1".
Definition SEARCH_URL : string := BASE_URL +:+ "/quick-search".
Definition STATUS_FILE : string := "planet_status.json".

(** How one pass through the body of a retry loop ends. *)
Inductive flow (A : Type) : Type :=
| Returned (a : A)              (* return a *)
| Continued (retry_delay : nat) (* continue, after retry_delay *= 2 *)
| FellThrough.                  (* reached the end of the try statement *)
Arguments Returned {A} a.
Arguments Continued {A} retry_delay.
Arguments FellThrough {A}.

(** [f"{item_id}_{asset_type}"] *)
Definition make_key (item_id asset_type : string) : string :=
  item_id +:+ "_" +:+ asset_type.

(** The key [wait_for_asset_activation] extracts from the URL:
    [url_parts[-4]] and [url_parts[-1]] when there are at least 8 parts. *)
Definition derive_asset_key (asset_url : string) : option string :=
  let url_parts := PyStr.split "/" asset_url in
  if (8 <=? length url_parts)%nat then
    match PyStr.index_from_end url_parts 4, PyStr.index_from_end url_parts 1 with
    | Some item_id, Some asset_type => Some (make_key item_id asset_type)
    | _, _ => None
    end
  else None.

Section Script.

Variable env : provider.

(** [requests.get] / [requests.post]: the provider answers from the
    history; a transport fault raises.  For a URL value that is not a
    string [requests] raises before anything is sent; a provider that
    models this answers [Failed]. *)
Definition http (r : request) : M response := λ w,
  let '(o, latency) := env (trace w) r in
  let w' := World (clock w + latency) (trace w ++ [EReq r o])
                  (status_file w) (disk w) in
  match o with
  | Replied resp => (Ok resp, w')
  | Failed => (Raise RequestException, w')
  end.

(** ** The ledger file *)

Definition load_status : M ledger := λ w,
  match status_file w with
  | Absent => (Ok empty_ledger, w)
  | Snapshot l => (Ok l, w)
  | Torn => (Raise JSONDecodeError, w)
  end.

(** [open(status_file, "w")]: the file is truncated in place. *)
Definition open_status_w : M unit := λ w,
  (Ok tt, World (clock w) (trace w ++ [EOpenW STATUS_FILE]) Torn (disk w)).

(** [json.dump(status, f)] run to completion, and the file closed. *)
Definition dump_status (l : ledger) : M unit := λ w,
  (Ok tt, World (clock w) (trace w ++ [EDump STATUS_FILE l]) (Snapshot l) (disk w)).

Definition save_status (status : ledger) : M unit :=
  open_status_w;; dump_status status.

(** ** Files under the output directory *)

Definition open_w (path : string) : M unit := λ w,
  (Ok tt, World (clock w) (trace w ++ [EOpenW path]) (status_file w)
                (<[path := ""]> (disk w))).

Definition write (path data : string) : M unit := λ w,
  (Ok tt, World (clock w) (trace w ++ [EWrite path data]) (status_file w)
                (<[path := default "" (disk w !! path) +:+ data]> (disk w))).

(** [os.path.exists(path)] *)
Definition path_exists (path : string) : M bool := λ w,
  (Ok (bool_decide (is_Some (disk w !! path))), w).

(** ** get_asset_activation_status *)

Fixpoint status_attempts (asset_url : json) (max_retries remaining attempt
                          retry_delay : nat) : M json :=
  match remaining with
  | O => mret JNull
  | S remaining' =>
      f ← try_except_request
            (response ← http (Request Status GET asset_url);
             if (status_code response =? 200)%nat then
               asset_status ← response_json response;
               mret (Returned asset_status)
             else if (status_code response =? 429)%nat then
               sleep retry_delay;; mret (Continued (retry_delay * 2))
             else mret FellThrough)
            (mret FellThrough);
      match f with
      | Returned v => mret v
      | Continued d =>
          status_attempts asset_url max_retries remaining' (S attempt) d
      | FellThrough =>
          (if (attempt <? max_retries - 1)%nat then sleep retry_delay
           else mret tt);;
          status_attempts asset_url max_retries remaining' (S attempt)
                          retry_delay
      end
  end.

Definition get_asset_activation_status (asset_url : json) : M json :=
  let max_retries := 3%nat in
  let retry_delay := 2%nat in
  status_attempts asset_url max_retries max_retries 0 retry_delay.

(** ** activate_asset *)

Fixpoint activate_attempts (asset_url : json) (max_retries remaining attempt
                            retry_delay : nat) : M bool :=
  match remaining with
  | O => mret false
  | S remaining' =>
      f ← try_except_request
            (response ← http (Request Activate POST asset_url);
             if (status_code response =? 202)%nat
                || (status_code response =? 204)%nat then
               mret (Returned true)
             else if (status_code response =? 429)%nat then
               sleep retry_delay;; mret (Continued (retry_delay * 2))
             else mret FellThrough)
            (mret FellThrough);
      match f with
      | Returned v => mret v
      | Continued d =>
          activate_attempts asset_url max_retries remaining' (S attempt) d
      | FellThrough =>
          (if (attempt <? max_retries - 1)%nat then sleep retry_delay
           else mret tt);;
          activate_attempts asset_url max_retries remaining' (S attempt)
                            retry_delay
      end
  end.

Definition activate_asset (asset_url : json) : M bool :=
  let max_retries := 3%nat in
  let retry_delay := 2%nat in
  activate_attempts asset_url max_retries max_retries 0 retry_delay.

(** ** wait_for_asset_activation *)

(** The branch taken when the provider reports "active": the ledger is
    re-read, and rewritten only when the derived key is already in it. *)
Definition mark_active (asset_key : option string) : M unit :=
  match asset_key with
  | Some k =>
      if negb (String.eqb k "") then
        status ← load_status;
        if bool_decide (is_Some (activated_scenes status !! k)) then
          save_status (Ledger (<[k := "active"]> (activated_scenes status))
                              (downloaded_scenes status));;
          log (LogStatusUpdated k)
        else mret tt
      else mret tt
  | None => mret tt
  end.

(** The [while time.time() - start_time < timeout] loop.  Every pass
    that does not return sleeps [check_interval] seconds, so [timeout]
    passes are enough whenever [check_interval >= 1] (lemma
    [poll_loop_fuel]); [fuel] only makes the recursion structural. *)
Fixpoint poll_loop (fuel : nat) (asset_url : json) (asset_key : option string)
         (start_time timeout check_interval : nat) : M bool :=
  match fuel with
  | O => log LogTimeout;; mret false
  | S fuel' =>
      now ← time_now;
      if (now - start_time <? timeout)%nat then
        asset_status ← get_asset_activation_status asset_url;
        if negb (Py.truthy asset_status) then mret false
        else
          st ← lift (Py.getitem asset_status "status");
          if Py.is_str "active" st then
            mark_active asset_key;; mret true
          else
            sleep check_interval;;
            poll_loop fuel' asset_url asset_key start_time timeout
                      check_interval
      else log LogTimeout;; mret false
  end.

Definition wait_for_asset_activation (asset_url : json)
           (timeout check_interval : nat) : M bool :=
  start_time ← time_now;
  match asset_url with
  | JStr u =>
      asset_key ← match derive_asset_key u with
                  | Some k => mret (Some k)
                  | None => log (LogNoAssetKey u);; mret None
                  end;
      poll_loop timeout asset_url asset_key start_time timeout check_interval
  | _ => raise AttributeError   (* asset_url.split *)
  end.

(** ** download_asset *)

Fixpoint write_chunks (path : string) (cs : list string) : M unit :=
  match cs with
  | [] => mret tt
  | c :: cs' => write path c;; write_chunks path cs'
  end.

Fixpoint download_attempts (download_url : json) (output_path : string)
         (max_retries remaining attempt retry_delay : nat) : M bool :=
  match remaining with
  | O => mret false
  | S remaining' =>
      f ← try_except_request
            (response ← http (Request Download GET download_url);
             if (status_code response =? 200)%nat then
               open_w output_path;;
               write_chunks output_path (chunks response);;
               (if stream_ok response then mret tt
                else raise RequestException);;
               mret (Returned true)
             else if (status_code response =? 429)%nat then
               sleep retry_delay;; mret (Continued (retry_delay * 2))
             else mret FellThrough)
            (mret FellThrough);
      match f with
      | Returned v => mret v
      | Continued d =>
          download_attempts download_url output_path max_retries remaining'
                            (S attempt) d
      | FellThrough =>
          if (attempt <? max_retries - 1)%nat then
            sleep retry_delay;;
            download_attempts download_url output_path max_retries
                              remaining' (S attempt) (retry_delay * 2)
          else
            download_attempts download_url output_path max_retries
                              remaining' (S attempt) retry_delay
      end
  end.

(** [not status or status["status"] != "active" or "location" not in status] *)
Definition not_downloadable (status : json) : M bool :=
  if negb (Py.truthy status) then mret true
  else
    st ← lift (Py.getitem status "status");
    if negb (Py.is_str "active" st) then mret true
    else
      has_location ← lift (Py.contains "location" status);
      mret (negb has_location).

Definition download_asset (asset_url : json) (output_path : string) : M bool :=
  status ← get_asset_activation_status asset_url;
  refused ← not_downloadable status;
  if refused : bool then mret false
  else
    download_url ← lift (Py.getitem status "location");
    let max_retries := 3%nat in
    let retry_delay := 2%nat in
    download_attempts download_url output_path max_retries max_retries 0
                      retry_delay.

(** ** save_metadata and process_scene *)

(** The text [json.dump(metadata, f, indent=4)] writes; which fields it
    extracts does not matter to the lifecycle. *)
Variable render_metadata : scene → string.

Definition acquired_date (sc : scene) : string :=
  hd "" (PyStr.split "T" (acquired sc)).

Definition date_dir_of (sc : scene) (output_dir : string) : string :=
  let year := hd "" (PyStr.split "-" (acquired_date sc)) in
  let year_dir := PyStr.path_join output_dir year in
  PyStr.path_join year_dir (acquired_date sc).

Definition save_metadata (sc : scene) (output_dir : string) : M string :=
  let date_dir := date_dir_of sc output_dir in
  let metadata_file :=
    PyStr.path_join date_dir (scene_id sc +:+ "_metadata.json") in
  open_w metadata_file;;
  write metadata_file (render_metadata sc);;
  mret date_dir.

Definition assets_url_of (sc : scene) : string :=
  BASE_URL +:+ "/item-types/" +:+ scene_item_type sc +:+ "/items/"
           +:+ scene_id sc +:+ "/assets".

Definition raw_tif_path_of (sc : scene) (asset_type output_dir : string) : string :=
  PyStr.path_join (date_dir_of sc output_dir)
                  (make_key (scene_id sc) asset_type +:+ ".tif").

(** Lines 455-473 of process_scene ("Check if already activated").
    [None] is the early [return False]; otherwise the in-memory
    [status] dict as the rest of the function sees it. *)
Definition activation_step (status : ledger) (asset_key : string)
           (activation_link self_link : json) (activate_only : bool)
  : M (option ledger) :=
  if bool_decide (is_Some (activated_scenes status !! asset_key)) then
    log (LogSkipActivation asset_key);;
    if negb activate_only then
      ok ← wait_for_asset_activation self_link 300 5;
      if negb ok then mret None else mret (Some status)
    else mret (Some status)
  else
    requested ← activate_asset activation_link;
    if requested : bool then
      let status' :=
        Ledger (<[asset_key := "activating"]> (activated_scenes status))
               (downloaded_scenes status) in
      save_status status';;
      if negb activate_only then
        ok ← wait_for_asset_activation self_link 300 5;
        if negb ok then mret None else mret (Some status')
      else mret (Some status')
    else mret None.

(** Lines 475-494 of process_scene ("Check if already downloaded"). *)
Definition download_step (status : ledger) (asset_key : string)
           (self_link : json) (raw_tif_path : string) (activate_only : bool)
  : M bool :=
  if activate_only then mret true
  else
    on_disk ← (if bool_decide (is_Some (downloaded_scenes status !! asset_key))
               then path_exists raw_tif_path else mret false);
    if on_disk : bool then
      log (LogSkipDownload asset_key);; mret true
    else
      downloaded ← download_asset self_link raw_tif_path;
      if downloaded : bool then
        save_status (Ledger (activated_scenes status)
                            (<[asset_key := true]> (downloaded_scenes status)));;
        mret true
      else mret false.

(** Lines 436-448: the two links of the asset; [None] is [return False]. *)
Definition asset_links (assets : json) (asset_type : string)
  : M (option (json * json)) :=
  available ← lift (Py.contains asset_type assets);
  if negb available then mret None
  else
    asset_data ← lift (Py.getitem assets asset_type);
    has_links ← lift (Py.contains "_links" asset_data);
    if negb has_links then mret None
    else
      links ← lift (Py.getitem asset_data "_links");
      has_activate ← lift (Py.contains "activate" links);
      missing ← (if negb has_activate then mret true
                 else has_self ← lift (Py.contains "_self" links);
                      mret (negb has_self));
      if missing : bool then mret None
      else
        activation_link ← lift (Py.getitem links "activate");
        self_link ← lift (Py.getitem links "_self");
        mret (Some (activation_link, self_link)).

Definition process_scene (sc : scene) (asset_type output_dir : string)
           (activate_only : bool) : M bool :=
  date_dir ← save_metadata sc output_dir;
  status ← load_status;
  response ← http (Request Listing GET (JStr (assets_url_of sc)));
  if negb (status_code response =? 200)%nat then mret false
  else
    assets ← response_json response;
    found ← asset_links assets asset_type;
    match found with
    | None => mret false
    | Some (activation_link, self_link) =>
        let asset_key := make_key (scene_id sc) asset_type in
        activated ← activation_step status asset_key activation_link
                                    self_link activate_only;
        match activated with
        | None => mret false
        | Some status =>
            let raw_tif_path :=
              PyStr.path_join date_dir (asset_key +:+ ".tif") in
            download_step status asset_key self_link raw_tif_path
                          activate_only
        end
    end.

(** ** The loop over asset types (lines 562-565 of main) *)

Fixpoint for_asset_types (sc : scene) (asset_types : list string)
         (output_dir : string) (activate_only : bool)
         (successful_assets : nat) : M nat :=
  match asset_types with
  | [] => mret successful_assets
  | asset_type :: rest =>
      ok ← process_scene sc asset_type output_dir activate_only;
      for_asset_types sc rest output_dir activate_only
        (if ok : bool then S successful_assets else successful_assets)
  end.

End Script.

(** ** search_planet_imagery, display_status_summary and main *)

Section Batch.

Variable env : provider.

(** The text [json.dump(metadata, f, indent=4)] writes for a feature of
    the search result, and Python's [str()] of a decoded value, as the
    f-strings of the script apply it to the id and the item type of a
    feature (on a string, the string itself). *)
Variable render_feature : json → string.
Variable format_value : json → string.

(** [search_planet_imagery]: the features found, or [None] when the
    reply is not a 200.  The request is not guarded and has no timeout.
    The filter sent with it ([build_search_request]) is fixed for a run
    and not part of the model: the provider stands for what the service
    answers to it. *)
Definition search_planet_imagery : M json :=
  response ← http env (Request Search POST (JStr SEARCH_URL));
  if negb (status_code response =? 200)%nat then mret JNull
  else
    search_result ← response_json response;
    lift (Py.get search_result "features" (JArr [])).

Definition display_status_summary : M unit :=
  status ← load_status;
  log (LogSummary (size (activated_scenes status))
                  (size (downloaded_scenes status))).

(** One pass of [for scene in features] (lines 560-565).  The log line
    of line 561 reads [scene['id']].  With no asset type nothing else is
    read.  Otherwise every call of [process_scene] reads the same fields
    of the same feature, so what the first call meets decides: lines 409
    and 370 read ["properties"]["acquired"] and split it, line 387 reads
    ["cloud_cover"] before the metadata file is opened, and line 418
    reads ["item_type"] after the metadata is written and the ledger
    loaded. *)
Definition for_scene (feature : json) (asset_types : list string)
           (output_dir : string) (activate_only : bool)
           (successful_assets : nat) : M nat :=
  scene_id ← lift (Py.getitem feature "id");
  match asset_types with
  | [] => mret successful_assets
  | _ :: _ =>
      properties ← lift (Py.getitem feature "properties");
      acquired ← lift (Py.getitem properties "acquired");
      acquired ← lift (Py.as_str acquired);
      _ ← lift (Py.getitem properties "cloud_cover");
      let render := λ _ : scene, render_feature feature in
      match Py.getitem properties "item_type" with
      | Ok item_type =>
          for_asset_types env render
            (Scene (format_value scene_id) acquired (format_value item_type))
            asset_types output_dir activate_only successful_assets
      | Raise e =>
          save_metadata render (Scene (format_value scene_id) acquired "")
                        output_dir;;
          load_status;;
          raise e
      end
  end.

Fixpoint for_scenes (features : list json) (asset_types : list string)
         (output_dir : string) (activate_only : bool)
         (successful_assets : nat) : M nat :=
  match features with
  | [] => mret successful_assets
  | feature :: rest =>
      n ← for_scene feature asset_types output_dir activate_only
            successful_assets;
      for_scenes rest asset_types output_dir activate_only n
  end.

(** [main], after [parse_args] has returned [asset_types], [output_dir]
    and [activate_only] and the output directory has been made. *)
Definition main (asset_types : list string) (output_dir : string)
           (activate_only : bool) : M unit :=
  display_status_summary;;
  features ← search_planet_imagery;
  if negb (Py.truthy features) then log LogNoImagery
  else
    scenes ← lift (Py.items features);
    successful_assets ← for_scenes scenes asset_types output_dir
                                   activate_only 0;
    log (LogTally successful_assets (length scenes * length asset_types));;
    display_status_summary.

End Batch.

(* ===================================================================== *)
(** * Observations on traces and worlds *)
(* ===================================================================== *)

Definition is_request_at (s : site) (e : event) : bool :=
  match e with
  | EReq r _ => match req_site r, s with
                | Search, Search | Listing, Listing | Activate, Activate
                | Status, Status | Download, Download => true
                | _, _ => false
                end
  | _ => false
  end.

Definition is_request (e : event) : bool :=
  match e with EReq _ _ => true | _ => false end.

(** An activation POST the provider accepted (202 or 204). *)
Definition is_accepted_post (e : event) : bool :=
  match e with
  | EReq (Request Activate _ _) (Replied resp) =>
      (status_code resp =? 202)%nat || (status_code resp =? 204)%nat
  | _ => false
  end.

Definition count (p : event → bool) (es : list event) : nat :=
  length (filter (λ e, p e = true) es).

Definition sleeps_of (es : list event) : list nat :=
  omap (λ e, match e with ESleep d => Some d | _ => None end) es.

Definition requests_of (es : list event) : list request :=
  omap (λ e, match e with EReq r _ => Some r | _ => None end) es.

(** The ledger a run would load from the status file, if it decodes. *)
Definition ledger_of (w : world) : option ledger :=
  match status_file w with
  | Absent => Some empty_ledger
  | Snapshot l => Some l
  | Torn => None
  end.

Definition activation_of (k : string) (w : world) : option string :=
  l ← ledger_of w; activated_scenes l !! k.

Definition downloaded_flag (k : string) (w : world) : bool :=
  match ledger_of w with
  | Some l => bool_decide (is_Some (downloaded_scenes l !! k))
  | None => false
  end.

(** ** The relations used below *)

(** The new events of a run all satisfy [P]. *)
Definition emits (P : event → Prop) : relation world :=
  λ w w', ∃ es, trace w' = trace w ++ es ∧ Forall P es.

Definition same_status : relation world :=
  λ w w', status_file w' = status_file w.

Definition same_disk : relation world :=
  λ w w', disk w' = disk w.

Definition clock_le : relation world :=
  λ w w', (clock w ≤ clock w')%nat.

Definition keeps_valid : relation world :=
  λ w w', status_file w ≠ Torn → status_file w' ≠ Torn.

Definition keeps_key (k : string) : relation world :=
  λ w w', is_Some (activation_of k w) → is_Some (activation_of k w').

(** A reply with status 200 whose body is JSON. *)
Definition is_200_reply (e : event) : bool :=
  match e with
  | EReq _ (Replied resp) => (status_code resp =? 200)%nat && json_ok resp
  | _ => false
  end.

(** [status["status"] == "active"] evaluates to true on this body. *)
Definition active_body (b : json) : bool :=
  match Py.getitem b "status" with
  | Ok v => Py.is_str "active" v
  | Raise _ => false
  end.

(** A status check the provider answered 200 with status "active". *)
Definition reports_active (e : event) : bool :=
  match e with
  | EReq (Request Status _ _) (Replied resp) =>
      (status_code resp =? 200)%nat && json_ok resp && active_body (body resp)
  | _ => false
  end.

(** The event opens or writes a file. *)
Definition is_file_write (e : event) : bool :=
  match e with
  | EOpenW _ | EWrite _ _ | EDump _ _ => true
  | _ => false
  end.

(** What [get_asset_activation_status] can return after the events [es]:
    the body of a 200 reply, which is then the last event, or [None]
    when no reply was 200. *)
Definition status_result (u : json) (v : json) (es : list event) : Prop :=
  (v = JNull ∧ Forall (λ e, is_200_reply e = false) es) ∨
  (∃ es0 resp, es = es0 ++ [EReq (Request Status GET u) (Replied resp)] ∧
               status_code resp = 200%nat ∧ json_ok resp = true ∧
               v = body resp ∧
               Forall (λ e, is_200_reply e = false) es0).

(** The world after a request answered [o] in [lat] seconds, and after a
    [time.sleep(d)]. *)
Definition after_req (r : request) (o : outcome) (lat : nat) (w : world) : world :=
  World (clock w + lat) (trace w ++ [EReq r o]) (status_file w) (disk w).

Definition after_sleep (d : nat) (w : world) : world :=
  World (clock w + d) (trace w ++ [ESleep d]) (status_file w) (disk w).

(** The ledger with [k] marked active, and the world after
    [mark_active] has saved it. *)
Definition with_active (k : string) (l : ledger) : ledger :=
  Ledger (<[k := "active"]> (activated_scenes l)) (downloaded_scenes l).

Definition after_mark (k : string) (l : ledger) (w : world) : world :=
  World (clock w)
        (trace w ++ [EOpenW STATUS_FILE; EDump STATUS_FILE (with_active k l);
                     ELog (LogStatusUpdated k)])
        (Snapshot (with_active k l)) (disk w).

(** The only change a poll makes to the ledger file: the entry of a key
    that is already there becomes "active". *)
Definition marked (k : string) (w w' : world) : Prop :=
  ∃ l, ledger_of w = Some l ∧ is_Some (activated_scenes l !! k) ∧
       status_file w' = Snapshot (with_active k l).

(** ** Saving the ledger, step by step *)

(** The file-system steps [save_status] performs, in order. *)
Definition save_status_steps (l : ledger) : list (M unit) :=
  [open_status_w; dump_status l].

Fixpoint run_steps (ms : list (M unit)) : M unit :=
  match ms with
  | [] => mret tt
  | m :: ms' => m;; run_steps ms'
  end.

(** The process is killed after the first [n] steps. *)
Definition crash_after (n : nat) (ms : list (M unit)) : M unit :=
  run_steps (take n ms).

(** Atomicity of a save with respect to a reader: wherever the save
    stops, the file holds the old snapshot or the new one. *)
Definition atomic_save : Prop :=
  ∀ (l0 l : ledger) (n : nat) (w : world),
    status_file w = Snapshot l0 →
    let w' := (crash_after n (save_status_steps l) w).2 in
    status_file w' = Snapshot l0 ∨ status_file w' = Snapshot l.

(** The ledgers dumped to the status file, in order. *)
Definition dumps_of (es : list event) : list ledger :=
  omap (λ e, match e with EDump _ l => Some l | _ => None end) es.

Definition metadata_path_of (sc : scene) (output_dir : string) : string :=
  PyStr.path_join (date_dir_of sc output_dir) (scene_id sc +:+ "_metadata.json").

(** The reading of "a completed item is skipped entirely": no network
    call at all for an item that the ledger marks downloaded and whose
    file is on disk. *)
Definition completed_item_skipped_entirely : Prop :=
  ∀ (env : provider) (render : scene → string) (sc : scene)
    (asset_type output_dir : string) (activate_only : bool) (w : world) es,
    downloaded_flag (make_key (scene_id sc) asset_type) w = true →
    is_Some (disk w !! raw_tif_path_of sc asset_type output_dir) →
    trace (process_scene env render sc asset_type output_dir activate_only w).2
      = trace w ++ es →
    count is_request es = 0%nat.

(** The amended reading of the completed-item skip, in the order of
    [process_scene]: the metadata is written, the ledger loaded, the
    assets listed and the asset activated or polled by the same
    [activation_step] as for any item; only what follows a successful
    activation stage differs: nothing but the log line "already
    downloaded, skipping download", and [True]. *)
Definition process_scene_skipping_download (env : provider)
    (render : scene → string) (sc : scene) (asset_type output_dir : string)
    (activate_only : bool) : M bool :=
  _ ← save_metadata render sc output_dir;
  status ← load_status;
  response ← http env (Request Listing GET (JStr (assets_url_of sc)));
  if negb (status_code response =? 200)%nat then mret false
  else
    assets ← response_json response;
    found ← asset_links assets asset_type;
    match found with
    | None => mret false
    | Some (activation_link, self_link) =>
        let asset_key := make_key (scene_id sc) asset_type in
        activated ← activation_step env status asset_key activation_link
                                    self_link activate_only;
        match activated with
        | None => mret false
        | Some _ =>
            if activate_only then mret true
            else log (LogSkipDownload asset_key);; mret true
        end
    end.

Definition after_log (m : log_msg) (w : world) : world :=
  World (clock w) (trace w ++ [ELog m]) (status_file w) (disk w).

Definition after_save (l : ledger) (w : world) : world :=
  World (clock w) (trace w ++ [EOpenW STATUS_FILE; EDump STATUS_FILE l])
        (Snapshot l) (disk w).

(** The in-memory [status] dict after [process_scene] has recorded the
    activation request, and after it has recorded the download. *)
Definition with_activating (k : string) (l : ledger) : ledger :=
  Ledger (<[k := "activating"]> (activated_scenes l)) (downloaded_scenes l).

Definition with_downloaded (k : string) (l : ledger) : ledger :=
  Ledger (activated_scenes l) (<[k := true]> (downloaded_scenes l)).

(** The wait, as the caller reads its result. *)
Definition after_wait {A} (kept : A) (res : result bool * world)
  : result (option A) * world :=
  match res with
  | (Ok true, w) => (Ok (Some kept), w)
  | (Ok false, w) => (Ok None, w)
  | (Raise e, w) => (Raise e, w)
  end.

(** ** Vocabulary of idempotent activation *)

(** Activation POSTs sent, and activation POSTs the provider accepted. *)
Definition posts (es : list event) : nat := count (is_request_at Activate) es.
Definition accepted (es : list event) : nat := count is_accepted_post es.

(** In the events [es], the ledger with [key] marked "activating" is
    dumped to the status file before any status check is sent. *)
Definition persisted_before_polling (key : string) (es : list event) : Prop :=
  ∃ a l b, es = a ++ EDump STATUS_FILE l :: b ∧
           activated_scenes l !! key = Some "activating" ∧
           Forall (λ e, is_request_at Status e = false) a.

(** The literal reading of "at most one activation POST per asset key
    over two runs". *)
Definition at_most_one_post_in_two_runs : Prop :=
  ∀ (env : provider) (render : scene → string) (sc : scene)
    (asset_type output_dir : string) (activate_only : bool) (w : world),
    let run1 := process_scene env render sc asset_type output_dir
                  activate_only w in
    let run2 := process_scene env render sc asset_type output_dir
                  activate_only run1.2 in
    (posts (trace run2.2) ≤ posts (trace w) + 1)%nat.

(** ** Vocabulary of the download *)

(** The bytes of a body received in chunks. *)
Definition join_chunks (cs : list string) : string :=
  fold_right String.append "" cs.

(** The world after [open(path, "wb")] and one [f.write] per chunk. *)
Definition after_write (path : string) (cs : list string) (w : world) : world :=
  World (clock w) (trace w ++ EOpenW path :: map (EWrite path) cs)
        (status_file w) (<[path := join_chunks cs]> (disk w)).

(** The download flag of [k] is not set between the two worlds. *)
Definition keeps_unflagged (k : string) : relation world :=
  λ w w', downloaded_flag k w' = true → downloaded_flag k w = true.

(** What publishing through a temporary path and a rename would give: a
    download that does not succeed leaves the final path as it was. *)
Definition final_path_changes_only_on_success : Prop :=
  ∀ (env : provider) (asset_url : json) (output_path : string) (w : world),
    (download_asset env asset_url output_path w).1 ≠ Ok true →
    disk (download_asset env asset_url output_path w).2 !! output_path
      = disk w !! output_path.

(** What the activation stage of [process_scene] sends and records. *)
Definition activation_facts (key : string) (l : ledger) (w : world)
    (r : result (option ledger)) (w' : world) (es : list event) : Prop :=
  trace w' = trace w ++ es ∧
  (posts es ≤ 3)%nat ∧ (accepted es ≤ 1)%nat ∧
  (is_Some (activated_scenes l !! key) → posts es = 0%nat) ∧
  (is_Some (activation_of key w) → is_Some (activation_of key w')) ∧
  (accepted es = 1%nat →
   is_Some (activation_of key w') ∧ persisted_before_polling key es) ∧
  (∀ l', r = Ok (Some l') →
         is_Some (activated_scenes l' !! key) ∧ is_Some (activation_of key w')).

(** ** Vocabulary of the batch *)

(** A listing body on which [process_scene] finds its way without an
    exception: the listing is an object; the entry of the asset type, when
    there is one, is an object; its "_links", when present, is an object;
    and "_self", when present, is a string. *)
Definition well_formed_listing (asset_type : string) (b : json) : bool :=
  match b with
  | JObj f =>
      match Py.assoc asset_type f with
      | None => true
      | Some (JObj fd) =>
          match Py.assoc "_links" fd with
          | None => true
          | Some (JObj fl) =>
              match Py.assoc "_self" fl with
              | None | Some (JStr _) => true
              | Some _ => false
              end
          | Some _ => false
          end
      | Some _ => false
      end
  | _ => false
  end.

(** A status body the script can read: empty or null, or an object with a
    "status" field. *)
Definition well_formed_status (b : json) : Prop :=
  Py.truthy b = true → ∃ s, Py.getitem b "status" = Ok s.

(** A feature from which the script can read what it reads: an object
    with an "id" and with "properties" that are an object with a string
    "acquired", a "cloud_cover" and an "item_type". *)
Definition well_formed_feature (j : json) : bool :=
  match j with
  | JObj f =>
      match Py.assoc "id" f, Py.assoc "properties" f with
      | Some _, Some (JObj fp) =>
          match Py.assoc "acquired" fp, Py.assoc "cloud_cover" fp,
                Py.assoc "item_type" fp with
          | Some (JStr _), Some _, Some _ => true
          | _, _, _ => false
          end
      | _, _ => false
      end
  | _ => false
  end.

(** A search result the script can read: an object whose "features",
    when present, are falsy (nothing found) or a list of well-formed
    features. *)
Definition well_formed_search (b : json) : bool :=
  match b with
  | JObj f =>
      match Py.assoc "features" f with
      | None => true
      | Some (JArr l) => forallb well_formed_feature l
      | Some v => negb (Py.truthy v)
      end
  | _ => false
  end.

(** The features [main] goes through after a search answered [resp]. *)
Definition found_features (resp : response) : list json :=
  if (status_code resp =? 200)%nat then
    match Py.get (body resp) "features" (JArr []) with
    | Ok (JArr l) => l
    | _ => []
    end
  else [].

(** The provider answers the search and every listing request, and the
    bodies of its 200 replies are JSON and well formed; a 200 status
    reply need not be JSON, but is well formed when it is.  Nothing is
    asked of activation and download replies, and status requests may
    fail in any way. *)
Definition well_formed_provider (env : provider) : Prop :=
  (∀ h u, ∃ resp lat,
      env h (Request Search POST u) = (Replied resp, lat) ∧
      (status_code resp = 200%nat →
       json_ok resp = true ∧ well_formed_search (body resp) = true)) ∧
  (∀ h u, ∃ resp lat,
      env h (Request Listing GET u) = (Replied resp, lat) ∧
      (status_code resp = 200%nat →
       json_ok resp = true ∧
       ∀ t, well_formed_listing t (body resp) = true)) ∧
  (∀ h u resp lat,
      env h (Request Status GET u) = (Replied resp, lat) →
      status_code resp = 200%nat → json_ok resp = true →
      well_formed_status (body resp)).

(** The final tally was logged among the events [es]. *)
Definition tally_logged (es : list event) : Prop :=
  ∃ n total, ELog (LogTally n total) ∈ es.

(** The reading of "the process always completes its batch and reports a
    success/total count", for a ledger file that decodes. *)
Definition batch_always_reports_tally : Prop :=
  ∀ (env : provider) (render : json → string) (format : json → string)
    (asset_types : list string) (output_dir : string) (activate_only : bool)
    (w : world),
    status_file w ≠ Torn →
    let run := main env render format asset_types output_dir activate_only w in
    run.1 = Ok tt ∧ ∃ es, trace run.2 = trace w ++ es ∧ tally_logged es.

(** ** Vocabulary of the retry ceiling *)

(** The provider answers every request with status 429. *)
Definition always_429 (env : provider) : Prop :=
  ∀ h r, ∃ resp lat, env h r = (Replied resp, lat) ∧ status_code resp = 429%nat.

(** [n] attempts at [r], each answered 429 and followed by a wait, the
    waits starting at [d] seconds and doubling. *)
Fixpoint backoff_events (r : request) (n d : nat) (es : list event) : Prop :=
  match n with
  | O => es = []
  | S n' => ∃ resp es', es = EReq r (Replied resp) :: ESleep d :: es' ∧
                        status_code resp = 429%nat ∧
                        backoff_events r n' (d * 2) es'
  end.

(** [d, 2d, 4d, ...], [n] terms. *)
Fixpoint geometric (n d : nat) : list nat :=
  match n with
  | O => []
  | S n' => d :: geometric n' (d * 2)
  end.

(** ** Worlds and providers used in the examples *)

Definition fresh_world : world := World 0 [] Absent ∅.

Definition reply_429 : response := Response 429 JNull [] true true.

(** A provider that rate-limits every request. *)
Definition env_429 : provider := λ _ _, (Replied reply_429, 0%nat).

Definition ok_reply (b : json) : response := Response 200 b [] true true.

Definition demo_scene : scene := Scene "S1" "2024-05-01T10:00:00Z" "PSScene".

(** The feature of a search result that reads as [demo_scene], a search
    result with the given features, and [str()] on the values met here. *)
Definition demo_feature : json :=
  JObj [("id", JStr "S1");
        ("properties",
         JObj [("acquired", JStr "2024-05-01T10:00:00Z");
               ("cloud_cover", JNum 0);
               ("item_type", JStr "PSScene")])].
Definition search_body (features : list json) : json :=
  JObj [("features", JArr features)].
Definition demo_format : json → string :=
  λ j, match j with JStr s => s | _ => "" end.
Definition demo_render_feature : json → string := λ _, "{}".
Definition demo_type : string := "basic_analytic_8b".
Definition demo_key : string := "S1_basic_analytic_8b".
Definition demo_render : scene → string := λ _, "{}".

(** A self link in the format the comment in [wait_for_asset_activation]
    gives, one as the provider's asset endpoint issues them (7 parts),
    and one whose fourth part from the end is the item id. *)
Definition self_documented : string :=
  "https://api.planet.com/data/v1/item-types/PSScene/items/S1/assets/basic_analytic_8b".
Definition self_short : string :=
  "https://api.planet.com/data/v1/assets/eyJpIjoiUzEifQ".
Definition self_keyed : string :=
  "https://api.planet.com/data/v1/item-types/PSScene/items/S1/assets/types/basic_analytic_8b".

Definition listing_body (asset_type self : string) : json :=
  JObj [(asset_type,
         JObj [("status", JStr "inactive");
               ("_links",
                JObj [("activate", JStr "https://api.planet.com/activate/S1");
                      ("_self", JStr self)])])].

Definition active_status : json :=
  JObj [("status", JStr "active");
        ("location", JStr "https://download.example/S1")].

(** A provider where everything works at the first attempt: the asset is
    listed with the given self link, activation is accepted, the asset is
    active, and the download streams two chunks. *)
Definition env_happy (self : string) : provider := λ _ r,
  (match req_site r with
   | Search => Replied (ok_reply (search_body [demo_feature]))
   | Listing => Replied (ok_reply (listing_body demo_type self))
   | Activate => Replied (Response 202 JNull [] true true)
   | Status => Replied (ok_reply active_status)
   | Download => Replied (Response 200 JNull ["AB"; "CD"] true true)
   end, 0%nat).

(** A provider whose asset is still being activated. *)
Definition env_pending : provider := λ _ r,
  (match req_site r with
   | Search => Replied (ok_reply (search_body [demo_feature]))
   | Listing => Replied (ok_reply (listing_body demo_type self_keyed))
   | Activate => Replied (Response 202 JNull [] true true)
   | Status => Replied (ok_reply (JObj [("status", JStr "activating")]))
   | Download => Replied (Response 200 JNull ["AB"; "CD"] true true)
   end, 0%nat).

Definition demo_ledger : ledger := Ledger {[ demo_key := "active" ]} ∅.

(** A world whose ledger records the activation request of the item. *)
Definition activating_world : world :=
  World 0 [] (Snapshot (Ledger {[ demo_key := "activating" ]} ∅)) ∅.

(** A scene whose id is the word the documented link format has in the
    fourth place from the end, with its self link in that format. *)
Definition items_scene : scene := Scene "items" "2024-05-01T10:00:00Z" "PSScene".
Definition self_items : string :=
  "https://api.planet.com/data/v1/item-types/PSScene/items/items/assets/basic_analytic_8b".

(** A finished item: the ledger says active and downloaded, and the file
    is on disk. *)
Definition done_ledger : ledger :=
  Ledger {[ demo_key := "active" ]} {[ demo_key := true ]}.
Definition done_world : world :=
  World 0 [] (Snapshot done_ledger)
        {[ "planet_data/2024/2024-05-01/S1_basic_analytic_8b.tif" := "ABCD" ]}.

(** A provider that refuses the first activation POST with a 500 and
    accepts the next one; everything else works. *)
Definition env_flaky : provider := λ h r,
  (match req_site r with
   | Search => Replied (ok_reply (search_body [demo_feature]))
   | Listing => Replied (ok_reply (listing_body demo_type self_documented))
   | Activate =>
       if (count (is_request_at Activate) h =? 0)%nat
       then Replied (Response 500 JNull [] true true)
       else Replied (Response 202 JNull [] true true)
   | Status => Replied (ok_reply active_status)
   | Download => Replied (Response 200 JNull ["AB"; "CD"] true true)
   end, 0%nat).

(** A provider that refuses every activation POST. *)
Definition env_refusing : provider := λ _ r,
  (match req_site r with
   | Search => Replied (ok_reply (search_body [demo_feature]))
   | Listing => Replied (ok_reply (listing_body demo_type self_documented))
   | _ => Replied (Response 500 JNull [] true true)
   end, 0%nat).

(** A provider whose download stream always breaks after one chunk. *)
Definition env_broken : provider := λ _ r,
  (match req_site r with
   | Search => Replied (ok_reply (search_body [demo_feature]))
   | Listing => Replied (ok_reply (listing_body demo_type self_documented))
   | Activate => Replied (Response 202 JNull [] true true)
   | Status => Replied (ok_reply active_status)
   | Download => Replied (Response 200 JNull ["AB"] false true)
   end, 0%nat).

(** A provider that answers every request with a 200 whose body is not
    JSON. *)
Definition env_garbled : provider :=
  λ _ _, (Replied (Response 200 JNull [] true false), 0%nat).

(** A feature without an item type, and a provider whose search finds
    it. *)
Definition feature_without_item_type : json :=
  JObj [("id", JStr "S1");
        ("properties",
         JObj [("acquired", JStr "2024-05-01T10:00:00Z");
               ("cloud_cover", JNum 0)])].
Definition env_no_item_type : provider := λ _ r,
  (match req_site r with
   | Search => Replied (ok_reply (search_body [feature_without_item_type]))
   | _ => Replied (Response 500 JNull [] true true)
   end, 0%nat).

(** A provider whose search finds nothing. *)
Definition env_no_features : provider := λ _ r,
  (match req_site r with
   | Search => Replied (ok_reply (search_body []))
   | _ => Replied (Response 500 JNull [] true true)
   end, 0%nat).

(** A provider whose 200 status reply has no "status" field. *)
Definition env_malformed : provider := λ _ r,
  (match req_site r with
   | Search => Replied (ok_reply (search_body [demo_feature]))
   | Listing => Replied (ok_reply (listing_body demo_type self_documented))
   | Activate => Replied (Response 202 JNull [] true true)
   | Status => Replied (ok_reply (JObj [("state", JStr "active")]))
   | Download => Replied (Response 200 JNull ["AB"; "CD"] true true)
   end, 0%nat).

(** ** Vocabulary of the retry loops in general *)

(** Seconds slept in the events [es]. *)
Definition total_sleep (es : list event) : nat := sum_list (sleeps_of es).

(** The most a retry loop with [n] attempts left and delay [d] can sleep:
    the delay doubles at most once per attempt. *)
Fixpoint sleep_budget (n d : nat) : nat :=
  match n with
  | O => 0
  | S n' => d + sleep_budget n' (d * 2)
  end.

(** The event is a request from the given call site, or a sleep. *)
Definition request_or_sleep (s : site) (e : event) : Prop :=
  is_request_at s e = true ∨ ∃ d, e = ESleep d.

(** A reply that is neither a success nor a rate limit for the status
    check: a transport fault, or a code other than 200 and 429. *)
Definition status_refused (o : outcome) : Prop :=
  match o with
  | Replied resp => status_code resp ≠ 200%nat ∧ status_code resp ≠ 429%nat
  | Failed => True
  end.

(** The provider refuses every status check in that way. *)
Definition status_always_refused (env : provider) : Prop :=
  ∀ h u, status_refused (env h (Request Status GET u)).1.

(** The events of a retry loop whose attempts all go on to the next one:
    each request with its outcome, and a sleep of [d] between two of them
    (none after the last). *)
Fixpoint refused_attempts (r : request) (d : nat) (os : list outcome)
    : list event :=
  match os with
  | [] => []
  | o :: os' =>
      EReq r o ::
      match os' with
      | [] => []
      | _ :: _ => ESleep d :: refused_attempts r d os'
      end
  end.

(** A provider that answers every request with a 500. *)
Definition env_500 : provider :=
  λ _ _, (Replied (Response 500 JNull [] true true), 0%nat).

(** ** More vocabulary of the download *)

(** A status body with which [download_asset] goes on to download from
    [loc]: it is truthy, its status is "active" and it has a location. *)
Definition downloadable (b loc : json) : Prop :=
  Py.truthy b = true ∧ active_body b = true ∧ Py.getitem b "location" = Ok loc.

(** The provider answers every status check at once with a 200 and a
    JSON body that is downloadable. *)
Definition status_always_ready (env : provider) : Prop :=
  ∀ h u, ∃ resp lat loc,
    env h (Request Status GET u) = (Replied resp, lat) ∧
    status_code resp = 200%nat ∧ json_ok resp = true ∧
    downloadable (body resp) loc.

(** A reply that is neither a success nor a rate limit for the download. *)
Definition download_refused (o : outcome) : Prop :=
  match o with
  | Replied resp => status_code resp ≠ 200%nat ∧ status_code resp ≠ 429%nat
  | Failed => True
  end.

Definition download_always_refused (env : provider) : Prop :=
  ∀ h u, download_refused (env h (Request Download GET u)).1.

(** The only file the event opens or writes, if any, is [p]; the ledger
    is not dumped. *)
Definition touches_only (p : string) (e : event) : Prop :=
  match e with
  | EOpenW q | EWrite q _ => q = p
  | EDump _ _ => False
  | _ => True
  end.

(** Every file other than [p] is as it was. *)
Definition same_elsewhere (p : string) : relation world :=
  λ w w', ∀ q, q ≠ p → disk w' !! q = disk w !! q.

(** The asset is active, but every download request gets a 500. *)
Definition env_download_500 : provider := λ _ r,
  (match req_site r with
   | Status => Replied (ok_reply active_status)
   | _ => Replied (Response 500 JNull [] true true)
   end, 0%nat).

(** ** Vocabulary of self links *)

(** The string has no occurrence of the character. *)
Fixpoint free_of (c : ascii) (s : string) : bool :=
  match s with
  | EmptyString => true
  | String x rest => negb (Ascii.eqb x c) && free_of c rest
  end.

(** A self link in the format the comment in [wait_for_asset_activation]
    documents: [{prefix}/item-types/{item_type}/items/{item_id}/assets/{asset_type}]. *)
Definition documented_self_link (prefix item_type item_id asset_type : string)
  : string :=
  prefix +:+ "/item-types/" +:+ item_type +:+ "/items/" +:+ item_id
         +:+ "/assets/" +:+ asset_type.

(** ** Vocabulary of the poll *)

(** No status check is ever answered with a 200. *)
Definition status_never_200 (env : provider) : Prop :=
  ∀ h u resp lat,
    env h (Request Status GET u) = (Replied resp, lat) →
    status_code resp ≠ 200%nat.

(** ** Vocabulary of the activate-only mode *)

(** What a run in activate-only mode may do for the scenes [fs]: list
    assets and POST activations, sleep between retries, log, and open or
    write the ledger file or the metadata file of one of the scenes. *)
Definition activate_only_event (fs : list scene) (output_dir : string)
    (e : event) : Prop :=
  match e with
  | EReq r _ => req_site r = Listing ∨ req_site r = Activate
  | EOpenW p | EWrite p _ | EDump p _ =>
      p = STATUS_FILE ∨ ∃ sc, sc ∈ fs ∧ p = metadata_path_of sc output_dir
  | ESleep _ | ELog _ => True
  end.

(** ** Vocabulary of the ledger over a batch *)

(** Every key recorded in the ledger file is still recorded afterwards,
    in both tables, and the file still decodes. *)
Definition ledger_grows : relation world :=
  λ w w', ∀ l, ledger_of w = Some l →
    ∃ l', ledger_of w' = Some l' ∧
          dom (activated_scenes l) ⊆ dom (activated_scenes l') ∧
          dom (downloaded_scenes l) ⊆ dom (downloaded_scenes l').

(** A provider that cannot be reached, and one whose search finds two
    features but whose other endpoints cannot be reached. *)
Definition env_offline : provider := λ _ _, (Failed, 0%nat).
Definition env_listing_down : provider := λ _ r,
  (match req_site r with
   | Search => Replied (ok_reply (search_body [demo_feature; demo_feature]))
   | _ => Failed
   end, 0%nat).

(** A ledger with an entry of another item, and a world that holds it. *)
Definition other_ledger : ledger :=
  Ledger {[ "S0_basic_analytic_8b" := "active" ]}
         {[ "S0_basic_analytic_8b" := true ]}.
Definition other_world : world := World 0 [] (Snapshot other_ledger) ∅.

(** ** Vocabulary of the features of a search *)

(** The scene [process_scene] works on for a feature: its id and item
    type as the f-strings format them, and its acquisition time.  There
    is none when the id or the acquisition time cannot be read; a missing
    item type is met only after the metadata file is written, whose path
    does not depend on it. *)
Definition scene_of (format : json → string) (j : json) : option scene :=
  match Py.getitem j "id", Py.getitem j "properties" with
  | Ok id, Ok props =>
      match Py.getitem props "acquired" with
      | Ok (JStr acq) =>
          Some (Scene (format id) acq
                      match Py.getitem props "item_type" with
                      | Ok it => format it
                      | Raise _ => ""
                      end)
      | _ => None
      end
  | _, _ => None
  end.

(** The features [main] goes through after a search with this outcome. *)
Definition features_of_reply (o : outcome) : list json :=
  match o with
  | Replied resp =>
      if (status_code resp =? 200)%nat && json_ok resp then
        match Py.get (body resp) "features" (JArr []) with
        | Ok v => match Py.items v with Ok l => l | Raise _ => [] end
        | Raise _ => []
        end
      else []
  | Failed => []
  end.

(** ** Vocabulary of the download precondition *)

(** The body has a resolved location: a "location" that is a string. *)
Definition resolved_location (status : json) : bool :=
  match Py.getitem status "location" with
  | Ok (JStr _) => true
  | _ => false
  end.

(** The literal reading of the download precondition: whenever the
    re-fetched status is not active, or has no resolved location,
    [download_asset] returns [False] in the world the status check left
    (nothing is sent, waited for or retried after it). *)
Definition fails_at_once_unless_ready : Prop :=
  ∀ (env : provider) (asset_url : json) (output_path : string)
    (w : world) (status : json) (w1 : world),
    get_asset_activation_status env asset_url w = (Ok status, w1) →
    active_body status = false ∨ resolved_location status = false →
    download_asset env asset_url output_path w = (Ok false, w1).

(** A provider whose asset is active with a location that is null; a
    download from that location fails before anything is sent
    ([requests] raises MissingSchema, a RequestException). *)
Definition env_null_location : provider := λ _ r,
  (match req_site r with
   | Status => Replied (ok_reply (JObj [("status", JStr "active");
                                         ("location", JNull)]))
   | _ => Failed
   end, 0%nat).

(** [steps R m]: whatever [m] returns or raises, the world it leaves is
    related by [R] to the world it started in. *)
Definition steps (R : relation world) {A} (m : M A) : Prop :=
  ∀ w, R w (m w).2.

(* ===================================================================== *)
(** * Reasoning about computations *)
(* ===================================================================== *)

Lemma bind_run {A B} (m : M A) (f : A → M B) (w : world) :
  (m ≫= f) w = match m w with
               | (Ok a, w1) => f a w1
               | (Raise e, w1) => (Raise e, w1)
               end.
Proof. reflexivity. Qed.

Lemma ret_run {A} (a : A) w : (mret a : M A) w = (Ok a, w).
Proof. reflexivity. Qed.

(** ** Relations between the world before and after a computation

    A reflexive and transitive relation that every primitive step of a
    function respects is respected by the function, whatever it returns
    or raises. *)
Section Steps.

Context (R : relation world) `{!PreOrder R}.

Lemma steps_ret {A} (a : A) : steps R (mret a).
Proof. intros w. simpl. reflexivity. Qed.

Lemma steps_raise {A} e : steps R (raise e : M A).
Proof. intros w. simpl. reflexivity. Qed.

Lemma steps_lift {A} (r : result A) : steps R (lift r).
Proof. intros w. simpl. reflexivity. Qed.

Lemma steps_response_json r : steps R (response_json r).
Proof. intros w. unfold response_json. destruct (json_ok r); simpl; reflexivity. Qed.

Lemma steps_time_now : steps R time_now.
Proof. intros w. simpl. reflexivity. Qed.

Lemma steps_load_status : steps R load_status.
Proof. intros w. unfold load_status. destruct (status_file w); simpl; reflexivity. Qed.

Lemma steps_path_exists p : steps R (path_exists p).
Proof. intros w. simpl. reflexivity. Qed.

Lemma steps_bind {A B} (m : M A) (f : A → M B) :
  steps R m → (∀ a, steps R (f a)) → steps R (m ≫= f).
Proof.
  intros Hm Hf w. rewrite bind_run. specialize (Hm w).
  destruct (m w) as [[a|e] w1]; simpl in *; [|done].
  etrans; [exact Hm | apply Hf].
Qed.

Lemma steps_try {A} (m h : M A) :
  steps R m → steps R h → steps R (try_except_request m h).
Proof.
  intros Hm Hh w. unfold try_except_request. specialize (Hm w).
  destruct (m w) as [[a|e] w1]; simpl in *; [done|].
  destruct e; simpl; try done; (etrans; [exact Hm | apply Hh]).
Qed.

Lemma steps_run {A} (m : M A) w r w' : steps R m → m w = (r, w') → R w w'.
Proof. intros H E. specialize (H w). by rewrite E in H. Qed.

End Steps.

Ltac steps_tc := try (solve [ typeclasses eauto ]).

Ltac steps_go :=
  repeat first
    [ assumption
    | match goal with
      | |- steps _ (mret _) => apply steps_ret; steps_tc
      | |- steps _ (raise _) => apply steps_raise; steps_tc
      | |- steps _ (lift _) => apply steps_lift; steps_tc
      | |- steps _ (response_json _) => apply steps_response_json; steps_tc
      | |- steps _ time_now => apply steps_time_now; steps_tc
      | |- steps _ load_status => apply steps_load_status; steps_tc
      | |- steps _ (path_exists _) => apply steps_path_exists; steps_tc
      | |- steps _ (_ ≫= _) => apply steps_bind; steps_tc; [ | intros ? ]
      | |- steps _ (try_except_request _ _) => apply steps_try; steps_tc
      | |- steps _ (if ?b then _ else _) => destruct b
      | |- steps _ (match ?x with _ => _ end) => destruct x
      end
    | solve [ auto ] ].

(** The functions of the script respect every relation their primitive
    steps respect. *)
Section ScriptSteps.

Context (R : relation world) `{!PreOrder R}.
Variable env : provider.

Section Net.
Hypothesis R_sleep : ∀ d, steps R (sleep d).

Lemma steps_status_attempts u mr n a d :
  (∀ u, steps R (http env (Request Status GET u))) →
  steps R (status_attempts env u mr n a d).
Proof.
  intros Hreq. revert a d. induction n as [|n IH]; intros a d; simpl; steps_go.
Qed.

Lemma steps_get_status u :
  (∀ u, steps R (http env (Request Status GET u))) →
  steps R (get_asset_activation_status env u).
Proof. intros. by apply steps_status_attempts. Qed.

Lemma steps_activate_attempts u mr n a d :
  (∀ u, steps R (http env (Request Activate POST u))) →
  steps R (activate_attempts env u mr n a d).
Proof.
  intros Hreq. revert a d. induction n as [|n IH]; intros a d; simpl; steps_go.
Qed.

Lemma steps_activate_asset u :
  (∀ u, steps R (http env (Request Activate POST u))) →
  steps R (activate_asset env u).
Proof. intros. by apply steps_activate_attempts. Qed.

Lemma steps_write_chunks p cs :
  (∀ c, steps R (write p c)) → steps R (write_chunks p cs).
Proof. intros Hw. induction cs; simpl; steps_go. Qed.

Lemma steps_download_attempts u p mr n a d :
  (∀ u, steps R (http env (Request Download GET u))) →
  steps R (open_w p) → (∀ c, steps R (write p c)) →
  steps R (download_attempts env u p mr n a d).
Proof.
  intros Hreq Ho Hw. revert a d.
  induction n as [|n IH]; intros a d; simpl; steps_go.
  by apply steps_write_chunks.
Qed.

Lemma steps_not_downloadable v : steps R (not_downloadable v).
Proof. unfold not_downloadable. steps_go. Qed.

Lemma steps_download_asset u p :
  (∀ u, steps R (http env (Request Status GET u))) →
  (∀ u, steps R (http env (Request Download GET u))) →
  steps R (open_w p) → (∀ c, steps R (write p c)) →
  steps R (download_asset env u p).
Proof.
  intros. unfold download_asset. steps_go.
  all: first [ by apply steps_get_status
             | apply steps_not_downloadable
             | by apply steps_download_attempts ].
Qed.

Lemma steps_poll_loop fuel u k st t ci :
  (∀ u, steps R (http env (Request Status GET u))) →
  steps R (mark_active k) → steps R (log LogTimeout) →
  steps R (poll_loop env fuel u k st t ci).
Proof.
  intros Hreq Hm Hl. induction fuel as [|fuel IH]; simpl; steps_go.
  all: by apply steps_get_status.
Qed.

Lemma steps_wait u t ci :
  (∀ u, steps R (http env (Request Status GET u))) →
  (∀ s, u = JStr s → steps R (mark_active (derive_asset_key s))) →
  (∀ m, steps R (log m)) →
  steps R (wait_for_asset_activation env u t ci).
Proof.
  intros Hreq Hm Hl. unfold wait_for_asset_activation.
  apply steps_bind; steps_tc; [apply steps_time_now; steps_tc | intros st].
  destruct u as [| | |s| |]; try (apply steps_raise; steps_tc).
  specialize (Hm s eq_refl).
  destruct (derive_asset_key s) as [k|]; intros w.
  - rewrite bind_run, ret_run. by apply steps_poll_loop.
  - rewrite !bind_run. cbn.
    etrans; [apply (Hl (LogNoAssetKey s) w) | by apply steps_poll_loop].
Qed.
End Net.

(** The orchestrator: every primitive step is respected. *)
Section Whole.
Variable render_metadata : scene → string.
Hypothesis R_sleep : ∀ d, steps R (sleep d).
Hypothesis R_listing : ∀ u, steps R (http env (Request Listing GET u)).
Hypothesis R_activate : ∀ u, steps R (http env (Request Activate POST u)).
Hypothesis R_status : ∀ u, steps R (http env (Request Status GET u)).
Hypothesis R_download : ∀ u, steps R (http env (Request Download GET u)).
Hypothesis R_log : ∀ m, steps R (log m).
Hypothesis R_save : ∀ l, steps R (save_status l).
Hypothesis R_open_w : ∀ p, steps R (open_w p).
Hypothesis R_write : ∀ p c, steps R (write p c).

Lemma steps_mark_active k : steps R (mark_active k).
Proof. unfold mark_active. steps_go. Qed.

Lemma steps_save_metadata sc out :
  steps R (save_metadata render_metadata sc out).
Proof. unfold save_metadata. steps_go. Qed.

Lemma steps_asset_links j t : steps R (asset_links j t).
Proof. unfold asset_links. steps_go. Qed.

Lemma steps_activation_step l k a s ao :
  steps R (activation_step env l k a s ao).
Proof.
  unfold activation_step. steps_go.
  all: first [ apply steps_wait; auto using steps_mark_active
             | apply steps_activate_asset; auto ].
Qed.

Lemma steps_download_step l k s p ao :
  steps R (download_step env l k s p ao).
Proof.
  unfold download_step. steps_go.
  all: apply steps_download_asset; auto.
Qed.

Lemma steps_process_scene sc t out ao :
  steps R (process_scene env render_metadata sc t out ao).
Proof.
  unfold process_scene. steps_go.
  all: first [ apply steps_save_metadata | apply steps_asset_links
             | apply steps_activation_step | apply steps_download_step ].
Qed.

Lemma steps_for_asset_types sc ts out ao n :
  steps R (for_asset_types env render_metadata sc ts out ao n).
Proof.
  revert n. induction ts as [|t ts IH]; intros n; simpl; steps_go.
  apply steps_process_scene.
Qed.

End Whole.

End ScriptSteps.


#[global] Instance emits_preorder P : PreOrder (emits P).
Proof.
  split.
  - intros w. exists []. by rewrite app_nil_r.
  - intros w1 w2 w3 (e1 & H1 & F1) (e2 & H2 & F2). exists (e1 ++ e2).
    split; [by rewrite H2, H1, app_assoc | by apply Forall_app].
Qed.

#[global] Instance same_status_preorder : PreOrder same_status.
Proof. split; [intros w | intros w1 w2 w3]; unfold same_status; congruence. Qed.

#[global] Instance same_disk_preorder : PreOrder same_disk.
Proof. split; [intros w | intros w1 w2 w3]; unfold same_disk; congruence. Qed.

#[global] Instance clock_le_preorder : PreOrder clock_le.
Proof. split; [intros w | intros w1 w2 w3]; unfold clock_le; lia. Qed.

#[global] Instance keeps_valid_preorder : PreOrder keeps_valid.
Proof. split; [intros w | intros w1 w2 w3]; unfold keeps_valid; tauto. Qed.

#[global] Instance keeps_key_preorder k : PreOrder (keeps_key k).
Proof. split; [intros w | intros w1 w2 w3]; unfold keeps_key; tauto. Qed.


(** ** What each primitive step does to each relation *)

Ltac prim :=
  intros w; unfold http, sleep, log, emit, save_status, open_status_w,
    dump_status, open_w, write;
  try rewrite bind_run; cbn;
  repeat match goal with
         | |- context [let '(_, _) := ?e in _] => destruct e as [[?|] ?]; cbn
         end;
  unfold emits, same_status, same_disk, clock_le, keeps_valid, keeps_key,
    activation_of, ledger_of; cbn.

Section Primitives.

Variable env : provider.

Lemma emits_sleep P d : P (ESleep d) → steps (emits P) (sleep d).
Proof. intros HP. prim. exists [ESleep d]. auto. Qed.

Lemma emits_http P r : (∀ o, P (EReq r o)) → steps (emits P) (http env r).
Proof. intros HP. prim; eexists [_]; auto. Qed.

Lemma emits_log P m : P (ELog m) → steps (emits P) (log m).
Proof. intros HP. prim. exists [ELog m]. auto. Qed.

Lemma emits_save P l :
  P (EOpenW STATUS_FILE) → P (EDump STATUS_FILE l) →
  steps (emits P) (save_status l).
Proof.
  intros H1 H2. prim. exists [EOpenW STATUS_FILE; EDump STATUS_FILE l].
  split; [by rewrite <- app_assoc | auto].
Qed.

Lemma emits_open_w P p : P (EOpenW p) → steps (emits P) (open_w p).
Proof. intros HP. prim. exists [EOpenW p]. auto. Qed.

Lemma emits_write P p c : P (EWrite p c) → steps (emits P) (write p c).
Proof. intros HP. prim. exists [EWrite p c]. auto. Qed.

Lemma same_status_sleep d : steps same_status (sleep d).
Proof. by prim. Qed.
Lemma same_status_http r : steps same_status (http env r).
Proof. by prim. Qed.
Lemma same_status_log m : steps same_status (log m).
Proof. by prim. Qed.
Lemma same_status_open_w p : steps same_status (open_w p).
Proof. by prim. Qed.
Lemma same_status_write p c : steps same_status (write p c).
Proof. by prim. Qed.

Lemma same_disk_sleep d : steps same_disk (sleep d).
Proof. by prim. Qed.
Lemma same_disk_http r : steps same_disk (http env r).
Proof. by prim. Qed.
Lemma same_disk_log m : steps same_disk (log m).
Proof. by prim. Qed.
Lemma same_disk_save l : steps same_disk (save_status l).
Proof. by prim. Qed.

Lemma clock_le_sleep d : steps clock_le (sleep d).
Proof. prim; lia. Qed.
Lemma clock_le_http r : steps clock_le (http env r).
Proof. prim; lia. Qed.
Lemma clock_le_log m : steps clock_le (log m).
Proof. prim; lia. Qed.
Lemma clock_le_save l : steps clock_le (save_status l).
Proof. prim; lia. Qed.
Lemma clock_le_open_w p : steps clock_le (open_w p).
Proof. prim; lia. Qed.
Lemma clock_le_write p c : steps clock_le (write p c).
Proof. prim; lia. Qed.

Lemma keeps_valid_sleep d : steps keeps_valid (sleep d).
Proof. by prim. Qed.
Lemma keeps_valid_http r : steps keeps_valid (http env r).
Proof. by prim. Qed.
Lemma keeps_valid_log m : steps keeps_valid (log m).
Proof. by prim. Qed.
Lemma keeps_valid_save l : steps keeps_valid (save_status l).
Proof. by prim. Qed.
Lemma keeps_valid_open_w p : steps keeps_valid (open_w p).
Proof. by prim. Qed.
Lemma keeps_valid_write p c : steps keeps_valid (write p c).
Proof. by prim. Qed.

Lemma keeps_key_sleep k d : steps (keeps_key k) (sleep d).
Proof. by prim. Qed.
Lemma keeps_key_http k r : steps (keeps_key k) (http env r).
Proof. by prim. Qed.
Lemma keeps_key_log k m : steps (keeps_key k) (log m).
Proof. by prim. Qed.
Lemma keeps_key_open_w k p : steps (keeps_key k) (open_w p).
Proof. by prim. Qed.
Lemma keeps_key_write k p c : steps (keeps_key k) (write p c).
Proof. by prim. Qed.
Lemma keeps_key_save k l :
  is_Some (activated_scenes l !! k) → steps (keeps_key k) (save_status l).
Proof. intros Hk. prim. intros _. exact Hk. Qed.

End Primitives.

(* ===================================================================== *)
(** * The retry loops under rate limiting *)
(* ===================================================================== *)

Section RetryCeiling.

Variable env : provider.

Lemma http_replied r w resp lat :
  env (trace w) r = (Replied resp, lat) →
  http env r w =
    (Ok resp, World (clock w + lat) (trace w ++ [EReq r (Replied resp)])
                    (status_file w) (disk w)).
Proof. intros H. unfold http. by rewrite H. Qed.

Hypothesis rate_limited : always_429 env.

Lemma status_attempts_429 u mr n a d w :
  ∃ w', status_attempts env u mr n a d w = (Ok JNull, w') ∧
        ∃ es, trace w' = trace w ++ es ∧
              backoff_events (Request Status GET u) n d es.
Proof.
  revert a d w. induction n as [|n IH]; intros a d w.
  - exists w. split; [done|]. exists []. by rewrite app_nil_r.
  - destruct (rate_limited (trace w) (Request Status GET u))
      as (resp & lat & Henv & Hcode).
    cbn [status_attempts]. rewrite bind_run. unfold try_except_request.
    rewrite bind_run, (http_replied _ _ _ _ Henv), Hcode. cbn.
    destruct (IH (S a) (d * 2)%nat
                 (World (clock w + lat + d)
                        ((trace w ++ [EReq (Request Status GET u) (Replied resp)])
                           ++ [ESleep d]) (status_file w) (disk w)))
      as (w' & Hrun & es & Htr & Hes).
    exists w'. split; [exact Hrun|].
    exists (EReq (Request Status GET u) (Replied resp) :: ESleep d :: es).
    split.
    + rewrite Htr. cbn. by rewrite <- !app_assoc.
    + cbn. eauto 10.
Qed.

Lemma activate_attempts_429 u mr n a d w :
  ∃ w', activate_attempts env u mr n a d w = (Ok false, w') ∧
        ∃ es, trace w' = trace w ++ es ∧
              backoff_events (Request Activate POST u) n d es.
Proof.
  revert a d w. induction n as [|n IH]; intros a d w.
  - exists w. split; [done|]. exists []. by rewrite app_nil_r.
  - destruct (rate_limited (trace w) (Request Activate POST u))
      as (resp & lat & Henv & Hcode).
    cbn [activate_attempts]. rewrite bind_run. unfold try_except_request.
    rewrite bind_run, (http_replied _ _ _ _ Henv), Hcode. cbn.
    destruct (IH (S a) (d * 2)%nat
                 (World (clock w + lat + d)
                        ((trace w ++ [EReq (Request Activate POST u) (Replied resp)])
                           ++ [ESleep d]) (status_file w) (disk w)))
      as (w' & Hrun & es & Htr & Hes).
    exists w'. split; [exact Hrun|].
    exists (EReq (Request Activate POST u) (Replied resp) :: ESleep d :: es).
    split.
    + rewrite Htr. cbn. by rewrite <- !app_assoc.
    + cbn. eauto 10.
Qed.

End RetryCeiling.

Lemma backoff_events_sleeps r n d es :
  backoff_events r n d es →
  requests_of es = replicate n r ∧ sleeps_of es = geometric n d.
Proof.
  revert d es. induction n as [|n IH]; intros d es; cbn.
  - by intros ->.
  - intros (resp & es' & -> & _ & H). destruct (IH _ _ H) as [H1 H2].
    unfold requests_of, sleeps_of in *. cbn. by rewrite H1, H2.
Qed.

(** C4. Retry ceiling under rate limiting: when every response has status
    429, [get_asset_activation_status] and [activate_asset] each make
    exactly 3 attempts; a wait follows each 429, of 2, then 4, then 8
    seconds (the delay starts at 2 and doubles after each 429, and each
    429 uses up an attempt); then the function returns its sentinel,
    [None] respectively [False], and nothing is raised. *)
Theorem retry_ceiling_under_429 (env : provider) (url : json) (w : world) :
  always_429 env →
  (∃ w' es,
      get_asset_activation_status env url w = (Ok JNull, w') ∧
      trace w' = trace w ++ es ∧
      backoff_events (Request Status GET url) 3 2 es ∧
      requests_of es = replicate 3 (Request Status GET url) ∧
      sleeps_of es = [2; 4; 8]%nat) ∧
  (∃ w' es,
      activate_asset env url w = (Ok false, w') ∧
      trace w' = trace w ++ es ∧
      backoff_events (Request Activate POST url) 3 2 es ∧
      requests_of es = replicate 3 (Request Activate POST url) ∧
      sleeps_of es = [2; 4; 8]%nat).
Proof.
  intros H429. split.
  - destruct (status_attempts_429 env H429 url 3 3 0 2 w)
      as (w' & Hrun & es & Htr & Hes).
    exists w', es. destruct (backoff_events_sleeps _ _ _ _ Hes). auto.
  - destruct (activate_attempts_429 env H429 url 3 3 0 2 w)
      as (w' & Hrun & es & Htr & Hes).
    exists w', es. destruct (backoff_events_sleeps _ _ _ _ Hes). auto.
Qed.

Lemma retry_ceiling_under_429_witness :
  always_429 env_429 ∧
  (∃ w' es,
      get_asset_activation_status env_429 (JStr "https://example/self")
        fresh_world = (Ok JNull, w') ∧
      trace w' = [] ++ es ∧
      sleeps_of es = [2; 4; 8]%nat) ∧
  (∃ w' es,
      activate_asset env_429 (JStr "https://example/activate")
        fresh_world = (Ok false, w') ∧
      trace w' = [] ++ es ∧
      sleeps_of es = [2; 4; 8]%nat).
Proof.
  assert (H : always_429 env_429).
  { intros h r. exists reply_429, 0%nat. split; reflexivity. }
  split; [exact H|].
  split.
  - destruct (retry_ceiling_under_429 env_429 (JStr "https://example/self")
                fresh_world H) as [(w' & es & H1 & H2 & _ & _ & H3) _].
    exists w', es. auto.
  - destruct (retry_ceiling_under_429 env_429 (JStr "https://example/activate")
                fresh_world H) as [_ (w' & es & H1 & H2 & _ & _ & H3)].
    exists w', es. auto.
Defined.

(* ===================================================================== *)
(** * get_asset_activation_status *)
(* ===================================================================== *)

Section StatusCheck.

Variable env : provider.

Lemma status_result_cons u v e es :
  is_200_reply e = false → status_result u v es → status_result u v (e :: es).
Proof.
  intros He [[-> H]|(es0 & resp & -> & Hc & Hj & -> & H)].
  - left. auto.
  - right. exists (e :: es0), resp. auto 6.
Qed.

(** One pass through the retry loop, by the provider's answer. *)
Lemma status_attempts_step u mr n a d w :
  status_attempts env u mr (S n) a d w =
  let r := Request Status GET u in
  match env (trace w) r with
  | (Replied resp, lat) =>
      let w1 := after_req r (Replied resp) lat w in
      if (status_code resp =? 200)%nat then
        if json_ok resp then (Ok (body resp), w1)
        else if (a <? mr - 1)%nat then
          status_attempts env u mr n (S a) d (after_sleep d w1)
        else status_attempts env u mr n (S a) d w1
      else if (status_code resp =? 429)%nat then
        status_attempts env u mr n (S a) (d * 2) (after_sleep d w1)
      else if (a <? mr - 1)%nat then
        status_attempts env u mr n (S a) d (after_sleep d w1)
      else status_attempts env u mr n (S a) d w1
  | (Failed, lat) =>
      let w1 := after_req r Failed lat w in
      if (a <? mr - 1)%nat then
        status_attempts env u mr n (S a) d (after_sleep d w1)
      else status_attempts env u mr n (S a) d w1
  end.
Proof.
  cbn [status_attempts]. rewrite bind_run. unfold try_except_request.
  rewrite bind_run. unfold http.
  destruct (env (trace w) (Request Status GET u)) as [[resp|] lat].
  - cbv zeta. destruct (status_code resp =? 200)%nat.
    { rewrite bind_run. unfold response_json.
      destruct (json_ok resp); [reflexivity|]. cbn [raise].
      rewrite ret_run, bind_run. destruct (a <? mr - 1)%nat; reflexivity. }
    destruct (status_code resp =? 429)%nat; [reflexivity|].
    rewrite ret_run, bind_run.
    destruct (a <? mr - 1)%nat; reflexivity.
  - cbv zeta. rewrite ret_run, bind_run.
    destruct (a <? mr - 1)%nat; reflexivity.
Qed.

Lemma trace_after_req r o lat w : trace (after_req r o lat w) = trace w ++ [EReq r o].
Proof. reflexivity. Qed.

Lemma trace_after_sleep d w : trace (after_sleep d w) = trace w ++ [ESleep d].
Proof. reflexivity. Qed.

(** The status check never raises: transport faults and bodies that are
    not JSON are caught, and nothing else in its body can raise. *)
Lemma status_attempts_spec u mr n a d w :
  ∃ v w' es, status_attempts env u mr n a d w = (Ok v, w') ∧
             trace w' = trace w ++ es ∧ status_result u v es.
Proof.
  revert a d w. induction n as [|n IH]; intros a d w.
  - exists JNull, w, []. rewrite app_nil_r. split; [done|]. split; [done|].
    left. auto.
  - rewrite status_attempts_step. cbv zeta.
    destruct (env (trace w) (Request Status GET u)) as [[resp|] lat].
    + destruct ((status_code resp =? 200)%nat && json_ok resp) eqn:Hok.
      { apply andb_true_iff in Hok as [H200 Hj]. rewrite H200, Hj.
        apply Nat.eqb_eq in H200. eexists _, _, [_].
        split; [reflexivity|]. split; [reflexivity|].
        right. exists [], resp. auto. }
      assert (Hn : is_200_reply (EReq (Request Status GET u) (Replied resp)) = false)
        by exact Hok.
      destruct (status_code resp =? 200)%nat;
        [destruct (json_ok resp); [discriminate Hok|]; destruct (a <? mr - 1)%nat
        |destruct (status_code resp =? 429)%nat; [|destruct (a <? mr - 1)%nat]].
      all: edestruct IH as (v & w' & es & Hrun & Htr & Hres);
        rewrite Hrun; eexists v, w', _; (split; [reflexivity|]);
        rewrite Htr, ?trace_after_sleep, ?trace_after_req, <- ?app_assoc;
        (split; [reflexivity|]); cbn;
        repeat (apply status_result_cons; [done|]); done.
    + destruct (a <? mr - 1)%nat.
      all: edestruct IH as (v & w' & es & Hrun & Htr & Hres);
        rewrite Hrun; eexists v, w', _; (split; [reflexivity|]);
        rewrite Htr, ?trace_after_sleep, ?trace_after_req, <- ?app_assoc;
        (split; [reflexivity|]); cbn;
        repeat (apply status_result_cons; [done|]); done.
Qed.

Lemma get_status_spec u w :
  ∃ v w' es, get_asset_activation_status env u w = (Ok v, w') ∧
             trace w' = trace w ++ es ∧ status_result u v es.
Proof. apply status_attempts_spec. Qed.

End StatusCheck.

(* ===================================================================== *)
(** * wait_for_asset_activation *)
(* ===================================================================== *)

Section Polling.

Variable env : provider.

Lemma ledger_of_same_status w w' :
  status_file w' = status_file w → ledger_of w' = ledger_of w.
Proof. unfold ledger_of. by intros ->. Qed.

Lemma load_status_run w :
  load_status w = match ledger_of w with
                  | Some l => (Ok l, w)
                  | None => (Raise JSONDecodeError, w)
                  end.
Proof. unfold load_status, ledger_of. by destruct (status_file w). Qed.

Lemma mark_active_run k w :
  mark_active k w =
  match k with
  | Some key =>
      if String.eqb key "" then (Ok tt, w)
      else match ledger_of w with
           | Some l =>
               if bool_decide (is_Some (activated_scenes l !! key))
               then (Ok tt, after_mark key l w)
               else (Ok tt, w)
           | None => (Raise JSONDecodeError, w)
           end
  | None => (Ok tt, w)
  end.
Proof.
  unfold mark_active. destruct k as [key|]; [|reflexivity].
  destruct (String.eqb key ""); [reflexivity|]. cbn [negb].
  rewrite bind_run, load_status_run.
  destruct (ledger_of w) as [l|]; [|reflexivity].
  destruct (bool_decide _); [|reflexivity].
  unfold save_status, log, emit, open_status_w, dump_status, after_mark, with_active.
  rewrite !bind_run. cbn. by rewrite <- !app_assoc.
Qed.

Lemma poll_loop_step fuel u k st t ci w :
  poll_loop env (S fuel) u k st t ci w =
  if (clock w - st <? t)%nat then
    match get_asset_activation_status env u w with
    | (Ok v, w1) =>
        if negb (Py.truthy v) then (Ok false, w1)
        else match Py.getitem v "status" with
             | Ok s =>
                 if Py.is_str "active" s then
                   match mark_active k w1 with
                   | (Ok _, w2) => (Ok true, w2)
                   | (Raise e, w2) => (Raise e, w2)
                   end
                 else poll_loop env fuel u k st t ci (after_sleep ci w1)
             | Raise e => (Raise e, w1)
             end
    | (Raise e, w1) => (Raise e, w1)
    end
  else (log LogTimeout ≫= λ _, mret false) w.
Proof.
  cbn [poll_loop]. rewrite bind_run. unfold time_now.
  destruct (clock w - st <? t)%nat; [|reflexivity].
  rewrite bind_run.
  destruct (get_asset_activation_status env u w) as [[v|e] w1]; [|reflexivity].
  destruct (negb (Py.truthy v)); [reflexivity|].
  rewrite bind_run. unfold lift.
  destruct (Py.getitem v "status") as [s|e]; [|reflexivity].
  destruct (Py.is_str "active" s).
  - rewrite bind_run. destruct (mark_active k w1) as [[[]|e] w2]; reflexivity.
  - rewrite bind_run. reflexivity.
Qed.

Lemma get_status_same_status u w :
  status_file (get_asset_activation_status env u w).2 = status_file w.
Proof.
  apply (steps_get_status same_status env (same_status_sleep) u
           (λ u, same_status_http env _)).
Qed.

(** What a poll does to the ledger file. *)
Lemma poll_loop_ledger fuel u k st t ci w r w' :
  poll_loop env fuel u k st t ci w = (r, w') →
  status_file w' = status_file w ∨
  (∃ key, k = Some key ∧ r = Ok true ∧ marked key w w').
Proof.
  revert w. induction fuel as [|fuel IH]; intros w.
  - cbn. intros [= <- <-]. by left.
  - rewrite poll_loop_step.
    destruct (clock w - st <? t)%nat; [|cbn; intros [= <- <-]; by left].
    pose proof (get_status_same_status u w) as Hs.
    destruct (get_asset_activation_status env u w) as [[v|e] w1]; cbn in Hs;
      [|intros [= <- <-]; by left].
    destruct (negb (Py.truthy v)); [intros [= <- <-]; by left|].
    destruct (Py.getitem v "status") as [s|e]; [|intros [= <- <-]; by left].
    destruct (Py.is_str "active" s).
    + rewrite mark_active_run. destruct k as [key|]; [|intros [= <- <-]; by left].
      destruct (String.eqb key ""); [intros [= <- <-]; by left|].
      rewrite (ledger_of_same_status _ _ Hs).
      destruct (ledger_of w) as [l|] eqn:Hl; [|intros [= <- <-]; by left].
      destruct (bool_decide (is_Some (activated_scenes l !! key))) eqn:Hin;
        [|intros [= <- <-]; by left].
      intros [= <- <-]. right. exists key. split; [done|]. split; [done|].
      exists l. apply bool_decide_eq_true in Hin. auto.
    + intros Hrun. destruct (IH _ Hrun) as [H|(key & -> & -> & l & Hl & Hin & Hw')].
      * left. rewrite H. exact Hs.
      * right. exists key. split; [done|]. split; [done|]. exists l.
        split; [|done]. rewrite <- Hl. symmetry.
        apply ledger_of_same_status. exact Hs.
Qed.

Lemma wait_ledger u t ci w r w' :
  wait_for_asset_activation env u t ci w = (r, w') →
  status_file w' = status_file w ∨
  (∃ s key, u = JStr s ∧ derive_asset_key s = Some key ∧ r = Ok true ∧
            marked key w w').
Proof.
  unfold wait_for_asset_activation. rewrite bind_run. unfold time_now.
  destruct u as [| | |s| |]; try (intros [= <- <-]; by left).
  rewrite bind_run. destruct (derive_asset_key s) as [key|] eqn:Hk.
  - rewrite ret_run. intros Hrun.
    destruct (poll_loop_ledger _ _ _ _ _ _ _ _ _ Hrun)
      as [H|(key' & [= <-] & -> & Hm)]; [by left|].
    right. exists s, key. auto.
  - rewrite bind_run. cbn. intros Hrun.
    destruct (poll_loop_ledger _ _ _ _ _ _ _ _ _ Hrun)
      as [H|(key' & [=] & _)]. by left.
Qed.

Lemma not_200_not_active e : is_200_reply e = false → reports_active e = false.
Proof.
  destruct e as [[[] m u] [resp|]| | | | |]; cbn; try done.
  by intros ->.
Qed.

Lemma active_body_truthy b : active_body b = true → Py.truthy b = true.
Proof.
  unfold active_body. destruct b as [| | | | |[|]]; cbn; done.
Qed.

Lemma falsy_not_active b : Py.truthy b = false → active_body b = false.
Proof. destruct b as [| | | | |[|]]; cbn; done. Qed.

Lemma status_events_quiet u v es :
  status_result u v es → active_body v = false →
  Forall (λ e, reports_active e = false) es.
Proof.
  intros [[-> H]|(es0 & resp & -> & Hc & Hj & -> & H)] Hb.
  - eapply Forall_impl; [exact H|]. apply not_200_not_active.
  - apply Forall_app. split.
    + eapply Forall_impl; [exact H|]. apply not_200_not_active.
    + constructor; [|constructor]. cbn. rewrite Hb. apply andb_false_r.
Qed.

(** Without a derived key, a poll that sees "active" returns [True]. *)
Lemma poll_loop_none_active fuel u st t ci w r w' :
  poll_loop env fuel u None st t ci w = (r, w') →
  ∃ es, trace w' = trace w ++ es ∧
        (r = Ok true ∨ Forall (λ e, reports_active e = false) es).
Proof.
  revert w. induction fuel as [|fuel IH]; intros w.
  - cbn. intros [= <- <-]. eexists [_]. split; [reflexivity|]. right. auto.
  - rewrite poll_loop_step.
    destruct (clock w - st <? t)%nat;
      [|cbn; intros [= <- <-]; eexists [_]; split; [reflexivity|]; right; auto].
    destruct (get_status_spec env u w) as (v & w1 & es1 & Hrun & Htr & Hres).
    rewrite Hrun.
    destruct (negb (Py.truthy v)) eqn:Ht.
    { intros [= <- <-]. exists es1. split; [done|]. right.
      eapply status_events_quiet; [done|]. apply falsy_not_active.
      by destruct (Py.truthy v). }
    destruct (Py.getitem v "status") as [s|e] eqn:Hg.
    2:{ intros [= <- <-]. exists es1. split; [done|]. right.
        eapply status_events_quiet; [done|]. unfold active_body. by rewrite Hg. }
    destruct (Py.is_str "active" s) eqn:Ha.
    + cbn. intros [= <- <-]. exists es1. auto.
    + intros Hr. destruct (IH _ Hr) as (es & Htr' & Hes).
      exists (es1 ++ ESleep ci :: es). split.
      * rewrite Htr', trace_after_sleep, Htr, <- !app_assoc. reflexivity.
      * destruct Hes as [->|Hes]; [by left|]. right.
        apply Forall_app. split.
        -- eapply status_events_quiet; [done|]. unfold active_body.
           by rewrite Hg.
        -- constructor; [done|exact Hes].
Qed.

(** Without a derived key, [True] is returned only right after a status
    reply that reports "active". *)
Lemma poll_loop_none_true fuel u st t ci w w' :
  poll_loop env fuel u None st t ci w = (Ok true, w') →
  ∃ es0 e, trace w' = trace w ++ es0 ++ [e] ∧ reports_active e = true.
Proof.
  revert w. induction fuel as [|fuel IH]; intros w.
  - cbn. intros [=].
  - rewrite poll_loop_step.
    destruct (clock w - st <? t)%nat; [|cbn; intros [=]].
    destruct (get_status_spec env u w) as (v & w1 & es1 & Hrun & Htr & Hres).
    rewrite Hrun.
    destruct (negb (Py.truthy v)) eqn:Ht; [intros [=]|].
    destruct (Py.getitem v "status") as [s|e] eqn:Hg; [|intros [=]].
    destruct (Py.is_str "active" s) eqn:Ha.
    + cbn. intros [= <-].
      destruct Hres as [[-> _]|(es0 & resp & -> & Hc & Hj & -> & _)];
        [discriminate Ht|].
      exists es0, (EReq (Request Status GET u) (Replied resp)).
      split; [exact Htr|]. cbn. apply Nat.eqb_eq in Hc. rewrite Hc, Hj.
      unfold active_body. by rewrite Hg, Ha.
    + intros Hr. destruct (IH _ Hr) as (es0 & e & Htr' & He).
      exists (es1 ++ ESleep ci :: es0), e. split; [|exact He].
      rewrite Htr', trace_after_sleep, Htr, <- !app_assoc. reflexivity.
Qed.

Lemma derive_asset_key_short u :
  (length (PyStr.split "/" u) < 8)%nat → derive_asset_key u = None.
Proof.
  intros H. unfold derive_asset_key.
  destruct (8 <=? length (PyStr.split "/" u))%nat eqn:E; [|done].
  apply Nat.leb_le in E. lia.
Qed.

End Polling.

(** C7. Soft inconsistency on an unparsable self link: when the self link
    has fewer than 8 slash-separated parts, [wait_for_asset_activation]
    logs that it has no asset key and never touches the status file (it
    opens and writes no file at all), whatever the ledger holds.  It
    still polls and still succeeds: it returns [True] exactly when its
    last event is a status reply with code 200 and status "active", and
    no such reply is ever passed over; in particular, when the first
    status check is answered that way (and the timeout is positive), it
    returns [True] after that one request. *)
Theorem unparsable_self_link_skips_ledger_update
    (env : provider) (u : string) (timeout check_interval : nat)
    (w : world) (r : result bool) (w' : world) :
  (length (PyStr.split "/" u) < 8)%nat →
  wait_for_asset_activation env (JStr u) timeout check_interval w = (r, w') →
  let status := Request Status GET (JStr u) in
  status_file w' = status_file w ∧
  ∃ es, trace w' = trace w ++ ELog (LogNoAssetKey u) :: es ∧
        Forall (λ e, is_file_write e = false) es ∧
        (Exists (λ e, reports_active e = true) es → r = Ok true) ∧
        (r = Ok true ↔ ∃ es0 e, es = es0 ++ [e] ∧ reports_active e = true) ∧
        (∀ resp lat,
            (0 < timeout)%nat →
            env (trace w ++ [ELog (LogNoAssetKey u)]) status
              = (Replied resp, lat) →
            status_code resp = 200%nat → json_ok resp = true →
            active_body (body resp) = true →
            r = Ok true ∧ es = [EReq status (Replied resp)]).
Proof.
  intros Hlen Hrun status. pose proof (derive_asset_key_short u Hlen) as Hk.
  split.
  { destruct (wait_ledger env _ _ _ _ _ _ Hrun)
      as [H|(s & key & [= <-] & Hk' & _)]; [done|congruence]. }
  assert (Hq : emits (λ e, is_file_write e = false) w w').
  { eapply steps_run; [|exact Hrun].
    apply steps_wait; try typeclasses eauto.
    - intros d. by apply emits_sleep.
    - intros u'. by apply emits_http.
    - intros s [= <-]. rewrite Hk. apply steps_ret. typeclasses eauto.
    - intros m. by apply emits_log. }
  assert (Hp : poll_loop env timeout (JStr u) None (clock w) timeout
                 check_interval (after_log (LogNoAssetKey u) w) = (r, w')).
  { revert Hrun. unfold wait_for_asset_activation.
    rewrite bind_run. unfold time_now. by rewrite Hk, !bind_run. }
  destruct (poll_loop_none_active env _ _ _ _ _ _ _ _ Hp)
    as (es & Htr & Hact).
  cbn [after_log trace] in Htr. rewrite <- app_assoc in Htr. cbn [app] in Htr.
  destruct Hq as (es1 & Htr1 & Hq). rewrite Htr in Htr1.
  apply app_inv_head in Htr1. subst es1.
  apply Forall_cons in Hq as [_ Hq].
  exists es. split; [exact Htr|]. split; [exact Hq|].
  assert (Hex : Exists (λ e, reports_active e = true) es → r = Ok true).
  { intros Hex. destruct Hact as [->|Hno]; [done|]. exfalso.
    apply Exists_exists in Hex as (e & Hin & He).
    rewrite Forall_forall in Hno. specialize (Hno e Hin). congruence. }
  split; [exact Hex|]. split.
  - split.
    + intros ->. destruct (poll_loop_none_true env _ _ _ _ _ _ _ Hp)
        as (es0 & e & Htr' & He).
      exists es0, e. split; [|exact He].
      cbn [after_log trace] in Htr'. rewrite <- app_assoc in Htr'.
      rewrite Htr in Htr'. apply app_inv_head in Htr'.
      by injection Htr'.
    + intros (es0 & e & -> & He). apply Hex, Exists_app. right. by constructor.
  - intros resp lat Ht Henv Hc Hj Hactive. revert Hp Htr.
    destruct timeout as [|t]; [lia|]. rewrite poll_loop_step.
    cbn [after_log clock].
    replace (clock w - clock w <? S t)%nat with true
      by (symmetry; apply Nat.ltb_lt; lia).
    unfold get_asset_activation_status. rewrite status_attempts_step. cbv zeta.
    cbn [after_log trace]. fold status. rewrite Henv.
    apply Nat.eqb_eq in Hc. rewrite Hc, Hj.
    rewrite (active_body_truthy _ Hactive). cbn [negb].
    unfold active_body in Hactive.
    destruct (Py.getitem (body resp) "status") as [sv|]; [|done].
    rewrite Hactive. cbn. intros [= <- <-] Htr. split; [done|].
    cbn in Htr. rewrite <- app_assoc in Htr. apply app_inv_head in Htr.
    by injection Htr.
Qed.

(** A ledger that records the item, a link of 7 parts and a provider
    that reports "active": the poll returns [True] after one request and
    the ledger still says "activating"; with a link from which the key of
    the item is derived, the same poll rewrites the ledger. *)
Lemma unparsable_self_link_skips_ledger_update_witness :
  let run := wait_for_asset_activation (env_happy self_short) (JStr self_short)
               300 5 activating_world in
  let keyed := wait_for_asset_activation (env_happy self_keyed)
                 (JStr self_keyed) 300 5 activating_world in
  (length (PyStr.split "/" self_short) < 8)%nat ∧
  run.1 = Ok true ∧
  status_file run.2 = status_file activating_world ∧
  trace run.2 = [ELog (LogNoAssetKey self_short);
                 EReq (Request Status GET (JStr self_short))
                      (Replied (ok_reply active_status))] ∧
  status_file keyed.2 ≠ status_file activating_world.
Proof.
  intros run keyed.
  assert (Hlen : (length (PyStr.split "/" self_short) < 8)%nat)
    by (vm_compute; lia).
  split; [exact Hlen|].
  destruct (unparsable_self_link_skips_ledger_update (env_happy self_short)
              self_short 300 5 activating_world run.1 run.2 Hlen
              (surjective_pairing _))
    as (Hst & es & Htr & _ & _ & _ & Hfirst).
  destruct (Hfirst (ok_reply active_status) 0%nat) as [Hr Hes];
    [lia|reflexivity..|].
  split; [exact Hr|]. split; [exact Hst|].
  split; [by rewrite Htr, Hes|].
  vm_compute. discriminate.
Defined.

(** C10. Polling only updates entries that exist: whatever
    [wait_for_asset_activation] returns, either the status file is left as
    it was, or the call returned [True] and the file now holds the ledger
    it read with the entry of the derived key, which was already in
    [activated_scenes], set to "active".  So the set of keys and every
    other entry are unchanged, [downloaded_scenes] is unchanged, and when
    the derived key was never recorded the file is identical. *)
Theorem polling_only_updates_existing_entries
    (env : provider) (u : json) (timeout check_interval : nat)
    (w : world) (r : result bool) (w' : world) :
  wait_for_asset_activation env u timeout check_interval w = (r, w') →
  (status_file w' = status_file w ∨
   ∃ s k l, u = JStr s ∧ derive_asset_key s = Some k ∧ r = Ok true ∧
            ledger_of w = Some l ∧ is_Some (activated_scenes l !! k) ∧
            status_file w' = Snapshot (with_active k l)) ∧
  (∀ l l', ledger_of w = Some l → ledger_of w' = Some l' →
           dom (activated_scenes l') = dom (activated_scenes l) ∧
           downloaded_scenes l' = downloaded_scenes l ∧
           ∀ k', (∀ s, u = JStr s → derive_asset_key s ≠ Some k') →
                 activated_scenes l' !! k' = activated_scenes l !! k') ∧
  (∀ s k, u = JStr s → derive_asset_key s = Some k →
          activation_of k w = None → status_file w' = status_file w).
Proof.
  intros Hrun.
  destruct (wait_ledger env _ _ _ _ _ _ Hrun)
    as [H|(s & key & -> & Hk & -> & l & Hl & Hin & Hw')].
  - split; [by left|]. split.
    + intros l l' Hl Hl'. rewrite (ledger_of_same_status _ _ H), Hl in Hl'.
      by injection Hl' as <-.
    + done.
  - split; [right; exists s, key, l; eauto 10|]. split.
    + intros l0 l' Hl0 Hl'. rewrite Hl in Hl0. injection Hl0 as <-.
      unfold ledger_of in Hl'. rewrite Hw' in Hl'. injection Hl' as <-.
      cbn. split; [|split; [done|]].
      * rewrite dom_insert_L. apply elem_of_dom in Hin.
        apply subseteq_union_1_L. by apply singleton_subseteq_l.
      * intros k' Hk'. apply lookup_insert_ne. intros ->. by apply (Hk' s).
    + intros s' k [= <-] Hk' Hnone. rewrite Hk in Hk'. injection Hk' as <-.
      unfold activation_of in Hnone. rewrite Hl in Hnone. cbn in Hnone.
      rewrite Hnone in Hin. by destruct Hin.
Qed.

Lemma polling_only_updates_existing_entries_witness :
  let run := wait_for_asset_activation (env_happy self_documented)
               (JStr self_documented) 300 5 fresh_world in
  run.1 = Ok true ∧
  derive_asset_key self_documented = Some "items_basic_analytic_8b" ∧
  status_file run.2 = status_file fresh_world.
Proof.
  intros run. split; [reflexivity|]. split; [reflexivity|].
  destruct (polling_only_updates_existing_entries (env_happy self_documented)
              (JStr self_documented) 300 5 fresh_world run.1 run.2
              (surjective_pairing _)) as (_ & _ & H).
  apply (H self_documented "items_basic_analytic_8b"); reflexivity.
Defined.

(* ===================================================================== *)
(** * save_status *)
(* ===================================================================== *)

Lemma save_status_run l w :
  save_status l w =
  (Ok tt, World (clock w) (trace w ++ [EOpenW STATUS_FILE; EDump STATUS_FILE l])
                (Snapshot l) (disk w)).
Proof.
  unfold save_status, open_status_w, dump_status. rewrite bind_run. cbn.
  by rewrite <- app_assoc.
Qed.

Lemma save_status_as_steps l w :
  save_status l w = run_steps (save_status_steps l) w.
Proof. reflexivity. Qed.

(** C5, as stated, fails: a save that stops after the file was opened for
    writing leaves neither the old nor the new snapshot. *)
Lemma save_status_not_atomic : ¬ atomic_save.
Proof.
  intros H.
  specialize (H demo_ledger empty_ledger 1%nat
                (World 0 [] (Snapshot demo_ledger) ∅) eq_refl).
  cbn in H. destruct H as [H|H]; discriminate H.
Qed.

(** C5, amended. [save_status] overwrites the status file in place: it
    opens planet_status.json itself for writing, which truncates it, and
    dumps the new snapshot into it; no other file is opened and nothing is
    renamed.  Run to completion it leaves exactly the new snapshot; stopped
    after the open and before the dump completes, it leaves a file that
    does not decode, so the next [load_status] raises. *)
Theorem save_status_overwrites_in_place (l : ledger) (w : world) :
  (∃ w', save_status l w = (Ok tt, w') ∧
         status_file w' = Snapshot l ∧
         trace w' = trace w ++ [EOpenW STATUS_FILE; EDump STATUS_FILE l] ∧
         disk w' = disk w ∧ clock w' = clock w) ∧
  status_file (crash_after 0 (save_status_steps l) w).2 = status_file w ∧
  status_file (crash_after 1 (save_status_steps l) w).2 = Torn ∧
  (load_status (crash_after 1 (save_status_steps l) w).2).1
    = Raise JSONDecodeError ∧
  (∀ n, (2 ≤ n)%nat →
        crash_after n (save_status_steps l) w = save_status l w).
Proof.
  split; [|split; [|split; [|split]]].
  - eexists. split; [apply save_status_run|]. cbn. auto.
  - reflexivity.
  - reflexivity.
  - reflexivity.
  - intros n Hn. do 2 (destruct n as [|n]; [lia|]).
    unfold crash_after, save_status_steps. cbn [take]. rewrite take_nil.
    reflexivity.
Qed.

(* ===================================================================== *)
(** * The ledger across one run of process_scene *)
(* ===================================================================== *)

(** C2 fails on the code.  With a self link from which the poll derives
    the item's own key, one run from a fresh ledger writes the ledger
    three times: "activating" after the request, "active" after the poll,
    and then, with the download flag, the dict that [process_scene] loaded
    before the poll, which still says "activating".  The run succeeds and
    leaves a downloaded asset whose activation state went from "active"
    back to "activating". *)
Theorem stale_snapshot_regresses_active :
  let run := process_scene (env_happy self_keyed) demo_render demo_scene
               demo_type "planet_data" false fresh_world in
  run.1 = Ok true ∧
  derive_asset_key self_keyed = Some demo_key ∧
  make_key (scene_id demo_scene) demo_type = demo_key ∧
  (λ l, activated_scenes l !! demo_key) <$> dumps_of (trace run.2)
    = [Some "activating"; Some "active"; Some "activating"] ∧
  activation_of demo_key run.2 = Some "activating" ∧
  downloaded_flag demo_key run.2 = true.
Proof. vm_compute. repeat split; reflexivity. Qed.

(** The same regression with the link format the source documents, for
    the item whose id is "items". *)
Example stale_snapshot_regresses_active_documented_format :
  let run := process_scene (env_happy self_items) demo_render items_scene
               demo_type "planet_data" false fresh_world in
  run.1 = Ok true ∧
  (λ l, activated_scenes l !! "items_basic_analytic_8b") <$> dumps_of (trace run.2)
    = [Some "activating"; Some "active"; Some "activating"].
Proof. vm_compute. repeat split; reflexivity. Qed.

(** With the documented link format and any other item id the poll
    derives a key that is not in the ledger, and the entry is never set
    to "active" at all. *)
Example documented_format_never_marks_active :
  let run := process_scene (env_happy self_documented) demo_render demo_scene
               demo_type "planet_data" false fresh_world in
  run.1 = Ok true ∧
  derive_asset_key self_documented = Some "items_basic_analytic_8b" ∧
  (λ l, activated_scenes l !! demo_key) <$> dumps_of (trace run.2)
    = [Some "activating"; Some "activating"].
Proof. vm_compute. repeat split; reflexivity. Qed.

(* ===================================================================== *)
(** * process_scene, stage by stage *)
(* ===================================================================== *)

Section Stages.

Variable env : provider.
Variable render : scene → string.

Lemma log_run m w : log m w = (Ok tt, after_log m w).
Proof. reflexivity. Qed.

Lemma save_status_after l w : save_status l w = (Ok tt, after_save l w).
Proof. apply save_status_run. Qed.

Lemma save_metadata_run sc out w :
  ∃ w0, save_metadata render sc out w = (Ok (date_dir_of sc out), w0) ∧
        trace w0 = trace w ++ [EOpenW (metadata_path_of sc out);
                               EWrite (metadata_path_of sc out) (render sc)] ∧
        status_file w0 = status_file w ∧ clock w0 = clock w ∧
        (∀ p, p ≠ metadata_path_of sc out → disk w0 !! p = disk w !! p).
Proof.
  unfold save_metadata, open_w, write. rewrite !bind_run. cbn.
  eexists. split; [reflexivity|]. cbn. fold (metadata_path_of sc out).
  split; [by rewrite <- app_assoc|]. split; [done|]. split; [done|].
  intros p Hp. by rewrite !lookup_insert_ne.
Qed.

Lemma asset_links_pure j t w : (asset_links j t w).2 = w.
Proof. symmetry. apply (steps_asset_links eq). Qed.

Lemma activation_step_run l key act self ao w :
  activation_step env l key act self ao w =
  if bool_decide (is_Some (activated_scenes l !! key)) then
    let w1 := after_log (LogSkipActivation key) w in
    if ao then (Ok (Some l), w1)
    else after_wait l (wait_for_asset_activation env self 300 5 w1)
  else
    match activate_asset env act w with
    | (Ok true, w1) =>
        let w2 := after_save (with_activating key l) w1 in
        if ao then (Ok (Some (with_activating key l)), w2)
        else after_wait (with_activating key l)
               (wait_for_asset_activation env self 300 5 w2)
    | (Ok false, w1) => (Ok None, w1)
    | (Raise e, w1) => (Raise e, w1)
    end.
Proof.
  unfold activation_step. destruct (bool_decide _).
  - rewrite bind_run, log_run. destruct ao; [reflexivity|]. cbn [negb].
    rewrite bind_run. unfold after_wait.
    destruct (wait_for_asset_activation _ _ _ _ _) as [[[]|] ?]; reflexivity.
  - rewrite bind_run.
    destruct (activate_asset env act w) as [[[]|] w1]; try reflexivity.
    rewrite bind_run, save_status_after. fold (with_activating key l).
    destruct ao; [reflexivity|]. cbn [negb].
    rewrite bind_run. unfold after_wait.
    destruct (wait_for_asset_activation _ _ _ _ _) as [[[]|] ?]; reflexivity.
Qed.

Lemma download_step_run l key self path ao w :
  download_step env l key self path ao w =
  if ao then (Ok true, w)
  else if bool_decide (is_Some (downloaded_scenes l !! key))
          && bool_decide (is_Some (disk w !! path))
  then (Ok true, after_log (LogSkipDownload key) w)
  else match download_asset env self path w with
       | (Ok true, w1) => (Ok true, after_save (with_downloaded key l) w1)
       | other => other
       end.
Proof.
  unfold download_step. destruct ao; [reflexivity|].
  rewrite bind_run.
  destruct (bool_decide (is_Some (downloaded_scenes l !! key))); cbn [andb].
  - unfold path_exists.
    destruct (bool_decide (is_Some (disk w !! path))); [reflexivity|].
    rewrite bind_run.
    destruct (download_asset env self path w) as [[[]|] w1]; try reflexivity.
    by rewrite bind_run, save_status_after.
  - rewrite ret_run, bind_run.
    destruct (download_asset env self path w) as [[[]|] w1]; try reflexivity.
    by rewrite bind_run, save_status_after.
Qed.

Lemma process_scene_run sc t out ao w :
  process_scene env render sc t out ao w =
  let w0 := (save_metadata render sc out w).2 in
  let listing := Request Listing GET (JStr (assets_url_of sc)) in
  let key := make_key (scene_id sc) t in
  match ledger_of w with
  | None => (Raise JSONDecodeError, w0)
  | Some l =>
      match env (trace w0) listing with
      | (Failed, lat) => (Raise RequestException, after_req listing Failed lat w0)
      | (Replied resp, lat) =>
          let w1 := after_req listing (Replied resp) lat w0 in
          if negb (status_code resp =? 200)%nat then (Ok false, w1)
          else if negb (json_ok resp) then (Raise RequestsJSONDecodeError, w1)
          else match (asset_links (body resp) t w1).1 with
               | Raise e => (Raise e, w1)
               | Ok None => (Ok false, w1)
               | Ok (Some (act, self)) =>
                   match activation_step env l key act self ao w1 with
                   | (Raise e, w2) => (Raise e, w2)
                   | (Ok None, w2) => (Ok false, w2)
                   | (Ok (Some l'), w2) =>
                       download_step env l' key self
                         (raw_tif_path_of sc t out) ao w2
                   end
               end
      end
  end.
Proof.
  unfold process_scene. rewrite bind_run.
  destruct (save_metadata_run sc out w) as (w0 & Hrun & _ & Hst & _).
  rewrite Hrun. cbn [snd]. rewrite bind_run, load_status_run.
  rewrite (ledger_of_same_status _ _ Hst).
  destruct (ledger_of w) as [l|]; [|reflexivity].
  rewrite bind_run. unfold http at 1.
  destruct (env (trace w0) _) as [[resp|] lat]; [|reflexivity].
  fold (after_req (Request Listing GET (JStr (assets_url_of sc)))
                  (Replied resp) lat w0).
  cbv zeta. destruct (negb _); [reflexivity|].
  rewrite bind_run. unfold response_json.
  destruct (json_ok resp); cbn [negb]; [|reflexivity].
  rewrite ret_run, bind_run.
  pose proof (asset_links_pure (body resp) t
                (after_req (Request Listing GET (JStr (assets_url_of sc)))
                           (Replied resp) lat w0)) as Hp.
  destruct (asset_links _ _ _) as [[[[act self]|]|e] w1']; cbn in Hp; subst w1';
    cbn [fst]; try reflexivity.
  rewrite bind_run.
  destruct (activation_step _ _ _ _ _ _ _) as [[[l'|]|e] w2]; reflexivity.
Qed.

End Stages.

(* ===================================================================== *)
(** * An item that is already downloaded *)
(* ===================================================================== *)

Lemma last_char_app s t : t ≠ "" → PyStr.last_char (s +:+ t) = PyStr.last_char t.
Proof.
  intros Ht. induction s as [|c s IH]; [done|].
  change (String c s +:+ t) with (String c (s +:+ t)).
  cbn [PyStr.last_char]. destruct (s +:+ t) eqn:E; [|exact IH].
  destruct s; [done|discriminate E].
Qed.

Lemma path_join_last a b :
  b ≠ "" → PyStr.last_char (PyStr.path_join a b) = PyStr.last_char b.
Proof.
  intros Hb. unfold PyStr.path_join.
  destruct (PyStr.starts_with_sep b); [done|].
  destruct (_ || _); [by apply last_char_app|].
  rewrite last_char_app; [by apply (last_char_app "/")|].
  by destruct b.
Qed.

Lemma app_nonempty s t : t ≠ "" → s +:+ t ≠ "".
Proof. intros Ht. destruct s; [done|discriminate]. Qed.

(** The raster and the metadata of an item are different files. *)
Lemma raw_tif_path_not_metadata sc t out :
  raw_tif_path_of sc t out ≠ metadata_path_of sc out.
Proof.
  intros H. apply (f_equal PyStr.last_char) in H.
  unfold raw_tif_path_of, metadata_path_of in H.
  rewrite !path_join_last in H by (by apply app_nonempty).
  rewrite !last_char_app in H by done. discriminate H.
Qed.

Ltac emits_side :=
  intros;
  first [ apply emits_sleep | apply emits_http; intros | apply emits_log
        | apply emits_save | apply emits_open_w | apply emits_write ];
  done.

Section Skip.

Variable env : provider.
Variable render : scene → string.

Lemma activation_step_ledger l key act self ao w l' w' :
  activation_step env l key act self ao w = (Ok (Some l'), w') →
  l' = l ∨ l' = with_activating key l.
Proof.
  rewrite activation_step_run. cbv zeta. destruct (bool_decide _).
  - destruct ao; [intros [= <- <-]; by left|].
    destruct (wait_for_asset_activation _ _ _ _ _) as [[[]|] ?]; cbn;
      intros [= <- <-]; by left.
  - destruct (activate_asset env act w) as [[[]|] w1]; try done.
    destruct ao; [intros [= <- <-]; by right|].
    destruct (wait_for_asset_activation _ _ _ _ _) as [[[]|] ?]; cbn;
      intros [= <- <-]; by right.
Qed.

Lemma activation_step_same_disk l key act self ao w :
  disk (activation_step env l key act self ao w).2 = disk w.
Proof.
  apply (steps_activation_step same_disk env); intros;
    first [ apply same_disk_sleep | apply same_disk_http
          | apply same_disk_log | apply same_disk_save ].
Qed.

Lemma activation_step_no_download l key act self ao w :
  emits (λ e, is_request_at Download e = false
              ∧ is_request_at Listing e = false)
        w (activation_step env l key act self ao w).2.
Proof. apply (steps_activation_step _ env); emits_side. Qed.

End Skip.

(** C3, as stated, fails: for a finished item the orchestrator still lists
    the assets and polls the activation status. *)
Lemma completed_item_still_queries_provider :
  ¬ completed_item_skipped_entirely.
Proof.
  intros H.
  assert (Hfile : is_Some (disk done_world
                             !! raw_tif_path_of demo_scene demo_type "planet_data"))
    by (vm_compute; eauto).
  specialize (H (env_happy self_documented) demo_render demo_scene demo_type
                "planet_data" false done_world _ eq_refl Hfile eq_refl).
  vm_compute in H. discriminate H.
Qed.

Section SkipRun.

Variable env : provider.
Variable render : scene → string.

Lemma skipping_download_run sc t out ao w :
  process_scene_skipping_download env render sc t out ao w =
  let w0 := (save_metadata render sc out w).2 in
  let listing := Request Listing GET (JStr (assets_url_of sc)) in
  let key := make_key (scene_id sc) t in
  match ledger_of w with
  | None => (Raise JSONDecodeError, w0)
  | Some l =>
      match env (trace w0) listing with
      | (Failed, lat) => (Raise RequestException, after_req listing Failed lat w0)
      | (Replied resp, lat) =>
          let w1 := after_req listing (Replied resp) lat w0 in
          if negb (status_code resp =? 200)%nat then (Ok false, w1)
          else if negb (json_ok resp) then (Raise RequestsJSONDecodeError, w1)
          else match (asset_links (body resp) t w1).1 with
               | Raise e => (Raise e, w1)
               | Ok None => (Ok false, w1)
               | Ok (Some (act, self)) =>
                   match activation_step env l key act self ao w1 with
                   | (Raise e, w2) => (Raise e, w2)
                   | (Ok None, w2) => (Ok false, w2)
                   | (Ok (Some l'), w2) =>
                       if ao then (Ok true, w2)
                       else (Ok true, after_log (LogSkipDownload key) w2)
                   end
               end
      end
  end.
Proof.
  unfold process_scene_skipping_download. rewrite bind_run.
  destruct (save_metadata_run render sc out w) as (w0 & Hrun & _ & Hst & _).
  rewrite Hrun. cbn [snd]. rewrite bind_run, load_status_run.
  rewrite (ledger_of_same_status _ _ Hst).
  destruct (ledger_of w) as [l|]; [|reflexivity].
  rewrite bind_run. unfold http at 1.
  destruct (env (trace w0) _) as [[resp|] lat]; [|reflexivity].
  fold (after_req (Request Listing GET (JStr (assets_url_of sc)))
                  (Replied resp) lat w0).
  cbv zeta. destruct (negb _); [reflexivity|].
  rewrite bind_run. unfold response_json.
  destruct (json_ok resp); cbn [negb]; [|reflexivity].
  rewrite ret_run, bind_run.
  pose proof (asset_links_pure (body resp) t
                (after_req (Request Listing GET (JStr (assets_url_of sc)))
                           (Replied resp) lat w0)) as Hp.
  destruct (asset_links _ _ _) as [[[[act self]|]|e] w1']; cbn in Hp; subst w1';
    cbn [fst]; try reflexivity.
  rewrite bind_run.
  destruct (activation_step _ _ _ _ _ _ _) as [[[l'|]|e] w2]; try reflexivity.
  destruct ao; reflexivity.
Qed.

(** For a completed item the download stage is the skip. *)
Lemma download_step_completed l l' key act self path ao w1 w2 :
  is_Some (downloaded_scenes l !! key) →
  is_Some (disk w1 !! path) →
  activation_step env l key act self ao w1 = (Ok (Some l'), w2) →
  download_step env l' key self path ao w2
  = if ao then (Ok true, w2) else (Ok true, after_log (LogSkipDownload key) w2).
Proof.
  intros Hflag Hfile Hact. rewrite download_step_run.
  destruct ao; [reflexivity|].
  pose proof (activation_step_same_disk env l key act self false w1) as Hd.
  rewrite Hact in Hd. cbn [snd] in Hd.
  rewrite (bool_decide_eq_true_2 (is_Some (downloaded_scenes l' !! key))).
  2:{ by destruct (activation_step_ledger env _ _ _ _ _ _ _ _ Hact) as [->| ->]. }
  rewrite (bool_decide_eq_true_2 (is_Some (disk w2 !! path)))
    by (by rewrite Hd).
  reflexivity.
Qed.

Lemma completed_item_run sc t out ao w :
  downloaded_flag (make_key (scene_id sc) t) w = true →
  is_Some (disk w !! raw_tif_path_of sc t out) →
  process_scene env render sc t out ao w
  = process_scene_skipping_download env render sc t out ao w.
Proof.
  intros Hflag Hfile. rewrite process_scene_run, skipping_download_run.
  cbv zeta.
  destruct (save_metadata_run render sc out w)
    as (w0 & Hmeta & _ & _ & _ & Hdisk0).
  rewrite Hmeta. cbn [snd].
  specialize (Hdisk0 _ (raw_tif_path_not_metadata sc t out)).
  unfold downloaded_flag in Hflag.
  destruct (ledger_of w) as [l|]; [|done].
  apply bool_decide_eq_true in Hflag.
  destruct (env (trace w0) _) as [[resp|] lat]; [|reflexivity].
  destruct (negb _); [reflexivity|]. destruct (negb _); [reflexivity|].
  destruct (asset_links _ _ _).1 as [[[act self]|]|e]; try reflexivity.
  destruct (activation_step _ _ _ _ _ _ _) as [[[l'|]|e] w2] eqn:Hact;
    try reflexivity.
  eapply download_step_completed; [exact Hflag| |exact Hact].
  cbn. by rewrite Hdisk0.
Qed.

End SkipRun.

(** C3, amended.  For an item whose key is in [downloaded_scenes] and
    whose destination file is on disk, [process_scene] skips only the
    download.  Its run is that of [process_scene_skipping_download]: it
    writes the metadata, sends the asset listing GET and requests or
    polls the activation by the same [activation_step] as for any item;
    when that stage succeeds the only thing that follows is the log line
    of the skip, and the result is [True].  So the events after the
    listing are those of the activation stage and that log line: no
    status re-fetch for the download, no download request and no second
    listing; and the destination file is left as it is. *)
Theorem completed_item_skips_download_only
    (env : provider) (render : scene → string) (sc : scene)
    (asset_type output_dir : string) (activate_only : bool)
    (w : world) (r : result bool) (w' : world) :
  downloaded_flag (make_key (scene_id sc) asset_type) w = true →
  is_Some (disk w !! raw_tif_path_of sc asset_type output_dir) →
  process_scene env render sc asset_type output_dir activate_only w = (r, w') →
  process_scene_skipping_download env render sc asset_type output_dir
    activate_only w = (r, w') ∧
  ∃ o es,
    trace w' = trace w
               ++ [EOpenW (metadata_path_of sc output_dir);
                   EWrite (metadata_path_of sc output_dir) (render sc);
                   EReq (Request Listing GET (JStr (assets_url_of sc))) o]
               ++ es ∧
    Forall (λ e, is_request_at Download e = false
                 ∧ is_request_at Listing e = false) es ∧
    disk w' !! raw_tif_path_of sc asset_type output_dir
      = disk w !! raw_tif_path_of sc asset_type output_dir.
Proof.
  intros Hflag Hfile Hrun.
  split; [by rewrite <- (completed_item_run env render) by done|].
  revert Hrun. rewrite (completed_item_run env render) by done.
  rewrite skipping_download_run. cbv zeta.
  destruct (save_metadata_run render sc output_dir w)
    as (w0 & Hmeta & Htr0 & Hst0 & _ & Hdisk0).
  rewrite Hmeta. cbn [snd].
  specialize (Hdisk0 _ (raw_tif_path_not_metadata sc asset_type output_dir)).
  set (raw := raw_tif_path_of sc asset_type output_dir) in *.
  set (key := make_key (scene_id sc) asset_type) in *.
  unfold downloaded_flag in Hflag.
  destruct (ledger_of w) as [l|]; [|done].
  set (listing := Request Listing GET (JStr (assets_url_of sc))).
  assert (Hquiet : ∀ o lat,
             trace (after_req listing o lat w0)
             = trace w ++ [EOpenW (metadata_path_of sc output_dir);
                           EWrite (metadata_path_of sc output_dir) (render sc);
                           EReq listing o] ++ []).
  { intros o lat. cbn. rewrite Htr0. by rewrite <- !app_assoc. }
  destruct (env (trace w0) listing) as [[resp|] lat].
  2:{ intros [= <- <-]. exists Failed, []. split; [apply Hquiet|].
      split; [constructor|exact Hdisk0]. }
  set (w1 := after_req listing (Replied resp) lat w0).
  assert (Hearly : ∀ r0, (r0, w1) = (r, w') →
            ∃ o es, trace w' = trace w
               ++ [EOpenW (metadata_path_of sc output_dir);
                   EWrite (metadata_path_of sc output_dir) (render sc);
                   EReq listing o] ++ es ∧
            Forall (λ e, is_request_at Download e = false
                         ∧ is_request_at Listing e = false) es ∧
            disk w' !! raw = disk w !! raw).
  { intros r0 [= <- <-]. exists (Replied resp), [].
    split; [apply Hquiet|]. split; [constructor|exact Hdisk0]. }
  destruct (negb _); [apply Hearly|]. destruct (negb _); [apply Hearly|].
  destruct (asset_links (body resp) asset_type w1).1 as [[[act self]|]|e];
    [|apply Hearly..].
  pose proof (activation_step_same_disk env l key act self activate_only w1) as Hd.
  pose proof (activation_step_no_download env l key act self activate_only w1)
    as (es1 & Htr1 & Hes1).
  assert (Hw1 : trace w1 = trace w
               ++ [EOpenW (metadata_path_of sc output_dir);
                   EWrite (metadata_path_of sc output_dir) (render sc);
                   EReq listing (Replied resp)]).
  { cbn. rewrite Htr0. by rewrite <- !app_assoc. }
  destruct (activation_step env l key act self activate_only w1)
    as [[[l'|]|e] w2]; cbn [snd] in *.
  2,3: intros [= <- <-]; exists (Replied resp), es1;
       rewrite Htr1, Hw1, <- !app_assoc; split; [done|]; split; [done|];
       by rewrite Hd.
  destruct activate_only; intros [= <- <-].
  - exists (Replied resp), es1. rewrite Htr1, Hw1, <- !app_assoc.
    split; [done|]. split; [done|]. by rewrite Hd.
  - exists (Replied resp), (es1 ++ [ELog (LogSkipDownload key)]). cbn.
    rewrite Htr1, Hw1, <- !app_assoc. split; [done|]. split.
    + apply Forall_app. split; [done|]. by constructor.
    + by rewrite Hd.
Qed.

(** A finished item, run again: the listing, one status check that
    reports "active" (the poll of the activation stage), the log line of
    the skip, and nothing else. *)
Lemma completed_item_skips_download_only_witness :
  let run := process_scene (env_happy self_documented) demo_render demo_scene
               demo_type "planet_data" false done_world in
  let listing := Request Listing GET (JStr (assets_url_of demo_scene)) in
  let status := Request Status GET (JStr self_documented) in
  downloaded_flag demo_key done_world = true ∧
  run.1 = Ok true ∧
  trace run.2
    = [EOpenW (metadata_path_of demo_scene "planet_data");
       EWrite (metadata_path_of demo_scene "planet_data") "{}";
       EReq listing (Replied (ok_reply (listing_body demo_type self_documented)));
       ELog (LogSkipActivation demo_key);
       EReq status (Replied (ok_reply active_status));
       ELog (LogSkipDownload demo_key)] ∧
  process_scene_skipping_download (env_happy self_documented) demo_render
    demo_scene demo_type "planet_data" false done_world = (run.1, run.2) ∧
  disk run.2 !! raw_tif_path_of demo_scene demo_type "planet_data"
    = disk done_world !! raw_tif_path_of demo_scene demo_type "planet_data".
Proof.
  intros run listing status. split; [reflexivity|]. split; [reflexivity|].
  split; [vm_compute; reflexivity|].
  destruct (completed_item_skips_download_only (env_happy self_documented)
              demo_render demo_scene demo_type "planet_data" false done_world
              run.1 run.2) as (Heq & o & es & _ & _ & Hd).
  - reflexivity.
  - vm_compute. eauto.
  - apply surjective_pairing.
  - split; [exact Heq | exact Hd].
Defined.

(* ===================================================================== *)
(** * Idempotent activation *)
(* ===================================================================== *)

Lemma count_nil p : count p [] = 0%nat.
Proof. reflexivity. Qed.

Lemma count_cons p e es :
  count p (e :: es) = ((if p e then 1 else 0) + count p es)%nat.
Proof.
  unfold count. rewrite filter_cons.
  destruct (decide (p e = true)) as [->|H]; [done|].
  by destruct (p e).
Qed.

Lemma count_app p es1 es2 : count p (es1 ++ es2) = (count p es1 + count p es2)%nat.
Proof. unfold count. by rewrite filter_app, length_app. Qed.

Lemma count_zero p es : Forall (λ e, p e = false) es → count p es = 0%nat.
Proof.
  induction 1 as [|e es He _ IH]; [done|]. by rewrite count_cons, He, IH.
Qed.

Lemma accepted_le_posts es : (accepted es ≤ posts es)%nat.
Proof.
  unfold accepted, posts. induction es as [|e es IH]; [done|].
  rewrite !count_cons.
  destruct e as [[[] m u] [resp|]| | | | |]; cbn; try lia.
  destruct (_ || _); lia.
Qed.

Section Activation.

Variable env : provider.

Lemma activate_attempts_step u mr n a d w :
  activate_attempts env u mr (S n) a d w =
  let r := Request Activate POST u in
  match env (trace w) r with
  | (Replied resp, lat) =>
      let w1 := after_req r (Replied resp) lat w in
      if (status_code resp =? 202)%nat || (status_code resp =? 204)%nat
      then (Ok true, w1)
      else if (status_code resp =? 429)%nat then
        activate_attempts env u mr n (S a) (d * 2) (after_sleep d w1)
      else if (a <? mr - 1)%nat then
        activate_attempts env u mr n (S a) d (after_sleep d w1)
      else activate_attempts env u mr n (S a) d w1
  | (Failed, lat) =>
      let w1 := after_req r Failed lat w in
      if (a <? mr - 1)%nat then
        activate_attempts env u mr n (S a) d (after_sleep d w1)
      else activate_attempts env u mr n (S a) d w1
  end.
Proof.
  cbn [activate_attempts]. rewrite bind_run. unfold try_except_request.
  rewrite bind_run. unfold http.
  destruct (env (trace w) (Request Activate POST u)) as [[resp|] lat].
  - cbv zeta. destruct (_ || _); [reflexivity|].
    destruct (status_code resp =? 429)%nat; [reflexivity|].
    rewrite ret_run, bind_run.
    destruct (a <? mr - 1)%nat; reflexivity.
  - cbv zeta. rewrite ret_run, bind_run.
    destruct (a <? mr - 1)%nat; reflexivity.
Qed.

(** [activate_asset] never raises, sends at most [n] POSTs, and returns
    [True] exactly when its last POST was accepted; no earlier POST was. *)
Lemma activate_attempts_spec u mr n a d w :
  ∃ b w' es, activate_attempts env u mr n a d w = (Ok b, w') ∧
             trace w' = trace w ++ es ∧
             (posts es ≤ n)%nat ∧
             accepted es = (if b then 1 else 0)%nat.
Proof.
  revert a d w. induction n as [|n IH]; intros a d w.
  - exists false, w, []. by rewrite app_nil_r.
  - rewrite activate_attempts_step. cbv zeta.
    destruct (env (trace w) (Request Activate POST u)) as [[resp|] lat].
    + destruct (_ || _) eqn:Hacc.
      { eexists true, _, [_]. split; [reflexivity|]. split; [reflexivity|].
        unfold posts, accepted. rewrite !count_cons. cbn. rewrite Hacc. cbn.
        split; lia. }
      destruct (status_code resp =? 429)%nat; [|destruct (a <? mr - 1)%nat].
      all: edestruct IH as (b & w' & es & Hrun & Htr & Hp & Ha);
        rewrite Hrun; eexists b, w', _; (split; [reflexivity|]);
        rewrite Htr, ?trace_after_sleep, ?trace_after_req, <- ?app_assoc;
        (split; [reflexivity|]); cbn [app];
        unfold posts, accepted in *; rewrite !count_cons; cbn;
        rewrite ?Hacc; cbn; split; lia.
    + destruct (a <? mr - 1)%nat.
      all: edestruct IH as (b & w' & es & Hrun & Htr & Hp & Ha);
        rewrite Hrun; eexists b, w', _; (split; [reflexivity|]);
        rewrite Htr, ?trace_after_sleep, ?trace_after_req, <- ?app_assoc;
        (split; [reflexivity|]); cbn [app];
        unfold posts, accepted in *; rewrite !count_cons; cbn; split; lia.
Qed.

End Activation.

#[global] Arguments count : simpl never.
#[global] Arguments posts : simpl never.
#[global] Arguments accepted : simpl never.

Section Idempotence.

Variable env : provider.
Variable render : scene → string.

Lemma keeps_key_mark_active key k : steps (keeps_key key) (mark_active k).
Proof.
  intros w. rewrite mark_active_run. unfold keeps_key, activation_of.
  destruct k as [k|]; [|done]. destruct (String.eqb k ""); [done|].
  destruct (ledger_of w) as [l|] eqn:Hl; cbn; [|by rewrite Hl].
  destruct (bool_decide _); cbn; [|by rewrite Hl].
  intros Hk. destruct (decide (k = key)) as [->|Hne].
  - rewrite lookup_insert_eq. eauto.
  - by rewrite lookup_insert_ne.
Qed.

Lemma no_posts es :
  Forall (λ e, is_request_at Activate e = false) es →
  posts es = 0%nat ∧ accepted es = 0%nat.
Proof.
  intros H. assert (posts es = 0%nat) by by apply count_zero.
  pose proof (accepted_le_posts es). lia.
Qed.

Lemma wait_facts key u w :
  ∃ es, trace (wait_for_asset_activation env u 300 5 w).2 = trace w ++ es ∧
        posts es = 0%nat ∧ accepted es = 0%nat ∧
        (is_Some (activation_of key w) →
         is_Some (activation_of key (wait_for_asset_activation env u 300 5 w).2)).
Proof.
  assert (He : emits (λ e, is_request_at Activate e = false) w
                 (wait_for_asset_activation env u 300 5 w).2).
  { apply (steps_wait _ env); try emits_side.
    intros s _. apply steps_mark_active; try typeclasses eauto; emits_side. }
  destruct He as (es & Htr & Hes). exists es. split; [done|].
  destruct (no_posts _ Hes). split; [done|]. split; [done|].
  apply (steps_wait (keeps_key key) env).
  - apply keeps_key_sleep.
  - intros. apply keeps_key_http.
  - intros. apply keeps_key_mark_active.
  - apply keeps_key_log.
Qed.

Lemma activate_asset_facts u w :
  ∃ b w' es, activate_asset env u w = (Ok b, w') ∧
             trace w' = trace w ++ es ∧ status_file w' = status_file w ∧
             (posts es ≤ 3)%nat ∧ accepted es = (if b then 1 else 0)%nat ∧
             Forall (λ e, is_request_at Status e = false) es.
Proof.
  destruct (activate_attempts_spec env u 3 3 0 2 w)
    as (b & w' & es & Hrun & Htr & Hp & Ha).
  exists b, w', es. split; [exact Hrun|]. split; [done|]. split.
  - change (same_status w w'). eapply steps_run; [|exact Hrun].
    apply (steps_activate_asset same_status env).
    + apply same_status_sleep.
    + intros. apply same_status_http.
  - split; [done|]. split; [done|].
    assert (He : emits (λ e, is_request_at Status e = false) w w').
    { eapply steps_run; [|exact Hrun].
      apply (steps_activate_asset _ env); emits_side. }
    destruct He as (es' & Htr' & He). rewrite Htr in Htr'.
    apply app_inv_head in Htr'. by subst.
Qed.

Lemma activation_step_facts l key act self ao w :
  ledger_of w = Some l →
  ∃ es, activation_facts key l w
          (activation_step env l key act self ao w).1
          (activation_step env l key act self ao w).2 es.
Proof.
  intros Hl. rewrite activation_step_run. cbv zeta.
  destruct (bool_decide (is_Some (activated_scenes l !! key))) eqn:Hin.
  - apply bool_decide_eq_true in Hin.
    set (w1 := after_log (LogSkipActivation key) w).
    assert (Hk1 : is_Some (activation_of key w1)).
    { unfold activation_of. change (ledger_of w1) with (ledger_of w).
      by rewrite Hl. }
    destruct ao.
    + exists [ELog (LogSkipActivation key)]. unfold activation_facts.
      unfold posts, accepted. rewrite !count_cons, !count_nil. cbn.
      split; [done|]. split; [lia|]. split; [lia|]. split; [done|].
      split; [done|]. split; [done|]. by intros l' [= <-].
    + destruct (wait_facts key self w1) as (es & Htr & Hp & Ha & Hk).
      exists (ELog (LogSkipActivation key) :: es).
      assert (Hfacts : ∀ r, (∀ l', r = Ok (Some l') → l' = l) →
                activation_facts key l w r
                  (wait_for_asset_activation env self 300 5 w1).2
                  (ELog (LogSkipActivation key) :: es)).
      { intros r Hr. unfold activation_facts.
        unfold posts, accepted in *. rewrite !count_cons, Hp, Ha. cbn.
        split; [rewrite Htr; cbn; by rewrite <- app_assoc|].
        split; [lia|]. split; [lia|].
        split; [done|]. split; [auto|]. split; [done|].
        intros l' ->%Hr. auto. }
      destruct (wait_for_asset_activation env self 300 5 w1) as [[[]|e] w2];
        cbn; apply Hfacts; by intros l' [= <-].
  - apply bool_decide_eq_false in Hin.
    destruct (activate_asset_facts act w)
      as (b & w1 & es1 & Hrun & Htr1 & Hst1 & Hp1 & Ha1 & Hq1).
    rewrite Hrun. destruct b.
    2:{ exists es1. unfold activation_facts. cbn [fst snd]. rewrite Ha1.
        split; [done|]. split; [done|]. split; [lia|].
        split; [by intros ?|]. split; [|split; [done|by intros l' [=]]].
        unfold activation_of. by rewrite (ledger_of_same_status _ _ Hst1). }
    set (l1 := with_activating key l). set (w2 := after_save l1 w1).
    assert (Hk2 : is_Some (activation_of key w2)).
    { unfold activation_of. cbn. rewrite lookup_insert_eq. eauto. }
    assert (Hl1 : is_Some (activated_scenes l1 !! key)).
    { cbn. rewrite lookup_insert_eq. eauto. }
    assert (Hpers : ∀ es2, persisted_before_polling key
                     (es1 ++ [EOpenW STATUS_FILE; EDump STATUS_FILE l1] ++ es2)).
    { intros es2. exists (es1 ++ [EOpenW STATUS_FILE]), l1, es2.
      split; [by rewrite <- app_assoc|]. split.
      - cbn. by rewrite lookup_insert_eq.
      - apply Forall_app. split; [done|]. by constructor. }
    assert (Hw2 : trace w2 = trace w ++ es1
                             ++ [EOpenW STATUS_FILE; EDump STATUS_FILE l1]).
    { cbn. by rewrite Htr1, <- app_assoc. }
    destruct ao.
    + exists (es1 ++ [EOpenW STATUS_FILE; EDump STATUS_FILE l1] ++ []).
      unfold activation_facts. cbn [fst snd].
      unfold posts, accepted in *.
      rewrite !count_app, !count_cons, !count_nil, Ha1. cbn.
      split; [exact Hw2|]. split; [lia|]. split; [lia|].
      split; [by intros ?|]. split; [done|]. split; [|by intros l' [= <-]].
      intros _. split; [done|]. apply (Hpers []).
    + destruct (wait_facts key self w2) as (es & Htr & Hp & Ha & Hk).
      exists (es1 ++ [EOpenW STATUS_FILE; EDump STATUS_FILE l1] ++ es).
      assert (Hfacts : ∀ r, (∀ l', r = Ok (Some l') → l' = l1) →
                activation_facts key l w r
                  (wait_for_asset_activation env self 300 5 w2).2
                  (es1 ++ [EOpenW STATUS_FILE; EDump STATUS_FILE l1] ++ es)).
      { intros r Hr. unfold activation_facts.
        unfold posts, accepted in *.
        rewrite !count_app, !count_cons, !count_nil, Hp, Ha, Ha1. cbn.
        split; [by rewrite Htr, Hw2, <- !app_assoc|].
        split; [lia|]. split; [lia|].
        split; [by intros ?|]. split; [intros _; exact (Hk Hk2)|].
        split; [intros _; split; [exact (Hk Hk2) | apply Hpers]|].
        intros l' ->%Hr. split; [exact Hl1 | exact (Hk Hk2)]. }
      destruct (wait_for_asset_activation env self 300 5 w2) as [[[]|e] w3];
        cbn; apply Hfacts; by intros l' [= <-].
Qed.

Lemma download_step_facts l key self path ao w :
  is_Some (activated_scenes l !! key) →
  ∃ es, trace (download_step env l key self path ao w).2 = trace w ++ es ∧
        posts es = 0%nat ∧ accepted es = 0%nat ∧
        (is_Some (activation_of key w) →
         is_Some (activation_of key (download_step env l key self path ao w).2)).
Proof.
  intros Hin.
  assert (He : emits (λ e, is_request_at Activate e = false) w
                 (download_step env l key self path ao w).2).
  { apply (steps_download_step _ env); emits_side. }
  destruct He as (es & Htr & Hes). exists es. split; [done|].
  destruct (no_posts _ Hes). split; [done|]. split; [done|].
  rewrite download_step_run. destruct ao; [done|].
  destruct (_ && _); [done|].
  assert (Hs : same_status w (download_asset env self path w).2).
  { apply (steps_download_asset same_status env); intros;
      first [ apply same_status_sleep | apply same_status_http
            | apply same_status_open_w | apply same_status_write ]. }
  destruct (download_asset env self path w) as [[[]|e] w1]; cbn in *.
  - intros _. unfold activation_of. cbn. exact Hin.
  - unfold activation_of. by rewrite (ledger_of_same_status _ _ Hs).
  - unfold activation_of. by rewrite (ledger_of_same_status _ _ Hs).
Qed.

End Idempotence.

Lemma persisted_prefix key pre es :
  Forall (λ e, is_request_at Status e = false) pre →
  persisted_before_polling key es → persisted_before_polling key (pre ++ es).
Proof.
  intros Hpre (a & l & b & -> & Hl & Ha). exists (pre ++ a), l, b.
  split; [by rewrite <- app_assoc|]. split; [done|]. by apply Forall_app.
Qed.

Lemma persisted_suffix key es post :
  persisted_before_polling key es → persisted_before_polling key (es ++ post).
Proof.
  intros (a & l & b & -> & Hl & Ha). exists a, l, (b ++ post).
  split; [by rewrite <- app_assoc|]. done.
Qed.

Section OneRun.

Variable env : provider.
Variable render : scene → string.

(** One run of [process_scene]: at most three activation POSTs, at most
    one of them accepted; none at all when the key is already in the
    ledger file, and the key stays there; an accepted POST puts the key in
    the ledger file before any status check. *)
Lemma process_scene_facts sc t out ao w :
  let key := make_key (scene_id sc) t in
  let run := process_scene env render sc t out ao w in
  ∃ es, trace run.2 = trace w ++ es ∧
        (posts es ≤ 3)%nat ∧ (accepted es ≤ 1)%nat ∧
        (is_Some (activation_of key w) →
         posts es = 0%nat ∧ is_Some (activation_of key run.2)) ∧
        (accepted es = 1%nat →
         is_Some (activation_of key run.2) ∧ persisted_before_polling key es).
Proof.
  intros key run. subst run. rewrite process_scene_run. cbv zeta.
  destruct (save_metadata_run render sc out w)
    as (w0 & Hmeta & Htr0 & Hst0 & _ & _).
  rewrite Hmeta. cbn [snd]. fold key.
  set (m := metadata_path_of sc out) in *.
  set (listing := Request Listing GET (JStr (assets_url_of sc))).
  destruct (ledger_of w) as [l|] eqn:Hl.
  2:{ exists [EOpenW m; EWrite m (render sc)]. cbn [snd].
      unfold posts, accepted. rewrite !count_cons, !count_nil. cbn.
      split; [done|]. split; [lia|]. split; [lia|]. split; [|lia].
      unfold activation_of. rewrite Hl. by intros []. }
  assert (Hearly : ∀ (r : result bool) o lat,
    ∃ es, trace (r, after_req listing o lat w0).2 = trace w ++ es ∧
          (posts es ≤ 3)%nat ∧ (accepted es ≤ 1)%nat ∧
          (is_Some (activation_of key w) →
           posts es = 0%nat
           ∧ is_Some (activation_of key (r, after_req listing o lat w0).2)) ∧
          (accepted es = 1%nat →
           is_Some (activation_of key (r, after_req listing o lat w0).2)
           ∧ persisted_before_polling key es)).
  { intros r o lat. exists [EOpenW m; EWrite m (render sc); EReq listing o].
    cbn [snd]. unfold posts, accepted. rewrite !count_cons, !count_nil. cbn.
    split; [by rewrite Htr0, <- app_assoc|]. split; [lia|]. split; [lia|].
    split; [|lia]. intros Hk. split; [done|].
    unfold activation_of in *. change (ledger_of (after_req listing o lat w0))
      with (ledger_of w0). by rewrite (ledger_of_same_status _ _ Hst0). }
  destruct (env (trace w0) listing) as [[resp|] lat]; [|apply Hearly].
  set (w1 := after_req listing (Replied resp) lat w0) in *.
  destruct (negb _); [apply Hearly|]. destruct (negb _); [apply Hearly|].
  destruct (asset_links (body resp) t w1).1 as [[[act self]|]|e];
    [|apply Hearly..].
  assert (Hl1 : ledger_of w1 = Some l).
  { change (ledger_of w1) with (ledger_of w0).
    by rewrite (ledger_of_same_status _ _ Hst0). }
  assert (Hkey1 : is_Some (activation_of key w) → is_Some (activation_of key w1)).
  { unfold activation_of. by rewrite Hl, Hl1. }
  assert (Hin : is_Some (activation_of key w) →
                is_Some (activated_scenes l !! key)).
  { unfold activation_of. by rewrite Hl. }
  set (pre := [EOpenW m; EWrite m (render sc); EReq listing (Replied resp)]).
  assert (Hw1 : trace w1 = trace w ++ pre).
  { cbn. by rewrite Htr0, <- app_assoc. }
  assert (Hpre : Forall (λ e, is_request_at Status e = false) pre).
  { repeat constructor. }
  assert (Hpp : posts pre = 0%nat ∧ accepted pre = 0%nat).
  { unfold posts, accepted, pre. by rewrite !count_cons, !count_nil. }
  destruct Hpp as [Hpp Hpa].
  destruct (activation_step_facts env l key act self ao w1 Hl1)
    as (esa & Htra & Hpa3 & Haa1 & Hpa0 & Hka & Hacc & Hsome).
  destruct (activation_step env l key act self ao w1) as [[[l'|]|e] w2];
    cbn [fst snd] in *.
  2,3: exists (pre ++ esa); unfold posts, accepted in *;
       rewrite !count_app, Hpp, Hpa, !Nat.add_0_l;
       (split; [by rewrite Htra, Hw1, <- app_assoc|]);
       (split; [done|]); (split; [done|]); split;
       [ intros Hk; split; [by apply Hpa0, Hin | by apply Hka, Hkey1]
       | intros [Hk Hp]%Hacc; split; [done | by apply persisted_prefix] ].
  destruct (Hsome l' eq_refl) as [Hl' Hk2].
  destruct (download_step_facts env l' key self (raw_tif_path_of sc t out) ao w2 Hl')
    as (esd & Htrd & Hpd & Had & Hkd).
  exists (pre ++ esa ++ esd). unfold posts, accepted in *.
  rewrite !count_app, Hpp, Hpa, Hpd, Had, !Nat.add_0_l, !Nat.add_0_r.
  split; [by rewrite Htrd, Htra, Hw1, <- !app_assoc|].
  split; [done|]. split; [done|]. split.
  - intros Hk. split; [by apply Hpa0, Hin | by apply Hkd].
  - intros [Hk Hp]%Hacc. split; [by apply Hkd|].
    apply persisted_prefix; [done|]. by apply persisted_suffix.
Qed.

End OneRun.

(** C1, as stated, fails: "at most one activation POST per asset key" does
    not hold of the POSTs sent.  When the provider refuses the first POST
    with a 500 and accepts the retry, one run sends two activation POSTs
    for the same key. *)
Lemma retried_activation_posts_twice : ¬ at_most_one_post_in_two_runs.
Proof.
  intros H.
  specialize (H env_flaky demo_render demo_scene demo_type "planet_data"
                false fresh_world).
  vm_compute in H. lia.
Qed.

(** When every activation POST is refused, nothing is recorded and the
    second run posts again: six POSTs for one key in two runs. *)
Example refused_activation_is_requested_again :
  let run1 := process_scene env_refusing demo_render demo_scene demo_type
                "planet_data" false fresh_world in
  let run2 := process_scene env_refusing demo_render demo_scene demo_type
                "planet_data" false run1.2 in
  run1.1 = Ok false ∧ activation_of demo_key run1.2 = None ∧
  posts (trace run1.2) = 3%nat ∧ posts (trace run2.2) = 6%nat.
Proof. vm_compute. repeat split; reflexivity. Qed.

(** C1, amended.  Over two runs of [process_scene] in succession for the
    same work item, at most one activation POST is accepted (202 or 204)
    for its key.  A run sends at most three activation POSTs, the retries
    of one [activate_asset] call.  Once a POST is accepted the key is in
    the ledger file, dumped there as "activating" before any status check
    of that run, and a run that finds the key in [activated_scenes] sends
    no activation POST at all. *)
Theorem activation_accepted_at_most_once
    (env : provider) (render : scene → string) (sc : scene)
    (asset_type out1 out2 : string) (only1 only2 : bool) (w : world) :
  let key := make_key (scene_id sc) asset_type in
  let run1 := process_scene env render sc asset_type out1 only1 w in
  let run2 := process_scene env render sc asset_type out2 only2 run1.2 in
  ∃ es1 es2,
    trace run1.2 = trace w ++ es1 ∧ trace run2.2 = trace run1.2 ++ es2 ∧
    (accepted es1 + accepted es2 ≤ 1)%nat ∧
    (posts es1 ≤ 3)%nat ∧ (posts es2 ≤ 3)%nat ∧
    (accepted es1 = 1%nat →
     is_Some (activation_of key run1.2) ∧
     persisted_before_polling key es1 ∧ posts es2 = 0%nat) ∧
    (is_Some (activation_of key run1.2) → posts es2 = 0%nat) ∧
    (is_Some (activation_of key w) → posts es1 = 0%nat ∧ posts es2 = 0%nat).
Proof.
  intros key run1 run2.
  destruct (process_scene_facts env render sc asset_type out1 only1 w)
    as (es1 & Htr1 & Hp1 & Ha1 & Hk1 & Hacc1).
  destruct (process_scene_facts env render sc asset_type out2 only2 run1.2)
    as (es2 & Htr2 & Hp2 & Ha2 & Hk2 & Hacc2).
  fold key run1 in Htr1, Hk1, Hacc1. fold key run2 in Htr2, Hk2, Hacc2.
  exists es1, es2. split; [done|]. split; [done|].
  pose proof (accepted_le_posts es2) as Hle.
  split.
  { destruct (decide (accepted es1 = 1%nat)) as [H1|H1]; [|lia].
    destruct (Hacc1 H1) as [Hk _]. destruct (Hk2 Hk) as [H0 _]. lia. }
  split; [done|]. split; [done|]. split.
  { intros H1. destruct (Hacc1 H1) as [Hk Hp]. split; [done|]. split; [done|].
    by apply Hk2. }
  split.
  { intros Hk. by apply Hk2. }
  intros Hk. destruct (Hk1 Hk) as [H0 Hk']. split; [done|]. by apply Hk2.
Qed.

Lemma activation_accepted_at_most_once_witness :
  let run1 := process_scene (env_happy self_documented) demo_render demo_scene
                demo_type "planet_data" true fresh_world in
  let run2 := process_scene (env_happy self_documented) demo_render demo_scene
                demo_type "planet_data" false run1.2 in
  posts (trace run1.2) = 1%nat ∧ accepted (trace run1.2) = 1%nat ∧
  activation_of demo_key run1.2 = Some "activating" ∧
  posts (trace run2.2) = 1%nat ∧
  ∃ es1 es2,
    trace run1.2 = trace fresh_world ++ es1 ∧
    trace run2.2 = trace run1.2 ++ es2 ∧
    (accepted es1 + accepted es2 ≤ 1)%nat.
Proof.
  intros run1 run2.
  split; [reflexivity|]. split; [reflexivity|]. split; [reflexivity|].
  split; [reflexivity|].
  destruct (activation_accepted_at_most_once (env_happy self_documented)
              demo_render demo_scene demo_type "planet_data" "planet_data"
              true false fresh_world) as (es1 & es2 & H1 & H2 & H3 & _).
  exists es1, es2. auto.
Defined.

(* ===================================================================== *)
(** * The download and the download flag *)
(* ===================================================================== *)

#[global] Instance keeps_unflagged_preorder k : PreOrder (keeps_unflagged k).
Proof. split; [intros w | intros w1 w2 w3]; unfold keeps_unflagged; tauto. Qed.

Lemma append_nil_r s : s +:+ "" = s.
Proof.
  induction s as [|c s IH]; [done|].
  change (String c s +:+ "") with (String c (s +:+ "")). by rewrite IH.
Qed.

Lemma append_assoc s t u : (s +:+ t) +:+ u = s +:+ (t +:+ u).
Proof.
  induction s as [|c s IH]; [done|].
  change (String c ((s +:+ t) +:+ u) = String c (s +:+ (t +:+ u))).
  by rewrite IH.
Qed.

Lemma write_chunks_run path cs w s :
  disk w !! path = Some s →
  write_chunks path cs w =
  (Ok tt, World (clock w) (trace w ++ map (EWrite path) cs) (status_file w)
                (<[path := s +:+ join_chunks cs]> (disk w))).
Proof.
  revert w s. induction cs as [|c cs IH]; intros w s Hs.
  - cbn. rewrite app_nil_r, append_nil_r, insert_id by done. by destruct w.
  - cbn [write_chunks]. rewrite bind_run. unfold write at 1. rewrite Hs.
    cbn [default]. erewrite IH; [|cbn; apply lookup_insert_eq].
    cbn. by rewrite <- app_assoc, insert_insert_eq, append_assoc.
Qed.

Lemma open_write_run path cs w :
  (open_w path ≫= λ _, write_chunks path cs) w = (Ok tt, after_write path cs w).
Proof.
  rewrite bind_run. unfold open_w at 1.
  erewrite write_chunks_run; [|cbn; apply lookup_insert_eq].
  unfold after_write. cbn. by rewrite <- app_assoc, insert_insert_eq.
Qed.

Section DownloadLoop.

Variable env : provider.

Lemma download_attempts_step u p mr n a d w :
  download_attempts env u p mr (S n) a d w =
  let r := Request Download GET u in
  let retry w1 :=
    if (a <? mr - 1)%nat
    then download_attempts env u p mr n (S a) (d * 2) (after_sleep d w1)
    else download_attempts env u p mr n (S a) d w1 in
  match env (trace w) r with
  | (Replied resp, lat) =>
      let w1 := after_req r (Replied resp) lat w in
      if (status_code resp =? 200)%nat then
        if stream_ok resp then (Ok true, after_write p (chunks resp) w1)
        else retry (after_write p (chunks resp) w1)
      else if (status_code resp =? 429)%nat then
        download_attempts env u p mr n (S a) (d * 2) (after_sleep d w1)
      else retry w1
  | (Failed, lat) => retry (after_req r Failed lat w)
  end.
Proof.
  cbn [download_attempts]. rewrite bind_run. unfold try_except_request.
  rewrite bind_run. unfold http.
  destruct (env (trace w) (Request Download GET u)) as [[resp|] lat]; cbv zeta.
  - destruct (status_code resp =? 200)%nat.
    + rewrite bind_run.
      pose proof (open_write_run p (chunks resp)
                    (after_req (Request Download GET u) (Replied resp) lat w)) as E.
      rewrite bind_run in E.
      unfold after_req in E |- *.
      destruct (open_w p _) as [[[]|e] w1] eqn:Ho; [|discriminate E].
      rewrite bind_run, E.
      destruct (stream_ok resp).
      * reflexivity.
      * rewrite bind_run. unfold raise. rewrite ret_run.
        destruct (a <? mr - 1)%nat; [by rewrite bind_run|reflexivity].
    + destruct (status_code resp =? 429)%nat; [reflexivity|].
      rewrite ret_run.
      destruct (a <? mr - 1)%nat; [by rewrite bind_run|reflexivity].
  - rewrite ret_run.
    destruct (a <? mr - 1)%nat; [by rewrite bind_run|reflexivity].
Qed.

(** A download that returns [True] ends with a 200 reply whose stream
    was complete and whose chunks were all written to [p] itself. *)
Lemma download_attempts_success u p mr n a d w w' :
  download_attempts env u p mr n a d w = (Ok true, w') →
  ∃ es0 resp,
    trace w' = trace w ++ es0
               ++ EReq (Request Download GET u) (Replied resp)
               :: EOpenW p :: map (EWrite p) (chunks resp) ∧
    status_code resp = 200%nat ∧ stream_ok resp = true ∧
    disk w' = <[p := join_chunks (chunks resp)]> (disk w) ∧
    status_file w' = status_file w.
Proof.
  revert a d w. induction n as [|n IH]; intros a d w; [done|].
  rewrite download_attempts_step. cbv zeta.
  assert (Hnext : ∀ a d w1 es1,
            trace w1 = trace w ++ es1 → status_file w1 = status_file w →
            (disk w1 = disk w ∨ ∃ x, disk w1 = <[p := x]> (disk w)) →
            download_attempts env u p mr n a d w1 = (Ok true, w') →
            ∃ es0 resp,
              trace w' = trace w ++ es0
                         ++ EReq (Request Download GET u) (Replied resp)
                         :: EOpenW p :: map (EWrite p) (chunks resp) ∧
              status_code resp = 200%nat ∧ stream_ok resp = true ∧
              disk w' = <[p := join_chunks (chunks resp)]> (disk w) ∧
              status_file w' = status_file w).
  { intros a' d' w1 es1 Htr Hst Hd Hrun.
    destruct (IH _ _ _ Hrun) as (es0 & resp & Htr' & Hc & Hs & Hd' & Hst').
    exists (es1 ++ es0), resp. split; [by rewrite Htr', Htr, <- !app_assoc|].
    split; [done|]. split; [done|]. split; [|congruence].
    rewrite Hd'. destruct Hd as [->|[x ->]]; [done|apply insert_insert_eq]. }
  destruct (env (trace w) (Request Download GET u)) as [[resp|] lat].
  - destruct (status_code resp =? 200)%nat eqn:H200.
    + destruct (stream_ok resp) eqn:Hok.
      * intros [= <-]. exists [], resp. apply Nat.eqb_eq in H200.
        split; [cbn; by rewrite <- app_assoc|]. auto.
      * destruct (a <? mr - 1)%nat; eapply Hnext; cbn;
          rewrite <- ?app_assoc; eauto.
    + destruct (status_code resp =? 429)%nat; [|destruct (a <? mr - 1)%nat];
        eapply Hnext; cbn; rewrite <- ?app_assoc; eauto.
  - destruct (a <? mr - 1)%nat; eapply Hnext; cbn; rewrite <- ?app_assoc; eauto.
Qed.

End DownloadLoop.

Section DownloadFlag.

Variable env : provider.
Variable render : scene → string.

Lemma not_downloadable_run v w :
  not_downloadable v w =
  (if negb (Py.truthy v) then Ok true
   else match Py.getitem v "status" with
        | Ok s => if negb (Py.is_str "active" s) then Ok true
                  else match Py.contains "location" v with
                       | Ok b => Ok (negb b)
                       | Raise e => Raise e
                       end
        | Raise e => Raise e
        end, w).
Proof.
  unfold not_downloadable. destruct (negb (Py.truthy v)); [done|].
  rewrite bind_run. unfold lift.
  destruct (Py.getitem v "status") as [s|e]; [|done].
  destruct (negb (Py.is_str "active" s)); [done|].
  rewrite bind_run. by destruct (Py.contains "location" v).
Qed.

(** A download that returns [True]: the status it re-fetched was a 200
    reply saying "active", and the run ends with a 200 reply of the
    download URL whose complete body is written to the destination. *)
Lemma download_asset_success u p w w' :
  download_asset env u p w = (Ok true, w') →
  ∃ es_s es0 resp loc,
    trace w' = trace w ++ es_s ++ es0
               ++ EReq (Request Download GET loc) (Replied resp)
               :: EOpenW p :: map (EWrite p) (chunks resp) ∧
    Exists (λ e, reports_active e = true) es_s ∧
    status_code resp = 200%nat ∧ stream_ok resp = true ∧
    disk w' = <[p := join_chunks (chunks resp)]> (disk w) ∧
    status_file w' = status_file w.
Proof.
  unfold download_asset. rewrite bind_run.
  destruct (get_status_spec env u w) as (v & w1 & es_s & Hrun & Htr & Hres).
  assert (Hd : same_disk w w1).
  { eapply steps_run; [|exact Hrun].
    apply (steps_get_status same_disk env); intros;
      [apply same_disk_sleep | apply same_disk_http]. }
  assert (Hs : same_status w w1).
  { eapply steps_run; [|exact Hrun].
    apply (steps_get_status same_status env); intros;
      [apply same_status_sleep | apply same_status_http]. }
  rewrite Hrun, bind_run, not_downloadable_run.
  destruct (negb (Py.truthy v)) eqn:Ht; [done|].
  destruct (Py.getitem v "status") as [s|e] eqn:Hg; [|done].
  destruct (negb (Py.is_str "active" s)) eqn:Ha; [done|].
  destruct (Py.contains "location" v) as [[]|e]; [|done..].
  cbn [negb]. rewrite bind_run. unfold lift.
  destruct (Py.getitem v "location") as [loc|e]; [|done].
  intros Hdl.
  destruct (download_attempts_success env _ _ _ _ _ _ _ _ Hdl)
    as (es0 & resp & Htr' & Hc & Hok & Hd' & Hs').
  exists es_s, es0, resp, loc.
  split; [by rewrite Htr', Htr, <- !app_assoc|]. split.
  - destruct Hres as [[-> _]|(es1 & rs & -> & Hc1 & Hj1 & -> & _)]; [done|].
    apply Exists_app. right. constructor. cbn.
    apply Nat.eqb_eq in Hc1. rewrite Hc1, Hj1. unfold active_body. rewrite Hg.
    by destruct (Py.is_str "active" s).
  - split; [done|]. split; [done|]. split; [by rewrite Hd', Hd|].
    by rewrite Hs', Hs.
Qed.

Lemma keeps_unflagged_same_status k w w' :
  status_file w' = status_file w → keeps_unflagged k w w'.
Proof.
  intros H. unfold keeps_unflagged, downloaded_flag.
  by rewrite (ledger_of_same_status _ _ H).
Qed.

Lemma keeps_unflagged_mark_active key k : steps (keeps_unflagged key) (mark_active k).
Proof.
  intros w. rewrite mark_active_run.
  destruct k as [k|]; [|done]. destruct (String.eqb k ""); [done|].
  unfold keeps_unflagged, downloaded_flag.
  destruct (ledger_of w) as [l|] eqn:Hl; cbn; [|by rewrite Hl].
  destruct (bool_decide _); cbn; by rewrite ?Hl.
Qed.

Lemma wait_keeps_unflagged key u w :
  keeps_unflagged key w (wait_for_asset_activation env u 300 5 w).2.
Proof.
  apply (steps_wait (keeps_unflagged key) env).
  - intros d w0. by apply keeps_unflagged_same_status.
  - intros u0 w0. apply keeps_unflagged_same_status.
    apply (same_status_http env).
  - intros. apply keeps_unflagged_mark_active.
  - intros m w0. by apply keeps_unflagged_same_status.
Qed.

Lemma activation_step_unflagged l key act self ao w :
  ledger_of w = Some l → downloaded_scenes l !! key = None →
  downloaded_flag key (activation_step env l key act self ao w).2 = false.
Proof.
  intros Hl Hnone.
  assert (Hw : downloaded_flag key w = false).
  { unfold downloaded_flag. rewrite Hl, Hnone. apply bool_decide_eq_false.
    by intros []. }
  assert (Hstep : ∀ w1, downloaded_flag key w1 = false →
            downloaded_flag key (wait_for_asset_activation env self 300 5 w1).2
            = false).
  { intros w1 H1. pose proof (wait_keeps_unflagged key self w1) as Hk.
    unfold keeps_unflagged in Hk.
    apply not_true_is_false. intros E. apply Hk in E. congruence. }
  rewrite activation_step_run. cbv zeta. destruct (bool_decide _).
  - destruct ao; [exact Hw|].
    specialize (Hstep (after_log (LogSkipActivation key) w) Hw).
    by destruct (wait_for_asset_activation _ _ _ _ _) as [[[]|] ?].
  - destruct (activate_asset_facts env act w)
      as (b & w1 & es1 & Hrun & _ & Hst1 & _).
    rewrite Hrun.
    destruct b.
    2:{ cbn. unfold downloaded_flag in *.
        by rewrite (ledger_of_same_status _ _ Hst1). }
    assert (H2 : downloaded_flag key (after_save (with_activating key l) w1)
                 = false).
    { unfold downloaded_flag. cbn. rewrite Hnone. apply bool_decide_eq_false.
      by intros []. }
    destruct ao; [exact H2|]. specialize (Hstep _ H2).
    by destruct (wait_for_asset_activation _ _ _ _ _) as [[[]|] ?].
Qed.

End DownloadFlag.

(* ===================================================================== *)
(** * download_asset: the precondition *)
(* ===================================================================== *)

Section Precondition.

Variable env : provider.

Lemma download_attempts_extends u p mr n a d w :
  emits (λ _, True) w (download_attempts env u p mr n a d w).2.
Proof. apply (steps_download_attempts _ env); emits_side. Qed.

(** With an attempt left, the first thing the download loop does is a
    download request. *)
Lemma download_attempts_first u p mr n a d w :
  ∃ o es, trace (download_attempts env u p mr (S n) a d w).2
          = trace w ++ EReq (Request Download GET u) o :: es.
Proof.
  rewrite download_attempts_step. cbv zeta.
  set (r := Request Download GET u).
  assert (Hfrom : ∀ o lat w',
            emits (λ _, True) (after_req r o lat w) w' →
            ∃ o es, trace w' = trace w ++ EReq r o :: es).
  { intros o lat w' (es & Htr & _). exists o, es.
    rewrite Htr. cbn. by rewrite <- app_assoc. }
  assert (Hwrite : ∀ cs w0, emits (λ _, True) w0 (after_write p cs w0)).
  { intros cs w0. exists (EOpenW p :: map (EWrite p) cs).
    split; [done|]. by apply Forall_forall. }
  assert (Hsleep : ∀ x w0, emits (λ _, True) w0 (after_sleep x w0)).
  { intros x w0. exists [ESleep x]. split; [done|]. by constructor. }
  assert (Hretry : ∀ w0,
            emits (λ _, True) w0
              (if (a <? mr - 1)%nat
               then download_attempts env u p mr n (S a) (d * 2)
                      (after_sleep d w0)
               else download_attempts env u p mr n (S a) d w0).2).
  { intros w0. destruct (a <? mr - 1)%nat.
    - etrans; [apply Hsleep|apply download_attempts_extends].
    - apply download_attempts_extends. }
  destruct (env (trace w) r) as [[resp|] lat].
  - apply (Hfrom (Replied resp) lat).
    destruct (status_code resp =? 200)%nat; [destruct (stream_ok resp)|].
    + apply Hwrite.
    + etrans; [apply Hwrite|apply Hretry].
    + destruct (status_code resp =? 429)%nat; [|apply Hretry].
      etrans; [apply Hsleep|apply download_attempts_extends].
  - apply (Hfrom Failed lat). apply Hretry.
Qed.

End Precondition.


(** And a location that is present but not resolved is not a failure at
    once either: the download is attempted three times, with waits of 2
    and 4 seconds, before [False] is returned. *)
Example null_location_is_attempted :
  let run := download_asset env_null_location (JStr self_short)
               "planet_data/S1.tif" fresh_world in
  run.1 = Ok false ∧
  requests_of (trace run.2)
    = [Request Status GET (JStr self_short);
       Request Download GET JNull; Request Download GET JNull;
       Request Download GET JNull] ∧
  sleeps_of (trace run.2) = [2; 4]%nat.
Proof. vm_compute. repeat split. Qed.



(** C8, as stated, fails: the download is written to the final path
    itself.  When the stream breaks after the first chunk on every
    attempt, [download_asset] returns [False] and the final path, which
    did not exist before, holds the partial body. *)
Lemma partial_download_occupies_final_path :
  ¬ final_path_changes_only_on_success.
Proof.
  intros H.
  specialize (H env_broken (JStr self_documented) "planet_data/S1.tif"
                fresh_world).
  assert (Hfail : (download_asset env_broken (JStr self_documented)
                     "planet_data/S1.tif" fresh_world).1 ≠ Ok true)
    by (vm_compute; discriminate).
  specialize (H Hfail). vm_compute in H. discriminate H.
Qed.

(** C8, amended.  When a run of [process_scene] sets the download flag of
    its key, the run returned [True] and its last events are, in order: a
    download request answered 200 whose stream was complete, the opening
    of the final destination path itself, one write to that path for each
    chunk of the body, and the dump of the ledger carrying the flag.  A
    status check answered 200 with status "active" came before.  The
    destination then holds the complete body.  (The body is written to the
    destination directly; there is no temporary path and no rename.) *)
Theorem download_flag_follows_complete_direct_write
    (env : provider) (render : scene → string) (sc : scene)
    (asset_type output_dir : string) (activate_only : bool)
    (w : world) (r : result bool) (w' : world) :
  let key := make_key (scene_id sc) asset_type in
  let raw := raw_tif_path_of sc asset_type output_dir in
  downloaded_flag key w = false →
  downloaded_flag key w' = true →
  process_scene env render sc asset_type output_dir activate_only w = (r, w') →
  r = Ok true ∧
  ∃ before resp loc l',
    trace w' = trace w ++ before
               ++ [EReq (Request Download GET loc) (Replied resp); EOpenW raw]
               ++ map (EWrite raw) (chunks resp)
               ++ [EOpenW STATUS_FILE; EDump STATUS_FILE l'] ∧
    Exists (λ e, reports_active e = true) before ∧
    status_code resp = 200%nat ∧ stream_ok resp = true ∧
    disk w' !! raw = Some (join_chunks (chunks resp)) ∧
    status_file w' = Snapshot l' ∧
    downloaded_scenes l' !! key = Some true.
Proof.
  intros key raw Hbefore Hafter. rewrite process_scene_run. cbv zeta.
  destruct (save_metadata_run render sc output_dir w)
    as (w0 & Hmeta & Htr0 & Hst0 & _ & _).
  rewrite Hmeta. cbn [snd]. fold key raw.
  set (listing := Request Listing GET (JStr (assets_url_of sc))).
  assert (Hsame : ∀ w1, status_file w1 = status_file w → w1 ≠ w').
  { intros w1 Hs ->. unfold downloaded_flag in *.
    rewrite (ledger_of_same_status _ _ Hs) in Hafter. congruence. }
  destruct (ledger_of w) as [l|] eqn:Hl.
  2:{ intros [= _ E]. by destruct (Hsame w0 Hst0). }
  assert (Hnone : downloaded_scenes l !! key = None).
  { unfold downloaded_flag in Hbefore. rewrite Hl in Hbefore.
    apply bool_decide_eq_false in Hbefore.
    destruct (downloaded_scenes l !! key); [|done]. destruct Hbefore. eauto. }
  assert (Hearly : ∀ (r0 : result bool) o lat,
            (r0, after_req listing o lat w0) = (r, w') → False).
  { intros r0 o lat [= _ E].
    by destruct (Hsame (after_req listing o lat w0) Hst0 E). }
  destruct (env (trace w0) listing) as [[resp0|] lat];
    [|intros E; destruct (Hearly _ _ _ E)].
  set (w1 := after_req listing (Replied resp0) lat w0) in *.
  destruct (negb _); [intros E; destruct (Hearly _ _ _ E)|].
  destruct (negb _); [intros E; destruct (Hearly _ _ _ E)|].
  destruct (asset_links (body resp0) asset_type w1).1 as [[[act self]|]|e];
    [|intros E; destruct (Hearly _ _ _ E)..].
  assert (Hl1 : ledger_of w1 = Some l).
  { change (ledger_of w1) with (ledger_of w0).
    by rewrite (ledger_of_same_status _ _ Hst0). }
  pose proof (activation_step_unflagged env l key act self activate_only w1
                Hl1 Hnone) as Hflag2.
  pose proof (activation_step_ledger env l key act self activate_only w1) as Hled.
  pose proof (activation_step_no_download env l key act self activate_only w1)
    as (es1 & Htr1 & _).
  destruct (activation_step env l key act self activate_only w1)
    as [[[l'|]|e] w2]; cbn [snd] in *.
  2,3: intros [= _ <-]; congruence.
  assert (Hnone' : downloaded_scenes l' !! key = None).
  { by destruct (Hled l' w2 eq_refl) as [->| ->]. }
  rewrite download_step_run.
  destruct activate_only; [intros [= _ <-]; congruence|].
  rewrite Hnone'.
  replace (bool_decide (is_Some (@None bool))) with false
    by (symmetry; apply bool_decide_eq_false; by intros []).
  cbn [andb].
  assert (Hs3 : same_status w2 (download_asset env self raw w2).2).
  { apply (steps_download_asset same_status env); intros;
      first [ apply same_status_sleep | apply same_status_http
            | apply same_status_open_w | apply same_status_write ]. }
  destruct (download_asset env self raw w2) as [[[]|e] w3] eqn:Hdl;
    cbn [snd] in Hs3.
  2,3: intros [= _ <-]; unfold downloaded_flag in *;
       rewrite (ledger_of_same_status _ _ Hs3) in Hafter; congruence.
  intros [= <- <-]. split; [done|].
  destruct (download_asset_success env _ _ _ _ Hdl)
    as (es_s & es0 & resp & loc & Htr3 & Hact & Hc & Hok & Hd3 & _).
  exists ([EOpenW (metadata_path_of sc output_dir);
           EWrite (metadata_path_of sc output_dir) (render sc);
           EReq listing (Replied resp0)] ++ es1 ++ es_s ++ es0),
         resp, loc, (with_downloaded key l').
  split.
  { cbn [after_save trace]. rewrite Htr3, Htr1. cbn [w1 after_req trace].
    rewrite Htr0. rewrite <- !app_assoc. cbn. reflexivity. }
  split.
  { apply Exists_app. right. apply Exists_app. right. apply Exists_app. by left. }
  split; [done|]. split; [done|]. split.
  { cbn. rewrite Hd3. apply lookup_insert_eq. }
  split; [done|]. cbn. apply lookup_insert_eq.
Qed.

Lemma download_flag_follows_complete_direct_write_witness :
  let run := process_scene (env_happy self_documented) demo_render demo_scene
               demo_type "planet_data" false fresh_world in
  downloaded_flag demo_key fresh_world = false ∧
  downloaded_flag demo_key run.2 = true ∧
  run.1 = Ok true ∧
  disk run.2 !! raw_tif_path_of demo_scene demo_type "planet_data" = Some "ABCD".
Proof.
  intros run.
  assert (H1 : downloaded_flag demo_key fresh_world = false) by reflexivity.
  assert (H2 : downloaded_flag demo_key run.2 = true) by reflexivity.
  split; [exact H1|]. split; [exact H2|].
  destruct (download_flag_follows_complete_direct_write
              (env_happy self_documented) demo_render demo_scene demo_type
              "planet_data" false fresh_world run.1 run.2 H1 H2
              (surjective_pairing _)) as (Hr & _).
  split; [exact Hr|]. reflexivity.
Defined.

(* ===================================================================== *)
(** * The batch *)
(* ===================================================================== *)


(** A 200 status reply without a "status" field is not an item failure:
    the KeyError leaves [wait_for_asset_activation], [process_scene] and
    [main], and the batch ends without a tally. *)
Example malformed_status_reply_aborts_batch :
  let run := main env_malformed demo_render_feature demo_format [demo_type]
               "planet_data" false fresh_world in
  run.1 = Raise (KeyError "status") ∧
  count (λ e, match e with ELog (LogTally _ _) => true | _ => false end)
        (trace run.2) = 0%nat.
Proof. vm_compute. split; reflexivity. Qed.

(** Nor is the search guarded: a transport fault of the search request,
    and a 200 reply to it whose body is not JSON, leave [main] before any
    item is tried. *)
Example search_fault_aborts_batch :
  let run := main env_offline demo_render_feature demo_format [demo_type]
               "planet_data" false fresh_world in
  run.1 = Raise RequestException ∧
  trace run.2 = [ELog (LogSummary 0 0);
                 EReq (Request Search POST (JStr SEARCH_URL)) Failed].
Proof. vm_compute. split; reflexivity. Qed.

Example garbled_search_aborts_batch :
  let run := main env_garbled demo_render_feature demo_format [demo_type]
               "planet_data" false fresh_world in
  run.1 = Raise RequestsJSONDecodeError ∧
  count is_request (trace run.2) = 1%nat.
Proof. vm_compute. split; reflexivity. Qed.

(** A feature without an item type: its metadata file is written, and
    then the KeyError of line 418 leaves [process_scene] and [main]. *)
Example feature_without_item_type_aborts_batch :
  let run := main env_no_item_type demo_render_feature demo_format [demo_type]
               "planet_data" false fresh_world in
  run.1 = Raise (KeyError "item_type") ∧
  count is_request (trace run.2) = 1%nat ∧
  disk run.2 !! "planet_data/2024/2024-05-01/S1_metadata.json" = Some "{}".
Proof. vm_compute. repeat split. Qed.

(** A 200 status reply whose body is not JSON is caught and retried like
    a transport fault: three requests, two waits of 2 seconds, [None]. *)
Example garbled_status_is_retried :
  let run := get_asset_activation_status env_garbled (JStr self_short)
               fresh_world in
  run.1 = Ok JNull ∧
  count is_request (trace run.2) = 3%nat ∧
  sleeps_of (trace run.2) = [2; 2]%nat.
Proof. vm_compute. repeat split. Qed.

Section BatchParts.

Variable env : provider.
Variable render : scene → string.
Hypothesis Hwf : well_formed_provider env.

Lemma status_attempts_wf u mr n a d w :
  ∃ v w', status_attempts env u mr n a d w = (Ok v, w') ∧ well_formed_status v.
Proof.
  revert a d w. induction n as [|n IH]; intros a d w.
  - exists JNull, w. split; [done|]. by intros ?.
  - rewrite status_attempts_step. cbv zeta.
    destruct (env (trace w) (Request Status GET u)) as [[resp|] lat] eqn:Henv.
    + destruct (status_code resp =? 200)%nat eqn:H200.
      * apply Nat.eqb_eq in H200. destruct (json_ok resp) eqn:Hj.
        -- eexists _, _. split; [reflexivity|].
           by apply (proj2 (proj2 Hwf) _ _ _ _ Henv).
        -- destruct (a <? mr - 1)%nat; apply IH.
      * destruct (status_code resp =? 429)%nat; [|destruct (a <? mr - 1)%nat];
          apply IH.
    + destruct (a <? mr - 1)%nat; apply IH.
Qed.

Lemma mark_active_ok k w :
  status_file w ≠ Torn → ∃ w', mark_active k w = (Ok tt, w').
Proof.
  intros Hv. rewrite mark_active_run. destruct k as [k|]; [|eauto].
  destruct (String.eqb k ""); [eauto|].
  unfold ledger_of. destruct (status_file w); [| |done];
    destruct (bool_decide _); eauto.
Qed.

Lemma poll_loop_ok fuel u k st t ci w :
  status_file w ≠ Torn →
  ∃ b w', poll_loop env fuel u k st t ci w = (Ok b, w').
Proof.
  revert w. induction fuel as [|fuel IH]; intros w Hv.
  - cbn. eauto.
  - rewrite poll_loop_step.
    destruct (clock w - st <? t)%nat; [|cbn; eauto].
    pose proof (get_status_same_status env u w) as Hs.
    destruct (status_attempts_wf u 3 3 0 2 w) as (v & w1 & Hrun & Hv1).
    change (status_attempts env u 3 3 0 2 w)
      with (get_asset_activation_status env u w) in Hrun.
    rewrite Hrun in Hs |- *. cbn [snd] in Hs.
    destruct (Py.truthy v) eqn:Ht; cbn [negb]; [|eauto].
    destruct (Hv1 Ht) as (s & ->).
    destruct (Py.is_str "active" s).
    + destruct (mark_active_ok k w1) as (w2 & ->); [congruence|]. eauto.
    + apply IH. cbn. congruence.
Qed.

Lemma wait_ok s w :
  status_file w ≠ Torn →
  ∃ b w', wait_for_asset_activation env (JStr s) 300 5 w = (Ok b, w').
Proof.
  intros Hv. unfold wait_for_asset_activation. rewrite bind_run. unfold time_now.
  rewrite bind_run. destruct (derive_asset_key s).
  - rewrite ret_run. by apply poll_loop_ok.
  - rewrite bind_run, log_run, ret_run. by apply poll_loop_ok.
Qed.

Lemma download_attempts_ok u p mr n a d w :
  ∃ b w', download_attempts env u p mr n a d w = (Ok b, w').
Proof.
  revert a d w. induction n as [|n IH]; intros a d w; [cbn; eauto|].
  rewrite download_attempts_step. cbv zeta.
  destruct (env (trace w) (Request Download GET u)) as [[resp|] lat].
  - destruct (status_code resp =? 200)%nat.
    + destruct (stream_ok resp); [eauto|].
      destruct (a <? mr - 1)%nat; apply IH.
    + destruct (status_code resp =? 429)%nat; [apply IH|].
      destruct (a <? mr - 1)%nat; apply IH.
  - destruct (a <? mr - 1)%nat; apply IH.
Qed.

Lemma download_asset_ok u p w :
  ∃ b w', download_asset env u p w = (Ok b, w').
Proof.
  unfold download_asset. rewrite bind_run.
  destruct (status_attempts_wf u 3 3 0 2 w) as (v & w1 & Hrun & Hv1).
  change (status_attempts env u 3 3 0 2 w)
    with (get_asset_activation_status env u w) in Hrun.
  rewrite Hrun, bind_run, not_downloadable_run.
  destruct (Py.truthy v) eqn:Ht; cbn [negb]; [|eauto].
  destruct (Hv1 Ht) as (s & Hs). rewrite Hs.
  destruct (negb (Py.is_str "active" s)); [eauto|].
  destruct v as [| | | | |f]; try discriminate Hs.
  cbn [Py.contains]. destruct (bool_decide (is_Some (Py.assoc "location" f))) eqn:Hl;
    cbn [negb]; [|eauto].
  apply bool_decide_eq_true in Hl as [loc Hl].
  rewrite bind_run. unfold lift. cbn [Py.getitem]. rewrite Hl.
  apply download_attempts_ok.
Qed.

Lemma asset_links_ok b t w :
  well_formed_listing t b = true →
  ∃ found, asset_links b t w = (Ok found, w) ∧
           ∀ act self, found = Some (act, self) → ∃ s, self = JStr s.
Proof.
  unfold well_formed_listing, asset_links.
  destruct b as [| | | | |f]; try done.
  rewrite bind_run. unfold lift. cbn [Py.contains Py.getitem].
  destruct (Py.assoc t f) as [d|] eqn:Hd.
  2:{ intros _. rewrite bool_decide_eq_false_2 by (by intros []).
      exists None. split; [reflexivity|done]. }
  rewrite bool_decide_eq_true_2 by eauto. cbn [negb].
  destruct d as [| | | | |fd]; try done.
  rewrite !bind_run. cbn [Py.contains Py.getitem].
  destruct (Py.assoc "_links" fd) as [lk|] eqn:Hlk.
  2:{ intros _. rewrite bool_decide_eq_false_2 by (by intros []).
      exists None. split; [reflexivity|done]. }
  rewrite bool_decide_eq_true_2 by eauto. cbn [negb].
  destruct lk as [| | | | |fl]; try done.
  rewrite !bind_run. cbn [Py.contains Py.getitem].
  destruct (Py.assoc "activate" fl) as [act|] eqn:Ha.
  2:{ intros _. rewrite bool_decide_eq_false_2 by (by intros []).
      cbn [negb]. exists None. split; [reflexivity|done]. }
  rewrite bool_decide_eq_true_2 by eauto. cbn [negb].
  rewrite !bind_run. cbn [Py.contains].
  destruct (Py.assoc "_self" fl) as [self|] eqn:Hself.
  2:{ intros _. rewrite bool_decide_eq_false_2 by (by intros []).
      cbn [negb]. exists None. split; [reflexivity|done]. }
  rewrite bool_decide_eq_true_2 by eauto. cbn [negb].
  destruct self as [| | |s| |]; try done. intros _.
  eexists. split; [reflexivity|]. intros act' self' [= _ <-]. eauto.
Qed.

End BatchParts.

Section BatchRun.

Variable env : provider.
Variable render : scene → string.
Hypothesis Hwf : well_formed_provider env.

Lemma valid_ledger w : status_file w ≠ Torn → ∃ l, ledger_of w = Some l.
Proof. unfold ledger_of. destruct (status_file w); eauto. done. Qed.

Lemma activation_step_ok l key act s ao w :
  status_file w ≠ Torn →
  ∃ r w', activation_step env l key act (JStr s) ao w = (Ok r, w') ∧
          status_file w' ≠ Torn.
Proof.
  intros Hv.
  assert (Hk : keeps_valid w (activation_step env l key act (JStr s) ao w).2).
  { apply (steps_activation_step keeps_valid env); intros;
      first [ apply keeps_valid_sleep | apply keeps_valid_http
            | apply keeps_valid_log | apply keeps_valid_save ]. }
  specialize (Hk Hv). revert Hk.
  rewrite activation_step_run. cbv zeta. destruct (bool_decide _).
  - destruct ao; [cbn; eauto|].
    destruct (wait_ok env Hwf s (after_log (LogSkipActivation key) w) Hv)
      as (b & w' & ->). destruct b; cbn; eauto.
  - destruct (activate_asset_facts env act w)
      as (b & w1 & es1 & -> & _ & Hst1 & _).
    destruct b; [|cbn; eauto]. destruct ao; [cbn; eauto|].
    destruct (wait_ok env Hwf s (after_save (with_activating key l) w1))
      as (b & w' & ->); [done|]. destruct b; cbn; eauto.
Qed.

Lemma download_step_ok l key self path ao w :
  status_file w ≠ Torn →
  ∃ b w', download_step env l key self path ao w = (Ok b, w') ∧
          status_file w' ≠ Torn.
Proof.
  intros Hv.
  assert (Hk : keeps_valid w (download_step env l key self path ao w).2).
  { apply (steps_download_step keeps_valid env); intros;
      first [ apply keeps_valid_sleep | apply keeps_valid_http
            | apply keeps_valid_log | apply keeps_valid_save
            | apply keeps_valid_open_w | apply keeps_valid_write ]. }
  specialize (Hk Hv). revert Hk.
  rewrite download_step_run. destruct ao; [cbn; eauto|].
  destruct (_ && _); [cbn; eauto|].
  destruct (download_asset_ok env Hwf self path w) as (b & w' & ->).
  destruct b; cbn; eauto.
Qed.

Lemma download_step_no_listing l key self path ao w :
  emits (λ e, is_request_at Listing e = false)
        w (download_step env l key self path ao w).2.
Proof. apply (steps_download_step _ env); emits_side. Qed.

(** Under a well-formed provider [process_scene] returns [True] or
    [False], sends exactly one listing request, and leaves a ledger file
    that decodes. *)
Lemma process_scene_ok sc t out ao w :
  status_file w ≠ Torn →
  ∃ b w' es, process_scene env render sc t out ao w = (Ok b, w') ∧
             trace w' = trace w ++ es ∧
             count (is_request_at Listing) es = 1%nat ∧
             status_file w' ≠ Torn.
Proof.
  intros Hv. rewrite process_scene_run. cbv zeta.
  destruct (save_metadata_run render sc out w)
    as (w0 & Hmeta & Htr0 & Hst0 & _ & _).
  rewrite Hmeta. cbn [snd].
  destruct (valid_ledger w Hv) as (l & ->).
  set (listing := Request Listing GET (JStr (assets_url_of sc))).
  destruct (proj1 (proj2 Hwf) (trace w0) (JStr (assets_url_of sc)))
    as (resp & lat & Henv & Hbody).
  fold listing in Henv. rewrite Henv.
  set (w1 := after_req listing (Replied resp) lat w0).
  set (pre := [EOpenW (metadata_path_of sc out);
               EWrite (metadata_path_of sc out) (render sc);
               EReq listing (Replied resp)]).
  assert (Hw1 : trace w1 = trace w ++ pre).
  { cbn. by rewrite Htr0, <- app_assoc. }
  assert (Hv1 : status_file w1 ≠ Torn) by (cbn; congruence).
  assert (Hpre : count (is_request_at Listing) pre = 1%nat).
  { unfold pre. by rewrite !count_cons, count_nil. }
  assert (Hearly : ∃ b w' es, (Ok false, w1) = (Ok b, w') ∧
             trace w' = trace w ++ es ∧
             count (is_request_at Listing) es = 1%nat ∧
             status_file w' ≠ Torn).
  { exists false, w1, pre. auto. }
  destruct (status_code resp =? 200)%nat eqn:H200; cbn [negb]; [|exact Hearly].
  apply Nat.eqb_eq in H200. destruct (Hbody H200) as [Hj Hlist].
  rewrite Hj. cbn [negb].
  destruct (asset_links_ok (body resp) t w1 (Hlist t))
    as (found & Hlinks & Hself).
  rewrite Hlinks. cbn [fst].
  destruct found as [[act self]|]; [|exact Hearly].
  destruct (Hself act self eq_refl) as (s & ->).
  destruct (activation_step_no_download env l (make_key (scene_id sc) t)
              act (JStr s) ao w1) as (esa & Htra & Hesa).
  destruct (activation_step_ok l (make_key (scene_id sc) t) act s ao w1 Hv1)
    as (r2 & w2 & Hact & Hv2).
  rewrite Hact in Htra |- *. cbn [snd] in Htra.
  assert (Hca : count (is_request_at Listing) esa = 0%nat).
  { apply count_zero. eapply Forall_impl; [exact Hesa|]. by intros e [_ ?]. }
  destruct r2 as [l'|].
  2:{ exists false, w2, (pre ++ esa). split; [done|].
      split; [by rewrite Htra, Hw1, <- app_assoc|].
      split; [rewrite count_app; lia|done]. }
  destruct (download_step_no_listing l' (make_key (scene_id sc) t) (JStr s)
              (raw_tif_path_of sc t out) ao w2) as (esd & Htrd & Hesd).
  destruct (download_step_ok l' (make_key (scene_id sc) t) (JStr s)
              (raw_tif_path_of sc t out) ao w2 Hv2) as (b & w3 & Hdl & Hv3).
  rewrite Hdl in Htrd |- *. cbn [snd] in Htrd.
  exists b, w3, (pre ++ esa ++ esd). split; [done|].
  split; [by rewrite Htrd, Htra, Hw1, <- !app_assoc|].
  split; [|done]. rewrite !count_app, (count_zero _ esd) by done. lia.
Qed.

Lemma for_asset_types_ok sc ts out ao acc w :
  status_file w ≠ Torn →
  ∃ n w' es, for_asset_types env render sc ts out ao acc w = (Ok n, w') ∧
             trace w' = trace w ++ es ∧
             count (is_request_at Listing) es = length ts ∧
             (acc ≤ n ≤ acc + length ts)%nat ∧
             status_file w' ≠ Torn.
Proof.
  revert acc w. induction ts as [|t ts IH]; intros acc w Hv.
  - exists acc, w, []. cbn. rewrite app_nil_r. repeat split; try done; lia.
  - cbn [for_asset_types]. rewrite bind_run.
    destruct (process_scene_ok sc t out ao w Hv)
      as (b & w1 & es1 & -> & Htr1 & Hc1 & Hv1).
    destruct (IH (if b then S acc else acc) w1 Hv1)
      as (n & w' & es & -> & Htr & Hc & Hn & Hv').
    exists n, w', (es1 ++ es). split; [done|].
    split; [by rewrite Htr, Htr1, <- app_assoc|].
    split; [rewrite count_app, Hc1, Hc; done|].
    split; [|done]. cbn [length]. destruct b; lia.
Qed.

Lemma display_status_summary_ok w :
  status_file w ≠ Torn →
  ∃ a d, display_status_summary w = (Ok tt, after_log (LogSummary a d) w).
Proof.
  intros Hv. unfold display_status_summary.
  rewrite bind_run, load_status_run.
  destruct (valid_ledger w Hv) as (l & ->). rewrite log_run. eauto.
Qed.

End BatchRun.

Section BatchMain.

Variable env : provider.
Variable render : json → string.
Variable format : json → string.

(** One pass of the loop over the features, by what the feature holds. *)
Lemma for_scene_run j ts out ao n w :
  for_scene env render format j ts out ao n w =
  match Py.getitem j "id" with
  | Raise e => (Raise e, w)
  | Ok id =>
      match ts with
      | [] => (Ok n, w)
      | _ :: _ =>
          match Py.getitem j "properties" with
          | Raise e => (Raise e, w)
          | Ok props =>
              match Py.getitem props "acquired" with
              | Raise e => (Raise e, w)
              | Ok a =>
                  match Py.as_str a with
                  | Raise e => (Raise e, w)
                  | Ok acq =>
                      match Py.getitem props "cloud_cover" with
                      | Raise e => (Raise e, w)
                      | Ok _ =>
                          match Py.getitem props "item_type" with
                          | Ok it =>
                              for_asset_types env (λ _, render j)
                                (Scene (format id) acq (format it))
                                ts out ao n w
                          | Raise e =>
                              (save_metadata (λ _, render j)
                                 (Scene (format id) acq "") out;;
                               load_status;; raise e) w
                          end
                      end
                  end
              end
          end
      end
  end.
Proof.
  unfold for_scene, lift. rewrite bind_run.
  destruct (Py.getitem j "id") as [id|e]; [|reflexivity].
  destruct ts as [|t ts]; [reflexivity|]. rewrite bind_run.
  destruct (Py.getitem j "properties") as [props|e]; [|reflexivity].
  rewrite bind_run.
  destruct (Py.getitem props "acquired") as [a|e]; [|reflexivity].
  rewrite bind_run. destruct (Py.as_str a) as [acq|e]; [|reflexivity].
  rewrite bind_run.
  destruct (Py.getitem props "cloud_cover") as [cc|e]; [|reflexivity].
  cbv zeta. destruct (Py.getitem props "item_type"); reflexivity.
Qed.

(** What a well-formed feature reads as. *)
Lemma well_formed_feature_reads j :
  well_formed_feature j = true →
  ∃ id props acq cc it,
    Py.getitem j "id" = Ok id ∧ Py.getitem j "properties" = Ok props ∧
    Py.getitem props "acquired" = Ok (JStr acq) ∧
    Py.getitem props "cloud_cover" = Ok cc ∧
    Py.getitem props "item_type" = Ok it.
Proof.
  unfold well_formed_feature. destruct j as [| | | | |f]; try done.
  cbn [Py.getitem].
  destruct (Py.assoc "id" f) as [id|]; [|done].
  destruct (Py.assoc "properties" f) as [[| | | | |fp]|]; try done.
  cbn [Py.getitem].
  destruct (Py.assoc "acquired" fp) as [[| | |acq| |]|] eqn:Ha; try done.
  destruct (Py.assoc "cloud_cover" fp) as [cc|] eqn:Hc; [|done].
  destruct (Py.assoc "item_type" fp) as [it|] eqn:Hi; [|done].
  intros _. exists id, (JObj fp), acq, cc, it. cbn [Py.getitem].
  by rewrite Ha, Hc, Hi.
Qed.

(** The search, by the provider's answer. *)
Lemma search_run w :
  search_planet_imagery env w =
  let search := Request Search POST (JStr SEARCH_URL) in
  match env (trace w) search with
  | (Failed, lat) => (Raise RequestException, after_req search Failed lat w)
  | (Replied resp, lat) =>
      let w1 := after_req search (Replied resp) lat w in
      if negb (status_code resp =? 200)%nat then (Ok JNull, w1)
      else if negb (json_ok resp) then (Raise RequestsJSONDecodeError, w1)
      else (Py.get (body resp) "features" (JArr []), w1)
  end.
Proof.
  unfold search_planet_imagery. rewrite bind_run. unfold http.
  destruct (env (trace w) _) as [[resp|] lat]; [|reflexivity].
  cbv zeta. destruct (negb _); [reflexivity|].
  rewrite bind_run. unfold response_json.
  destruct (json_ok resp); reflexivity.
Qed.

Hypothesis Hwf : well_formed_provider env.

Lemma for_scene_ok j ts out ao acc w :
  well_formed_feature j = true →
  status_file w ≠ Torn →
  ∃ n w' es, for_scene env render format j ts out ao acc w = (Ok n, w') ∧
             trace w' = trace w ++ es ∧
             count (is_request_at Listing) es = length ts ∧
             (acc ≤ n ≤ acc + length ts)%nat ∧
             status_file w' ≠ Torn.
Proof.
  intros Hj Hv. rewrite for_scene_run.
  destruct (well_formed_feature_reads j Hj)
    as (id & props & acq & cc & it & -> & -> & -> & -> & ->).
  destruct ts as [|t ts].
  - exists acc, w, []. cbn. rewrite app_nil_r. repeat split; try done; lia.
  - cbn [Py.as_str]. by apply for_asset_types_ok.
Qed.

Lemma for_scenes_ok js ts out ao acc w :
  forallb well_formed_feature js = true →
  status_file w ≠ Torn →
  ∃ n w' es, for_scenes env render format js ts out ao acc w = (Ok n, w') ∧
             trace w' = trace w ++ es ∧
             count (is_request_at Listing) es = (length js * length ts)%nat ∧
             (acc ≤ n ≤ acc + length js * length ts)%nat ∧
             status_file w' ≠ Torn.
Proof.
  revert acc w. induction js as [|j js IH]; intros acc w Hjs Hv.
  - exists acc, w, []. cbn. rewrite app_nil_r. repeat split; try done; lia.
  - cbn [forallb] in Hjs. apply andb_true_iff in Hjs as [Hj Hjs].
    cbn [for_scenes]. rewrite bind_run.
    destruct (for_scene_ok j ts out ao acc w Hj Hv)
      as (n1 & w1 & es1 & -> & Htr1 & Hc1 & Hn1 & Hv1).
    destruct (IH n1 w1 Hjs Hv1) as (n & w' & es & -> & Htr & Hc & Hn & Hv').
    exists n, w', (es1 ++ es). split; [done|].
    split; [by rewrite Htr, Htr1, <- app_assoc|].
    split; [rewrite count_app, Hc1, Hc; cbn [length]; lia|].
    split; [|done]. cbn [length]. lia.
Qed.

(** A well-formed search result gives nothing, or the features found. *)
Lemma well_formed_search_features b :
  well_formed_search b = true →
  ∃ v, Py.get b "features" (JArr []) = Ok v ∧
       ((Py.truthy v = false ∧
         match v with JArr l => l = [] | _ => True end) ∨
        (∃ j js, v = JArr (j :: js) ∧
                 forallb well_formed_feature (j :: js) = true)).
Proof.
  unfold well_formed_search. destruct b as [| | | | |f]; try done.
  cbn [Py.get]. destruct (Py.assoc "features" f) as [v|]; cbn [default].
  2:{ intros _. exists (JArr []). split; [done|]. by left. }
  intros Hv. exists v. split; [done|].
  destruct v as [|b|z|s|[|j js]|o]; cbn in Hv |- *;
    try (left; split; [by apply negb_true_iff in Hv|done]).
  - by left.
  - by left.
  - right. by exists j, js.
Qed.

End BatchMain.


Lemma env_happy_well_formed self : well_formed_provider (env_happy self).
Proof.
  split; [|split].
  - intros h u. exists (ok_reply (search_body [demo_feature])), 0%nat.
    split; [reflexivity|]. intros _. split; reflexivity.
  - intros h u. exists (ok_reply (listing_body demo_type self)), 0%nat.
    split; [reflexivity|]. intros _. split; [reflexivity|]. intros t.
    unfold well_formed_listing, listing_body, ok_reply. cbn [body Py.assoc].
    destruct (String.eqb t demo_type); reflexivity.
  - intros h u resp lat [= <- _] _ _ _. exists (JStr "active"). reflexivity.
Qed.


(* ===================================================================== *)
(** * The polling loop: the fuel is never what ends it *)
(* ===================================================================== *)

Section Fuel.

Variable env : provider.

Lemma get_status_clock u w :
  (clock w ≤ clock (get_asset_activation_status env u w).2)%nat.
Proof.
  apply (steps_get_status clock_le env).
  - apply clock_le_sleep.
  - intros. apply clock_le_http.
Qed.

(** With a positive [check_interval], one more unit of fuel changes
    nothing once the fuel covers the seconds left before the timeout. *)
Lemma poll_loop_fuel u k st t ci fuel w :
  (1 ≤ ci)%nat → (st ≤ clock w)%nat → (t - (clock w - st) ≤ fuel)%nat →
  poll_loop env fuel u k st t ci w = poll_loop env (S fuel) u k st t ci w.
Proof.
  intros Hci. revert w. induction fuel as [|fuel IH]; intros w Hst Hfuel.
  - rewrite poll_loop_step.
    destruct (clock w - st <? t)%nat eqn:E; [|reflexivity].
    apply Nat.ltb_lt in E. lia.
  - rewrite (poll_loop_step env (S fuel)), (poll_loop_step env fuel).
    destruct (clock w - st <? t)%nat eqn:E; [|reflexivity].
    apply Nat.ltb_lt in E.
    pose proof (get_status_clock u w) as Hc.
    destruct (get_asset_activation_status env u w) as [[v|e] w1]; [|reflexivity].
    cbn [snd] in Hc.
    destruct (negb (Py.truthy v)); [reflexivity|].
    destruct (Py.getitem v "status") as [s|e]; [|reflexivity].
    destruct (Py.is_str "active" s); [reflexivity|].
    apply IH; cbn; lia.
Qed.

(** [wait_for_asset_activation] runs its loop with [timeout] units of
    fuel; any larger amount gives the same run. *)
Lemma poll_loop_enough_fuel u k t ci extra w :
  (1 ≤ ci)%nat →
  poll_loop env (t + extra) u k (clock w) t ci w
  = poll_loop env t u k (clock w) t ci w.
Proof.
  intros Hci. induction extra as [|extra IH].
  - by rewrite Nat.add_0_r.
  - rewrite Nat.add_succ_r, <- IH. symmetry.
    apply poll_loop_fuel; [done|lia|lia].
Qed.

End Fuel.

(* ===================================================================== *)
(** * More on the retry loops *)
(* ===================================================================== *)

Lemma sleeps_of_app es1 es2 : sleeps_of (es1 ++ es2) = sleeps_of es1 ++ sleeps_of es2.
Proof. apply omap_app. Qed.

Lemma requests_of_app es1 es2 :
  requests_of (es1 ++ es2) = requests_of es1 ++ requests_of es2.
Proof. apply omap_app. Qed.

Lemma total_sleep_nil : total_sleep [] = 0%nat.
Proof. reflexivity. Qed.

Lemma total_sleep_req r o es : total_sleep (EReq r o :: es) = total_sleep es.
Proof. reflexivity. Qed.

Lemma total_sleep_sleep d es : total_sleep (ESleep d :: es) = (d + total_sleep es)%nat.
Proof. reflexivity. Qed.

Lemma sleep_budget_mono n d d' :
  (d ≤ d')%nat → (sleep_budget n d ≤ sleep_budget n d')%nat.
Proof.
  revert d d'. induction n as [|n IH]; intros d d' H; cbn; [done|].
  specialize (IH (d * 2)%nat (d' * 2)%nat). lia.
Qed.

Section StatusBounds.

Variable env : provider.

Lemma status_attempts_bounds u mr n a d w :
  ∃ es, trace (status_attempts env u mr n a d w).2 = trace w ++ es ∧
        (count is_request es ≤ n)%nat ∧
        (1 ≤ n → 1 ≤ count is_request es)%nat ∧
        Forall (request_or_sleep Status) es ∧
        (total_sleep es ≤ sleep_budget n d)%nat.
Proof.
  revert a d w. induction n as [|n IH]; intros a d w.
  - exists []. cbn. rewrite app_nil_r. repeat split; try done; lia.
  - rewrite status_attempts_step. cbv zeta.
    set (r := Request Status GET u).
    assert (Hreq : ∀ o, request_or_sleep Status (EReq r o)) by (by left).
    assert (Hsl : ∀ x, request_or_sleep Status (ESleep x)) by (right; eauto).
    assert (Hnext : ∀ d' w1 pre,
              trace w1 = trace w ++ pre →
              count is_request pre = 1%nat →
              Forall (request_or_sleep Status) pre →
              (total_sleep pre + sleep_budget n d' ≤ sleep_budget (S n) d)%nat →
              ∃ es, trace (status_attempts env u mr n (S a) d' w1).2
                    = trace w ++ es ∧
                    (count is_request es ≤ S n)%nat ∧
                    (1 ≤ S n → 1 ≤ count is_request es)%nat ∧
                    Forall (request_or_sleep Status) es ∧
                    (total_sleep es ≤ sleep_budget (S n) d)%nat).
    { intros d' w1 pre Htr Hc Hf Hb.
      destruct (IH (S a) d' w1) as (es & Htr' & Hle & _ & Hf' & Hs).
      exists (pre ++ es). split; [by rewrite Htr', Htr, <- app_assoc|].
      rewrite count_app, Hc. split; [lia|]. split; [lia|].
      split; [by apply Forall_app|].
      unfold total_sleep in *. rewrite sleeps_of_app, sum_list_with_app. lia. }
    pose proof (sleep_budget_mono n d (d * 2)) as Hm.
    destruct (env (trace w) r) as [[resp|] lat].
    + destruct (status_code resp =? 200)%nat.
      { destruct (json_ok resp); [|destruct (a <? mr - 1)%nat].
        - exists [EReq r (Replied resp)]. cbn [snd].
          rewrite count_cons, count_nil. cbn.
          split; [done|]. split; [lia|]. split; [lia|]. split; [auto|].
          unfold total_sleep. cbn. lia.
        - apply (Hnext _ _ [EReq r (Replied resp); ESleep d]);
            [cbn; by rewrite <- app_assoc | by rewrite !count_cons, count_nil
            | auto | cbn; unfold total_sleep; cbn; lia].
        - apply (Hnext _ _ [EReq r (Replied resp)]);
            [done | by rewrite !count_cons, count_nil
            | auto | cbn; unfold total_sleep; cbn; lia]. }
      destruct (status_code resp =? 429)%nat; [|destruct (a <? mr - 1)%nat].
      * apply (Hnext _ _ [EReq r (Replied resp); ESleep d]);
          [cbn; by rewrite <- app_assoc | by rewrite !count_cons, count_nil
          | auto | cbn; unfold total_sleep; cbn; lia].
      * apply (Hnext _ _ [EReq r (Replied resp); ESleep d]);
          [cbn; by rewrite <- app_assoc | by rewrite !count_cons, count_nil
          | auto | cbn; unfold total_sleep; cbn; lia].
      * apply (Hnext _ _ [EReq r (Replied resp)]);
          [done | by rewrite !count_cons, count_nil
          | auto | cbn; unfold total_sleep; cbn; lia].
    + destruct (a <? mr - 1)%nat.
      * apply (Hnext _ _ [EReq r Failed; ESleep d]);
          [cbn; by rewrite <- app_assoc | by rewrite !count_cons, count_nil
          | auto | cbn; unfold total_sleep; cbn; lia].
      * apply (Hnext _ _ [EReq r Failed]);
          [done | by rewrite !count_cons, count_nil
          | auto | cbn; unfold total_sleep; cbn; lia].
Qed.

End StatusBounds.

(** X1. Whatever the provider does, [get_asset_activation_status] returns
    normally after one, two or three status requests; between them it only
    sleeps, 14 seconds at most in total (2 + 4 + 8); it changes neither
    the ledger file nor any other file, and the clock does not go back. *)
Theorem status_check_is_bounded (env : provider) (asset_url : json) (w : world) :
  ∃ v w' es,
    get_asset_activation_status env asset_url w = (Ok v, w') ∧
    trace w' = trace w ++ es ∧
    (1 ≤ count is_request es ≤ 3)%nat ∧
    Forall (request_or_sleep Status) es ∧
    (total_sleep es ≤ 14)%nat ∧
    status_file w' = status_file w ∧ disk w' = disk w ∧
    (clock w ≤ clock w')%nat.
Proof.
  destruct (get_status_spec env asset_url w) as (v & w' & es0 & Hrun & _ & _).
  destruct (status_attempts_bounds env asset_url 3 3 0 2 w)
    as (es & Htr & Hle & Hge & Hf & Hs).
  change (status_attempts env asset_url 3 3 0 2 w)
    with (get_asset_activation_status env asset_url w) in Htr.
  pose proof (get_status_same_status env asset_url w) as Hst.
  pose proof (get_status_clock env asset_url w) as Hc.
  assert (Hd : same_disk w (get_asset_activation_status env asset_url w).2).
  { apply (steps_get_status same_disk env); intros;
      [apply same_disk_sleep | apply same_disk_http]. }
  rewrite Hrun in Htr, Hst, Hc, Hd. cbn [snd] in *.
  exists v, w', es. split; [done|]. split; [done|]. split; [lia|].
  split; [done|]. split; [exact Hs|]. auto.
Qed.

Section StatusRefused.

Variable env : provider.
Hypothesis Hrefused : status_always_refused env.

Lemma status_attempts_refused u mr n a d w :
  (a + n = mr)%nat →
  ∃ w' os, status_attempts env u mr n a d w = (Ok JNull, w') ∧
           trace w' = trace w ++ refused_attempts (Request Status GET u) d os ∧
           length os = n.
Proof.
  revert a w. induction n as [|n IH]; intros a w Han.
  - exists w, []. by rewrite app_nil_r.
  - rewrite status_attempts_step. cbv zeta.
    set (r := Request Status GET u).
    pose proof (Hrefused (trace w) u) as Href. fold r in Href.
    assert (Hnext : ∀ o lat,
      ∃ w' os,
        (if (a <? mr - 1)%nat
         then status_attempts env u mr n (S a) d
                (after_sleep d (after_req r o lat w))
         else status_attempts env u mr n (S a) d (after_req r o lat w))
        = (Ok JNull, w') ∧
        trace w' = trace w ++ refused_attempts r d os ∧
        length os = S n).
    { intros o lat. destruct (a <? mr - 1)%nat eqn:E.
      - apply Nat.ltb_lt in E.
        destruct (IH (S a) (after_sleep d (after_req r o lat w)))
          as (w' & os & Hrun & Htr & Hlen); [lia|].
        exists w', (o :: os). split; [done|].
        split; [|cbn; by rewrite Hlen].
        rewrite Htr. destruct os as [|o' os]; [cbn in Hlen; lia|].
        cbn. by rewrite <- !app_assoc.
      - apply Nat.ltb_ge in E. assert (n = 0%nat) as -> by lia.
        exists (after_req r o lat w), [o]. done. }
    destruct (env (trace w) r) as [[resp|] lat]; [|apply Hnext].
    cbn in Href. destruct Href as [H200 H429].
    apply Nat.eqb_neq in H200, H429. rewrite H200, H429. apply Hnext.
Qed.

End StatusRefused.

(** X2. When every status request fails in transport or is answered with
    a code other than 200 and 429, [get_asset_activation_status] makes
    exactly three attempts, waits 2 seconds after the first and after the
    second (the delay is not doubled and there is no wait after the last
    attempt), and returns [None]. *)
Theorem status_check_gives_up_after_three_refusals
    (env : provider) (asset_url : json) (w : world) :
  status_always_refused env →
  ∃ w' es,
    get_asset_activation_status env asset_url w = (Ok JNull, w') ∧
    trace w' = trace w ++ es ∧
    requests_of es = replicate 3 (Request Status GET asset_url) ∧
    sleeps_of es = [2; 2]%nat ∧
    ∃ o1 o2 o3,
      es = [EReq (Request Status GET asset_url) o1; ESleep 2;
            EReq (Request Status GET asset_url) o2; ESleep 2;
            EReq (Request Status GET asset_url) o3].
Proof.
  intros Href.
  destruct (status_attempts_refused env Href asset_url 3 3 0 2 w eq_refl)
    as (w' & os & Hrun & Htr & Hlen).
  destruct os as [|o1 [|o2 [|o3 [|o4 os]]]]; try discriminate Hlen.
  exists w', (refused_attempts (Request Status GET asset_url) 2 [o1; o2; o3]).
  split; [exact Hrun|]. split; [exact Htr|].
  split; [reflexivity|]. split; [reflexivity|].
  by exists o1, o2, o3.
Qed.

Lemma status_check_gives_up_after_three_refusals_witness :
  status_always_refused env_500 ∧
  ∃ w' es,
    get_asset_activation_status env_500 (JStr self_short) fresh_world
      = (Ok JNull, w') ∧
    trace w' = trace fresh_world ++ es ∧
    sleeps_of es = [2; 2]%nat.
Proof.
  assert (H : status_always_refused env_500).
  { intros h u. cbn. split; discriminate. }
  split; [exact H|].
  destruct (status_check_gives_up_after_three_refusals env_500
              (JStr self_short) fresh_world H)
    as (w' & es & H1 & H2 & _ & H3 & _).
  exists w', es. auto.
Defined.

(** X3. [get_asset_activation_status] returns the decoded body of the
    first reply that has status 200 and a JSON body, and that reply is the
    last thing it does.  A 200 reply whose body is not JSON is one more
    failed attempt: no such reply is ever returned, and when no reply is a
    200 with a JSON body the function returns [None]. *)
Theorem status_check_returns_first_200_body
    (env : provider) (asset_url : json) (w : world) :
  ∃ v w' es,
    get_asset_activation_status env asset_url w = (Ok v, w') ∧
    trace w' = trace w ++ es ∧
    ((v = JNull ∧ Forall (λ e, is_200_reply e = false) es) ∨
     (∃ es0 resp,
         es = es0 ++ [EReq (Request Status GET asset_url) (Replied resp)] ∧
         status_code resp = 200%nat ∧ json_ok resp = true ∧
         v = body resp ∧
         Forall (λ e, is_200_reply e = false) es0)).
Proof. apply get_status_spec. Qed.

(* ===================================================================== *)
(** * More on activate_asset and download_asset *)
(* ===================================================================== *)

Section ActivateValue.

Variable env : provider.

Lemma accepted_cons e es :
  accepted (e :: es) = ((if is_accepted_post e then 1 else 0) + accepted es)%nat.
Proof. apply count_cons. Qed.

Lemma activate_attempts_value u mr n a d w :
  ∃ b w' es,
    activate_attempts env u mr n a d w = (Ok b, w') ∧
    trace w' = trace w ++ es ∧
    if b then
      ∃ es0 resp, es = es0 ++ [EReq (Request Activate POST u) (Replied resp)] ∧
                  (status_code resp = 202%nat ∨ status_code resp = 204%nat) ∧
                  accepted es0 = 0%nat
    else accepted es = 0%nat.
Proof.
  revert a d w. induction n as [|n IH]; intros a d w.
  - exists false, w, []. by rewrite app_nil_r.
  - rewrite activate_attempts_step. cbv zeta.
    set (r := Request Activate POST u).
    assert (Hnext : ∀ a' d' w1 pre,
      trace w1 = trace w ++ pre → accepted pre = 0%nat →
      ∃ b w' es,
        activate_attempts env u mr n a' d' w1 = (Ok b, w') ∧
        trace w' = trace w ++ es ∧
        if b then
          ∃ es0 resp, es = es0 ++ [EReq r (Replied resp)] ∧
                      (status_code resp = 202%nat ∨ status_code resp = 204%nat) ∧
                      accepted es0 = 0%nat
        else accepted es = 0%nat).
    { intros a' d' w1 pre Htr Hpre.
      destruct (IH a' d' w1) as (b & w' & es & Hrun & Htr' & Hb).
      exists b, w', (pre ++ es). split; [done|].
      split; [by rewrite Htr', Htr, <- app_assoc|].
      destruct b.
      - destruct Hb as (es0 & resp & -> & Hc & H0).
        exists (pre ++ es0), resp. split; [by rewrite <- app_assoc|].
        split; [done|]. unfold accepted in *. rewrite count_app. lia.
      - unfold accepted in *. rewrite count_app. lia. }
    destruct (env (trace w) r) as [[resp|] lat].
    + destruct (_ || _) eqn:Hacc.
      { eexists true, _, [_]. split; [reflexivity|]. split; [reflexivity|].
        exists [], resp. split; [done|]. split; [|done].
        apply orb_true_iff in Hacc as [H|H]; apply Nat.eqb_eq in H; auto. }
      assert (Hno : accepted [EReq r (Replied resp)] = 0%nat).
      { rewrite accepted_cons. cbn [is_accepted_post r]. by rewrite Hacc. }
      assert (Hno2 : accepted [EReq r (Replied resp); ESleep d] = 0%nat).
      { rewrite accepted_cons. cbn [is_accepted_post r]. by rewrite Hacc. }
      destruct (status_code resp =? 429)%nat; [|destruct (a <? mr - 1)%nat].
      * apply (Hnext _ _ _ [EReq r (Replied resp); ESleep d]); [|done].
        cbn. by rewrite <- app_assoc.
      * apply (Hnext _ _ _ [EReq r (Replied resp); ESleep d]); [|done].
        cbn. by rewrite <- app_assoc.
      * by apply (Hnext _ _ _ [EReq r (Replied resp)]).
    + destruct (a <? mr - 1)%nat.
      * apply (Hnext _ _ _ [EReq r Failed; ESleep d]); [|done].
        cbn. by rewrite <- app_assoc.
      * by apply (Hnext _ _ _ [EReq r Failed]).
Qed.

End ActivateValue.

(** X4. Whatever the provider does, [activate_asset] returns normally
    after at most three POSTs, between which it only sleeps, and touches
    neither the ledger file nor any other file.  It returns [True] exactly
    when a POST was answered 202 or 204; that POST is then the last thing
    it did, and no earlier POST was accepted.  It returns [False] exactly
    when none of its POSTs was accepted. *)
Theorem activate_asset_reports_acceptance
    (env : provider) (asset_url : json) (w : world) :
  ∃ b w' es,
    activate_asset env asset_url w = (Ok b, w') ∧
    trace w' = trace w ++ es ∧
    (posts es ≤ 3)%nat ∧
    Forall (request_or_sleep Activate) es ∧
    status_file w' = status_file w ∧ disk w' = disk w ∧
    (b = true ↔ accepted es = 1%nat) ∧ (b = false ↔ accepted es = 0%nat) ∧
    (b = true →
     ∃ es0 resp,
       es = es0 ++ [EReq (Request Activate POST asset_url) (Replied resp)] ∧
       (status_code resp = 202%nat ∨ status_code resp = 204%nat) ∧
       accepted es0 = 0%nat).
Proof.
  destruct (activate_attempts_value env asset_url 3 3 0 2 w)
    as (b & w' & es & Hrun & Htr & Hb).
  destruct (activate_asset_facts env asset_url w)
    as (b' & w'' & es' & Hrun' & Htr' & Hst & Hp & Ha & _).
  unfold activate_asset in Hrun'. rewrite Hrun in Hrun'.
  injection Hrun' as <- <-. rewrite Htr in Htr'.
  apply app_inv_head in Htr'. subst es'.
  assert (Hf : emits (request_or_sleep Activate) w w').
  { eapply steps_run; [|exact Hrun].
    apply (steps_activate_attempts _ env).
    - intros d. apply emits_sleep. right. eauto.
    - intros u. apply emits_http. by left. }
  destruct Hf as (es' & Htr' & Hf). rewrite Htr in Htr'.
  apply app_inv_head in Htr'. subst es'.
  assert (Hd : same_disk w w').
  { eapply steps_run; [|exact Hrun].
    apply (steps_activate_attempts same_disk env); intros;
      [apply same_disk_sleep | apply same_disk_http]. }
  exists b, w', es. split; [exact Hrun|]. split; [done|]. split; [done|].
  split; [done|]. split; [done|]. split; [done|].
  split; [destruct b; split; (done || lia)|].
  split; [destruct b; split; (done || lia)|].
  intros ->. exact Hb.
Qed.

#[global] Instance same_elsewhere_preorder p : PreOrder (same_elsewhere p).
Proof.
  split; [intros w | intros w1 w2 w3]; unfold same_elsewhere; [done|].
  intros H1 H2 q Hq. by rewrite H2, H1.
Qed.

Section DownloadMore.

Variable env : provider.

Lemma downloadable_run b loc w :
  downloadable b loc →
  not_downloadable b w = (Ok false, w) ∧ Py.getitem b "location" = Ok loc.
Proof.
  intros (Ht & Ha & Hl). split; [|done].
  rewrite not_downloadable_run, Ht. cbn [negb].
  unfold active_body in Ha.
  destruct (Py.getitem b "status") as [s|]; [|done]. rewrite Ha. cbn [negb].
  destruct b as [| | | | |f]; try discriminate Hl.
  cbn in Hl |- *. destruct (Py.assoc "location" f); [|done].
  by rewrite bool_decide_eq_true_2 by eauto.
Qed.

Lemma download_attempts_refused_step u p mr n a d w :
  download_always_refused env →
  ∃ o lat,
    download_attempts env u p mr (S n) a d w =
    if (a <? mr - 1)%nat
    then download_attempts env u p mr n (S a) (d * 2)
           (after_sleep d (after_req (Request Download GET u) o lat w))
    else download_attempts env u p mr n (S a) d
           (after_req (Request Download GET u) o lat w).
Proof.
  intros Href. rewrite download_attempts_step. cbv zeta.
  specialize (Href (trace w) u).
  destruct (env (trace w) (Request Download GET u)) as [[resp|] lat];
    [|by eexists _, _].
  cbn in Href. destruct Href as [H200 H429].
  apply Nat.eqb_neq in H200, H429. rewrite H200, H429. by eexists _, _.
Qed.

End DownloadMore.

(** X5. When the asset is active with a location but every download
    request fails in transport or is answered with a code other than 200
    and 429, [download_asset] checks the status once, makes exactly three
    download attempts, waits 2 seconds after the first and 4 after the
    second (this loop doubles its delay after every failure, and does not
    wait after the last attempt), and returns [False] without having
    opened any file. *)
Theorem download_gives_up_after_three_refusals
    (env : provider) (asset_url : json) (output_path : string) (w : world) :
  status_always_ready env →
  download_always_refused env →
  ∃ w' resp loc o1 o2 o3,
    download_asset env asset_url output_path w = (Ok false, w') ∧
    downloadable (body resp) loc ∧
    trace w' = trace w
               ++ [EReq (Request Status GET asset_url) (Replied resp);
                   EReq (Request Download GET loc) o1; ESleep 2;
                   EReq (Request Download GET loc) o2; ESleep 4;
                   EReq (Request Download GET loc) o3] ∧
    disk w' = disk w ∧ status_file w' = status_file w.
Proof.
  intros Hready Href.
  destruct (Hready (trace w) asset_url)
    as (resp & lat & loc & Henv & Hc & Hj & Hdl).
  destruct (downloadable_run (body resp) loc
              (after_req (Request Status GET asset_url) (Replied resp) lat w) Hdl)
    as [Hnd Hloc].
  unfold download_asset, get_asset_activation_status.
  rewrite bind_run, status_attempts_step. cbv zeta.
  rewrite Henv. apply Nat.eqb_eq in Hc. rewrite Hc, Hj.
  rewrite bind_run, Hnd, bind_run. unfold lift. rewrite Hloc.
  set (w1 := after_req (Request Status GET asset_url) (Replied resp) lat w).
  destruct (download_attempts_refused_step env loc output_path 3 2 0 2 w1 Href)
    as (o1 & l1 & ->). cbn [Nat.ltb Nat.leb Nat.sub].
  set (w2 := after_sleep 2 (after_req (Request Download GET loc) o1 l1 w1)).
  destruct (download_attempts_refused_step env loc output_path 3 1 1 (2 * 2) w2 Href)
    as (o2 & l2 & ->). cbn [Nat.ltb Nat.leb Nat.sub].
  set (w3 := after_sleep (2 * 2)
               (after_req (Request Download GET loc) o2 l2 w2)).
  destruct (download_attempts_refused_step env loc output_path 3 0 2 (2 * 2 * 2) w3
              Href) as (o3 & l3 & ->). cbn [Nat.ltb Nat.leb Nat.sub].
  exists (after_req (Request Download GET loc) o3 l3 w3), resp, loc, o1, o2, o3.
  split; [reflexivity|]. split; [done|]. split; [|done].
  cbn. by rewrite <- !app_assoc.
Qed.

Lemma download_gives_up_after_three_refusals_witness :
  status_always_ready env_download_500 ∧
  download_always_refused env_download_500 ∧
  ∃ w' resp loc o1 o2 o3,
    download_asset env_download_500 (JStr self_short) "planet_data/S1.tif"
      fresh_world = (Ok false, w') ∧
    downloadable (body resp) loc ∧
    trace w' = trace fresh_world
               ++ [EReq (Request Status GET (JStr self_short)) (Replied resp);
                   EReq (Request Download GET loc) o1; ESleep 2;
                   EReq (Request Download GET loc) o2; ESleep 4;
                   EReq (Request Download GET loc) o3] ∧
    disk w' = disk fresh_world ∧ status_file w' = status_file fresh_world.
Proof.
  assert (H1 : status_always_ready env_download_500).
  { intros h u. exists (ok_reply active_status), 0%nat,
      (JStr "https://download.example/S1").
    split; [reflexivity|]. split; [reflexivity|]. repeat split. }
  assert (H2 : download_always_refused env_download_500).
  { intros h u. cbn. split; discriminate. }
  split; [exact H1|]. split; [exact H2|].
  apply (download_gives_up_after_three_refusals env_download_500
           (JStr self_short) "planet_data/S1.tif" fresh_world H1 H2).
Defined.

(** X6. Whatever the provider does and whatever it returns or raises,
    [download_asset] leaves the ledger file alone, opens and writes no
    file other than its destination path, changes no other file, and
    sends no listing request and no activation POST. *)
Theorem download_touches_only_its_destination
    (env : provider) (asset_url : json) (output_path : string) (w : world) :
  let w' := (download_asset env asset_url output_path w).2 in
  status_file w' = status_file w ∧
  (∀ q, q ≠ output_path → disk w' !! q = disk w !! q) ∧
  ∃ es, trace w' = trace w ++ es ∧
        Forall (touches_only output_path) es ∧
        Forall (λ e, is_request_at Listing e = false
                     ∧ is_request_at Activate e = false) es.
Proof.
  intros w'. subst w'. split; [|split].
  - apply (steps_download_asset same_status env); intros;
      first [ apply same_status_sleep | apply same_status_http
            | apply same_status_open_w | apply same_status_write ].
  - apply (steps_download_asset (same_elsewhere output_path) env).
    + by intros d w0 q Hq.
    + intros u w0 q Hq. unfold http.
      by destruct (env (trace w0) _) as [[?|] ?].
    + intros u w0 q Hq. unfold http.
      by destruct (env (trace w0) _) as [[?|] ?].
    + intros w0 q Hq. cbn. by rewrite lookup_insert_ne.
    + intros c w0 q Hq. cbn. by rewrite lookup_insert_ne.
  - assert (H1 : emits (touches_only output_path) w
                   (download_asset env asset_url output_path w).2).
    { apply (steps_download_asset _ env); emits_side. }
    assert (H2 : emits (λ e, is_request_at Listing e = false
                             ∧ is_request_at Activate e = false) w
                   (download_asset env asset_url output_path w).2).
    { apply (steps_download_asset _ env); emits_side. }
    destruct H1 as (es & Htr & H1). destruct H2 as (es' & Htr' & H2).
    rewrite Htr in Htr'. apply app_inv_head in Htr'. subst es'.
    exists es. auto.
Qed.

(* ===================================================================== *)
(** * The key derived from a self link *)
(* ===================================================================== *)

Lemma split_nonempty c s : PyStr.split c s ≠ [].
Proof.
  destruct s as [|x s]; cbn; [done|].
  destruct (Ascii.eqb x c); [done|]. by destruct (PyStr.split c s).
Qed.

(** [(a + sep + b).split(sep) == a.split(sep) + b.split(sep)] *)
Lemma split_app c a b :
  PyStr.split c (a +:+ String c b) = PyStr.split c a ++ PyStr.split c b.
Proof.
  induction a as [|x a IH].
  - change ("" +:+ String c b) with (String c b). cbn.
    by rewrite Ascii.eqb_refl.
  - change (String x a +:+ String c b) with (String x (a +:+ String c b)).
    cbn [PyStr.split]. rewrite IH.
    destruct (Ascii.eqb x c); [done|].
    pose proof (split_nonempty c a). by destruct (PyStr.split c a).
Qed.

Lemma split_free c s : free_of c s = true → PyStr.split c s = [s].
Proof.
  induction s as [|x s IH]; [done|]. cbn.
  intros [Hx Hs]%andb_true_iff. apply negb_true_iff in Hx.
  by rewrite Hx, (IH Hs).
Qed.

Lemma index_from_end_app_l {A} (l tail : list A) k :
  (k ≤ length tail)%nat →
  PyStr.index_from_end (l ++ tail) k = PyStr.index_from_end tail k.
Proof.
  intros Hk. unfold PyStr.index_from_end. rewrite length_app.
  destruct (k <=? length tail)%nat eqn:E; [|apply Nat.leb_gt in E; lia].
  destruct (k <=? length l + length tail)%nat eqn:E';
    [|apply Nat.leb_gt in E'; lia].
  rewrite lookup_app_r by lia. f_equal. lia.
Qed.

(** A link [base/s4/s3/s2/s1] whose four last parts contain no slash
    splits into the parts of [base] followed by those four. *)
Lemma split_four_parts (base s4 s3 s2 s1 : string) :
  free_of "/" s4 = true → free_of "/" s3 = true →
  free_of "/" s2 = true → free_of "/" s1 = true →
  PyStr.split "/" (base +:+ "/" +:+ s4 +:+ "/" +:+ s3 +:+ "/" +:+ s2
                        +:+ "/" +:+ s1)
  = PyStr.split "/" base ++ [s4; s3; s2; s1].
Proof.
  intros H4 H3 H2 H1.
  change (base +:+ "/" +:+ s4 +:+ "/" +:+ s3 +:+ "/" +:+ s2 +:+ "/" +:+ s1)
    with (base +:+ String "/" (s4 +:+ String "/" (s3 +:+ String "/"
            (s2 +:+ String "/" s1)))).
  rewrite !split_app, (split_free _ s4 H4), (split_free _ s3 H3),
    (split_free _ s2 H2), (split_free _ s1 H1). reflexivity.
Qed.

(** The key of a link whose parts end in [s4; s3; s2; s1]. *)
Lemma derive_asset_key_parts (s : string) (l : list string) (s4 s3 s2 s1 : string) :
  PyStr.split "/" s = l ++ [s4; s3; s2; s1] →
  derive_asset_key s
  = if (4 <=? length l)%nat then Some (make_key s4 s1) else None.
Proof.
  intros Hs. unfold derive_asset_key. cbv zeta.
  rewrite Hs, length_app. cbn [length].
  rewrite !index_from_end_app_l by (cbn; lia).
  destruct (4 <=? length l)%nat eqn:E.
  - apply Nat.leb_le in E.
    destruct (8 <=? length l + 4)%nat eqn:E';
      [reflexivity | apply Nat.leb_gt in E'; lia].
  - apply Nat.leb_gt in E.
    destruct (8 <=? length l + 4)%nat eqn:E';
      [apply Nat.leb_le in E'; lia | reflexivity].
Qed.

(** X7. The key that [wait_for_asset_activation] derives from a self link
    is made of the fourth part from the end and the last part of the
    link: for a link [base/s4/s3/s2/s1] whose four last parts contain no
    slash, the key is [s4_s1] when [base] has at least four parts (so the
    link has at least eight), and there is no key when it has fewer. *)
Theorem derived_key_is_fourth_from_last_and_last
    (base s4 s3 s2 s1 : string) :
  free_of "/" s4 = true → free_of "/" s3 = true →
  free_of "/" s2 = true → free_of "/" s1 = true →
  derive_asset_key (base +:+ "/" +:+ s4 +:+ "/" +:+ s3 +:+ "/" +:+ s2
                         +:+ "/" +:+ s1)
  = if (4 <=? length (PyStr.split "/" base))%nat
    then Some (make_key s4 s1) else None.
Proof.
  intros H4 H3 H2 H1. apply (derive_asset_key_parts _ _ s4 s3 s2 s1).
  by apply split_four_parts.
Qed.

Lemma derived_key_is_fourth_from_last_and_last_witness :
  derive_asset_key ("https://api.planet.com/data/v1" +:+ "/" +:+ "S1" +:+ "/"
                      +:+ "assets" +:+ "/" +:+ "types" +:+ "/"
                      +:+ "basic_analytic_8b")
  = Some "S1_basic_analytic_8b".
Proof.
  rewrite (derived_key_is_fourth_from_last_and_last
             "https://api.planet.com/data/v1" "S1" "assets" "types"
             "basic_analytic_8b" eq_refl eq_refl eq_refl eq_refl).
  reflexivity.
Defined.

(** X8. For a self link in the documented format
    [{prefix}/item-types/{item_type}/items/{item_id}/assets/{asset_type}],
    with a prefix of at least two parts (such as [https://host]) and an
    item id and asset type without slashes, the derived key is
    [items_{asset_type}]: the fourth part from the end is the literal
    "items", not the item id. *)
Theorem derived_key_of_documented_link
    (prefix item_type item_id asset_type : string) :
  (2 ≤ length (PyStr.split "/" prefix))%nat →
  free_of "/" item_id = true → free_of "/" asset_type = true →
  derive_asset_key (documented_self_link prefix item_type item_id asset_type)
  = Some (make_key "items" asset_type).
Proof.
  intros Hp Hid Hty. unfold documented_self_link.
  assert (E : prefix +:+ "/item-types/" +:+ item_type +:+ "/items/" +:+ item_id
                     +:+ "/assets/" +:+ asset_type
              = (prefix +:+ "/item-types/" +:+ item_type) +:+ "/" +:+ "items"
                +:+ "/" +:+ item_id +:+ "/" +:+ "assets" +:+ "/" +:+ asset_type).
  { by rewrite !append_assoc. }
  rewrite E.
  rewrite (derive_asset_key_parts _ _ _ _ _ _
             (split_four_parts _ "items" item_id "assets" asset_type
                eq_refl Hid eq_refl Hty)).
  change (prefix +:+ "/item-types/" +:+ item_type)
    with (prefix +:+ String "/" ("item-types" +:+ String "/" item_type)).
  rewrite !split_app, !length_app.
  pose proof (split_nonempty "/" item_type) as Hne.
  destruct (PyStr.split "/" item_type) as [|x xs]; [done|].
  cbn [length PyStr.split].
  destruct (4 <=? _)%nat eqn:E4; [reflexivity|].
  apply Nat.leb_gt in E4. cbn in E4. lia.
Qed.

Lemma derived_key_of_documented_link_witness :
  (2 ≤ length (PyStr.split "/" "https://api.planet.com/data/v1"))%nat ∧
  derive_asset_key
    (documented_self_link "https://api.planet.com/data/v1" "PSScene" "S1"
       "basic_analytic_8b")
  = Some "items_basic_analytic_8b".
Proof.
  assert (H : (2 ≤ length (PyStr.split "/" "https://api.planet.com/data/v1"))%nat)
    by (vm_compute; lia).
  split; [exact H|].
  rewrite (derived_key_of_documented_link "https://api.planet.com/data/v1"
             "PSScene" "S1" "basic_analytic_8b" H eq_refl eq_refl).
  reflexivity.
Defined.

(* ===================================================================== *)
(** * More on wait_for_asset_activation *)
(* ===================================================================== *)

Lemma make_key_nonempty a b : String.eqb (make_key a b) "" = false.
Proof. unfold make_key. by destruct a. Qed.

Lemma derive_asset_key_nonempty s k :
  derive_asset_key s = Some k → String.eqb k "" = false.
Proof.
  unfold derive_asset_key. destruct (8 <=? _)%nat; [|done].
  destruct (PyStr.index_from_end _ 4); [|done].
  destruct (PyStr.index_from_end _ 1); [|done].
  intros [= <-]. apply make_key_nonempty.
Qed.

(** X9. A poll that succeeds for a recorded key marks it active: when the
    derived key of the self link is in [activated_scenes] and the first
    status check is answered 200 with a JSON body whose status is
    "active" (and the timeout is positive),
    [wait_for_asset_activation] returns [True] after that one
    request, and the ledger file then holds the ledger it read with that
    entry set to "active" and every other entry unchanged. *)
Theorem successful_poll_marks_recorded_key_active
    (env : provider) (s k : string) (l : ledger)
    (timeout check_interval : nat) (w : world) (resp : response) (lat : nat) :
  derive_asset_key s = Some k →
  ledger_of w = Some l →
  is_Some (activated_scenes l !! k) →
  (0 < timeout)%nat →
  env (trace w) (Request Status GET (JStr s)) = (Replied resp, lat) →
  status_code resp = 200%nat → json_ok resp = true →
  active_body (body resp) = true →
  let w1 := after_req (Request Status GET (JStr s)) (Replied resp) lat w in
  wait_for_asset_activation env (JStr s) timeout check_interval w
    = (Ok true, after_mark k l w1) ∧
  activation_of k (after_mark k l w1) = Some "active" ∧
  (∀ k', k' ≠ k →
         activation_of k' (after_mark k l w1) = activated_scenes l !! k') ∧
  (∀ k', downloaded_flag k' (after_mark k l w1) = downloaded_flag k' w).
Proof.
  intros Hk Hl Hin Ht Henv Hc Hj Hact w1. split; [|split; [|split]].
  - unfold wait_for_asset_activation. rewrite bind_run. unfold time_now.
    rewrite Hk, bind_run, ret_run.
    destruct timeout as [|t]; [lia|]. rewrite poll_loop_step.
    replace (clock w - clock w <? S t)%nat with true
      by (symmetry; apply Nat.ltb_lt; lia).
    unfold get_asset_activation_status. rewrite status_attempts_step. cbv zeta.
    rewrite Henv. apply Nat.eqb_eq in Hc. rewrite Hc, Hj. fold w1.
    rewrite (active_body_truthy _ Hact). cbn [negb].
    unfold active_body in Hact.
    destruct (Py.getitem (body resp) "status") as [sv|]; [|done].
    rewrite Hact, mark_active_run, (derive_asset_key_nonempty _ _ Hk).
    change (ledger_of w1) with (ledger_of w). rewrite Hl.
    by rewrite bool_decide_eq_true_2.
  - unfold activation_of. cbn. apply lookup_insert_eq.
  - intros k' Hne. unfold activation_of. cbn. by apply lookup_insert_ne.
  - intros k'. unfold downloaded_flag. cbn. by rewrite Hl.
Qed.

Lemma successful_poll_marks_recorded_key_active_witness :
  let w := World 0 [] (Snapshot (Ledger {[ demo_key := "activating" ]} ∅)) ∅ in
  let run := wait_for_asset_activation (env_happy self_keyed) (JStr self_keyed)
               300 5 w in
  derive_asset_key self_keyed = Some demo_key ∧
  run.1 = Ok true ∧ activation_of demo_key run.2 = Some "active".
Proof.
  intros w run.
  assert (Hk : derive_asset_key self_keyed = Some demo_key) by reflexivity.
  split; [exact Hk|].
  destruct (successful_poll_marks_recorded_key_active (env_happy self_keyed)
              self_keyed demo_key (Ledger {[ demo_key := "activating" ]} ∅)
              300 5 w (ok_reply active_status) 0 Hk eq_refl)
    as (Hrun & Hact & _).
  - cbn [activated_scenes]. rewrite lookup_singleton_eq. eauto.
  - lia.
  - reflexivity.
  - reflexivity.
  - reflexivity.
  - reflexivity.
  - subst run. rewrite Hrun. split; [reflexivity | exact Hact].
Defined.


Lemma status_check_is_bounded_aux (env : provider) u w :
  ∃ v w' es,
    get_asset_activation_status env u w = (Ok v, w') ∧
    trace w' = trace w ++ es ∧
    (count (is_request_at Status) es ≤ 3)%nat ∧
    (clock w ≤ clock w')%nat.
Proof.
  destruct (get_status_spec env u w) as (v & w' & es0 & Hrun & _ & _).
  destruct (status_attempts_bounds env u 3 3 0 2 w)
    as (es & Htr & Hle & _ & _ & _).
  change (status_attempts env u 3 3 0 2 w)
    with (get_asset_activation_status env u w) in Htr.
  pose proof (get_status_clock env u w) as Hc.
  rewrite Hrun in Htr, Hc. cbn [snd] in *.
  exists v, w', es. split; [done|]. split; [done|]. split; [|done].
  etrans; [|exact Hle]. clear.
  induction es as [|e es IH]; [done|]. rewrite !count_cons.
  destruct e as [[[] m u] o| | | | |]; cbn; lia.
Qed.

Section PollBounds.

Variable env : provider.

Lemma count_site_le_requests s es :
  (count (is_request_at s) es ≤ count is_request es)%nat.
Proof.
  induction es as [|e es IH]; [done|]. rewrite !count_cons.
  destruct e as [[[] m u] o| | | | |]; destruct s; cbn; lia.
Qed.

Lemma mark_active_no_request k w :
  ∃ es, trace (mark_active k w).2 = trace w ++ es ∧
        count (is_request_at Status) es = 0%nat.
Proof.
  rewrite mark_active_run. destruct k as [k|].
  2:{ exists []. by rewrite app_nil_r. }
  destruct (String.eqb k ""); [exists []; by rewrite app_nil_r|].
  destruct (ledger_of w) as [l|]; [|exists []; by rewrite app_nil_r].
  destruct (bool_decide _); [|exists []; by rewrite app_nil_r].
  eexists [_; _; _]. split; [reflexivity|].
  by rewrite !count_cons, count_nil.
Qed.

(** The number of polls is bounded by the time left, and each poll sends
    at most three status requests. *)
Lemma poll_loop_bounded fuel u k st t ci w :
  (1 ≤ ci)%nat → (st ≤ clock w)%nat →
  ∃ es polls,
    trace (poll_loop env fuel u k st t ci w).2 = trace w ++ es ∧
    (count (is_request_at Status) es ≤ 3 * polls)%nat ∧
    (polls * ci ≤ (t - (clock w - st)) + ci - 1)%nat.
Proof.
  intros Hci. revert w. induction fuel as [|fuel IH]; intros w Hst.
  - exists [ELog LogTimeout], 0%nat. cbn. split; [done|].
    rewrite count_cons, count_nil. cbn. lia.
  - rewrite poll_loop_step.
    destruct (clock w - st <? t)%nat eqn:E.
    2:{ exists [ELog LogTimeout], 0%nat. cbn. split; [done|].
        rewrite count_cons, count_nil. cbn. lia. }
    apply Nat.ltb_lt in E.
    destruct (status_check_is_bounded_aux env u w)
      as (v & w1 & es1 & Hrun & Htr1 & Hc1 & Hclk).
    rewrite Hrun.
    assert (Hone : ∀ (r : result bool) w' es2,
              trace w' = trace w1 ++ es2 →
              count (is_request_at Status) es2 = 0%nat →
              ∃ es polls,
                trace (r, w').2 = trace w ++ es ∧
                (count (is_request_at Status) es ≤ 3 * polls)%nat ∧
                (polls * ci ≤ (t - (clock w - st)) + ci - 1)%nat).
    { intros r w' es2 Htr2 Hc2. exists (es1 ++ es2), 1%nat. cbn [snd].
      split; [by rewrite Htr2, Htr1, <- app_assoc|].
      rewrite count_app, Hc2. split; [lia|]. lia. }
    destruct (negb (Py.truthy v)).
    { apply (Hone _ _ []); [by rewrite app_nil_r | done]. }
    destruct (Py.getitem v "status") as [sv|e].
    2:{ apply (Hone _ _ []); [by rewrite app_nil_r | done]. }
    destruct (Py.is_str "active" sv).
    + destruct (mark_active_no_request k w1) as (es2 & Htr2 & Hc2).
      destruct (mark_active k w1) as [[[]|e] w2]; cbn [snd] in Htr2;
        by apply (Hone _ _ es2).
    + destruct (IH (after_sleep ci w1)) as (es & polls & Htr & Hc & Hp);
        [cbn; lia|].
      exists (es1 ++ ESleep ci :: es), (S polls).
      split; [rewrite Htr; cbn; by rewrite Htr1, <- !app_assoc|].
      rewrite count_app, count_cons. cbn [is_request_at].
      split; [lia|]. cbn [clock after_sleep] in Hp.
      destruct (decide (clock w1 + ci - st < t)%nat) as [Hlt|Hge].
      * cbn. lia.
      * assert (polls = 0%nat) as -> by nia. cbn. lia.
Qed.

End PollBounds.

(** X10. The poll is bounded: with a check interval of at least one
    second, [wait_for_asset_activation] makes a number of polls whose
    product with the interval is at most [timeout + check_interval - 1],
    and each poll sends at most three status requests.  With the values
    [process_scene] uses (300 and 5) that is at most 60 polls and 180
    status requests. *)
Theorem poll_sends_boundedly_many_status_requests
    (env : provider) (asset_url : json) (timeout check_interval : nat)
    (w : world) :
  (1 ≤ check_interval)%nat →
  ∃ es polls,
    trace (wait_for_asset_activation env asset_url timeout check_interval w).2
      = trace w ++ es ∧
    (count (is_request_at Status) es ≤ 3 * polls)%nat ∧
    (polls * check_interval ≤ timeout + check_interval - 1)%nat.
Proof.
  intros Hci. unfold wait_for_asset_activation.
  rewrite bind_run. unfold time_now.
  assert (Hnone : ∃ es polls,
            trace w = trace w ++ es ∧
            (count (is_request_at Status) es ≤ 3 * polls)%nat ∧
            (polls * check_interval ≤ timeout + check_interval - 1)%nat).
  { exists [], 0%nat. rewrite app_nil_r, count_nil. split; [done|]. lia. }
  destruct asset_url as [| | |s| |]; try exact Hnone.
  rewrite bind_run. destruct (derive_asset_key s) as [k|].
  - rewrite ret_run.
    destruct (poll_loop_bounded env timeout (JStr s) (Some k) (clock w) timeout
                check_interval w Hci) as (es & polls & Htr & Hc & Hp); [lia|].
    exists es, polls. split; [done|]. split; [done|]. lia.
  - rewrite bind_run, log_run, ret_run.
    destruct (poll_loop_bounded env timeout (JStr s) None (clock w) timeout
                check_interval (after_log (LogNoAssetKey s) w) Hci)
      as (es & polls & Htr & Hc & Hp); [cbn; lia|].
    exists (ELog (LogNoAssetKey s) :: es), polls.
    split; [rewrite Htr; cbn; by rewrite <- app_assoc|].
    rewrite count_cons. cbn [is_request_at]. split; [lia|].
    cbn [clock after_log] in Hp. lia.
Qed.

Lemma poll_sends_boundedly_many_status_requests_witness :
  ∃ es,
    trace (wait_for_asset_activation env_pending (JStr self_short) 300 5
             fresh_world).2 = trace fresh_world ++ es ∧
    (count (is_request_at Status) es ≤ 180)%nat.
Proof.
  destruct (poll_sends_boundedly_many_status_requests env_pending
              (JStr self_short) 300 5 fresh_world)
    as (es & polls & Htr & Hc & Hp); [lia|].
  exists es. split; [exact Htr|]. lia.
Defined.

Section NeverReady.

Variable env : provider.
Hypothesis Hnever : status_never_200 env.

Lemma status_attempts_never_200 u mr n a d w :
  ∃ w' es, status_attempts env u mr n a d w = (Ok JNull, w') ∧
           trace w' = trace w ++ es ∧
           count is_request es = n ∧
           Forall (λ e, is_file_write e = false) es.
Proof.
  revert a d w. induction n as [|n IH]; intros a d w.
  - exists w, []. by rewrite app_nil_r.
  - rewrite status_attempts_step. cbv zeta.
    set (r := Request Status GET u).
    assert (Hnext : ∀ a' d' w1 pre,
      trace w1 = trace w ++ pre → count is_request pre = 1%nat →
      Forall (λ e, is_file_write e = false) pre →
      ∃ w' es, status_attempts env u mr n a' d' w1 = (Ok JNull, w') ∧
               trace w' = trace w ++ es ∧ count is_request es = S n ∧
               Forall (λ e, is_file_write e = false) es).
    { intros a' d' w1 pre Htr Hc Hf.
      destruct (IH a' d' w1) as (w' & es & Hrun & Htr' & Hc' & Hf').
      exists w', (pre ++ es). split; [done|].
      split; [by rewrite Htr', Htr, <- app_assoc|].
      split; [rewrite count_app; lia | by apply Forall_app]. }
    destruct (env (trace w) r) as [[resp|] lat] eqn:Henv.
    + pose proof (Hnever _ _ _ _ Henv) as H200.
      apply Nat.eqb_neq in H200. rewrite H200.
      destruct (status_code resp =? 429)%nat; [|destruct (a <? mr - 1)%nat].
      * apply (Hnext _ _ _ [EReq r (Replied resp); ESleep d]);
          [cbn; by rewrite <- app_assoc | by rewrite !count_cons, count_nil
          | by repeat constructor].
      * apply (Hnext _ _ _ [EReq r (Replied resp); ESleep d]);
          [cbn; by rewrite <- app_assoc | by rewrite !count_cons, count_nil
          | by repeat constructor].
      * apply (Hnext _ _ _ [EReq r (Replied resp)]);
          [done | by rewrite !count_cons, count_nil | by repeat constructor].
    + destruct (a <? mr - 1)%nat.
      * apply (Hnext _ _ _ [EReq r Failed; ESleep d]);
          [cbn; by rewrite <- app_assoc | by rewrite !count_cons, count_nil
          | by repeat constructor].
      * apply (Hnext _ _ _ [EReq r Failed]);
          [done | by rewrite !count_cons, count_nil | by repeat constructor].
Qed.

End NeverReady.

(** X11. A status check that is exhausted ends the wait at once: when no
    status request is ever answered 200, [wait_for_asset_activation] on a
    string link with a positive timeout returns [False] after a single
    poll of exactly three requests; it does not poll again, does not run
    into the timeout, and writes no file. *)
Theorem exhausted_status_check_ends_the_wait
    (env : provider) (s : string) (timeout check_interval : nat) (w : world) :
  status_never_200 env →
  (0 < timeout)%nat →
  ∃ w' es,
    wait_for_asset_activation env (JStr s) timeout check_interval w
      = (Ok false, w') ∧
    trace w' = trace w ++ es ∧
    count is_request es = 3%nat ∧
    Forall (λ e, is_file_write e = false) es ∧
    (ELog LogTimeout ∉ es) ∧
    status_file w' = status_file w ∧ disk w' = disk w.
Proof.
  intros Hnever Ht. unfold wait_for_asset_activation.
  rewrite bind_run. unfold time_now. rewrite bind_run.
  destruct timeout as [|t]; [lia|].
  assert (Hpoll : ∀ k w0, clock w0 = clock w →
            ∃ w' es,
              poll_loop env (S t) (JStr s) k (clock w) (S t) check_interval w0
                = (Ok false, w') ∧
              trace w' = trace w0 ++ es ∧ count is_request es = 3%nat ∧
              Forall (λ e, is_file_write e = false) es ∧
              (ELog LogTimeout ∉ es) ∧
              status_file w' = status_file w0 ∧ disk w' = disk w0).
  { intros k w0 Hclk. rewrite poll_loop_step, Hclk.
    replace (clock w - clock w <? S t)%nat with true
      by (symmetry; apply Nat.ltb_lt; lia).
    destruct (status_attempts_never_200 env Hnever (JStr s) 3 3 0 2 w0)
      as (w' & es & Hrun & Htr & Hc & Hf).
    pose proof (get_status_same_status env (JStr s) w0) as Hs.
    assert (Hd : same_disk w0 (get_asset_activation_status env (JStr s) w0).2).
    { apply (steps_get_status same_disk env); intros;
        [apply same_disk_sleep | apply same_disk_http]. }
    unfold get_asset_activation_status in *. rewrite Hrun in Hs, Hd |- *.
    cbn [snd negb Py.truthy] in *.
    exists w', es. split; [done|]. split; [done|]. split; [done|].
    split; [done|]. split; [|done].
    destruct (status_attempts_bounds env (JStr s) 3 3 0 2 w0)
      as (es' & Htr' & _ & _ & Hrs & _).
    rewrite Hrun in Htr'. cbn [snd] in Htr'. rewrite Htr in Htr'.
    apply app_inv_head in Htr'. subst es'.
    intros Hin. rewrite Forall_forall in Hrs.
    destruct (Hrs _ Hin) as [H|[d H]]; discriminate H. }
  destruct (derive_asset_key s) as [k|].
  - rewrite ret_run. by apply Hpoll.
  - rewrite bind_run, log_run, ret_run.
    destruct (Hpoll None (after_log (LogNoAssetKey s) w) eq_refl)
      as (w' & es & Hrun & Htr & Hc & Hf & Hno & Hs & Hd).
    exists w', (ELog (LogNoAssetKey s) :: es). split; [done|].
    split; [rewrite Htr; cbn; by rewrite <- app_assoc|].
    rewrite count_cons. cbn [is_request]. split; [done|].
    split; [by constructor|]. split; [|done].
    intros [H|H]%elem_of_cons; [discriminate H | done].
Qed.

Lemma exhausted_status_check_ends_the_wait_witness :
  status_never_200 env_500 ∧
  ∃ w' es,
    wait_for_asset_activation env_500 (JStr self_short) 300 5 fresh_world
      = (Ok false, w') ∧
    trace w' = trace fresh_world ++ es ∧
    count is_request es = 3%nat.
Proof.
  assert (H : status_never_200 env_500).
  { intros h u resp lat [= <- _]. discriminate. }
  split; [exact H|].
  destruct (exhausted_status_check_ends_the_wait env_500 self_short 300 5
              fresh_world H) as (w' & es & H1 & H2 & H3 & _); [lia|].
  exists w', es. auto.
Defined.

(* ===================================================================== *)
(** * The orchestrator, from its items to the batch *)
(* ===================================================================== *)

(** A relation that every item respects is respected by the loops over
    asset types and features. *)
Section Loops.

Context (R : relation world) `{!PreOrder R}.
Variable env : provider.
Variable render : json → string.
Variable format : json → string.

Lemma steps_for_asset_types_items rd sc ts out ao n :
  (∀ t, steps R (process_scene env rd sc t out ao)) →
  steps R (for_asset_types env rd sc ts out ao n).
Proof.
  intros Hitem. revert n. induction ts as [|t ts IH]; intros n; simpl; steps_go.
Qed.

Lemma steps_for_scene_items j ts out ao n :
  (∀ sc, scene_of format j = Some sc →
         steps R (save_metadata (λ _, render j) sc out) ∧
         ∀ t, steps R (process_scene env (λ _, render j) sc t out ao)) →
  steps R (for_scene env render format j ts out ao n).
Proof.
  intros Hitem w. rewrite for_scene_run. unfold scene_of in Hitem.
  destruct (Py.getitem j "id") as [id|e]; [|reflexivity].
  destruct ts as [|t ts]; [reflexivity|].
  destruct (Py.getitem j "properties") as [props|e]; [|reflexivity].
  destruct (Py.getitem props "acquired") as [a|e]; [|reflexivity].
  destruct a as [| | |acq| |]; cbn [Py.as_str]; try reflexivity.
  destruct (Py.getitem props "cloud_cover") as [cc|e]; [|reflexivity].
  destruct (Hitem _ eq_refl) as [Hmeta Hscene].
  destruct (Py.getitem props "item_type") as [it|e].
  - by apply steps_for_asset_types_items.
  - revert w. apply steps_bind; steps_tc; [exact Hmeta|intros _].
    apply steps_bind; steps_tc; [apply steps_load_status; steps_tc|intros _].
    apply steps_raise; steps_tc.
Qed.

Lemma steps_for_scenes_items js ts out ao n :
  (∀ j n, j ∈ js → steps R (for_scene env render format j ts out ao n)) →
  steps R (for_scenes env render format js ts out ao n).
Proof.
  revert n. induction js as [|j js IH]; intros n Hitem; simpl; steps_go.
  - apply Hitem. by left.
  - apply IH. intros j' n' Hin. apply Hitem. by right.
Qed.

(** [main], for a relation that does not depend on what the search
    finds. *)
Lemma steps_main_items ts out ao :
  (∀ m, steps R (log m)) →
  (∀ r, steps R (http env r)) →
  (∀ rd sc, steps R (save_metadata rd sc out)) →
  (∀ rd sc t, steps R (process_scene env rd sc t out ao)) →
  steps R (main env render format ts out ao).
Proof.
  intros Hlog Hhttp Hmeta Hitem.
  assert (Hsum : steps R display_status_summary).
  { unfold display_status_summary. steps_go. }
  unfold main, search_planet_imagery. steps_go.
  apply steps_for_scenes_items. intros j n _.
  apply steps_for_scene_items. intros sc _. split; [apply Hmeta|].
  intros t. apply Hitem.
Qed.

End Loops.

(* ===================================================================== *)
(** * The activate-only mode *)
(* ===================================================================== *)

Section ActivateOnly.

Variable env : provider.

Lemma activate_only_metadata render fs sc out :
  sc ∈ fs →
  steps (emits (activate_only_event fs out)) (save_metadata render sc out).
Proof.
  intros Hin. unfold save_metadata. fold (metadata_path_of sc out). steps_go.
  - apply emits_open_w. right. by exists sc.
  - apply emits_write. right. by exists sc.
Qed.

Lemma activate_only_item render fs sc t out :
  sc ∈ fs →
  steps (emits (activate_only_event fs out))
        (process_scene env render sc t out true).
Proof.
  intros Hin. unfold process_scene. steps_go.
  all: try (by apply activate_only_metadata).
  all: try (apply emits_http; intros; by left).
  all: try apply (steps_asset_links _).
  - unfold activation_step. cbn [negb]. steps_go.
    all: try by apply emits_log.
    all: try (apply emits_save; by left).
    apply (steps_activate_asset _ env).
    + intros d. by apply emits_sleep.
    + intros u. apply emits_http. intros. by right.
  - unfold download_step. apply steps_ret. typeclasses eauto.
Qed.

Lemma activate_only_features render format js ts out n :
  steps (emits (activate_only_event (omap (scene_of format) js) out))
        (for_scenes env render format js ts out true n).
Proof.
  apply steps_for_scenes_items; [typeclasses eauto|]. intros j k Hin.
  apply steps_for_scene_items; [typeclasses eauto|]. intros sc Hsc.
  assert (Hfs : sc ∈ omap (scene_of format) js).
  { apply list_elem_of_omap. by exists j. }
  split; [by apply activate_only_metadata|].
  intros t. by apply activate_only_item.
Qed.

End ActivateOnly.

(** X12. With [--activate-only] the whole batch only searches, lists
    assets and POSTs activations: whatever the provider answers and
    however [main] ends, it sends no status check and no download
    request.  After the status summary and the one search request, the
    only files it opens or writes are the ledger and the metadata files
    of the scenes found by that search.  (When the ledger file does not
    decode, [main] stops before the search, with no event at all.) *)
Theorem activate_only_batch_never_polls_or_downloads
    (env : provider) (render : json → string) (format : json → string)
    (asset_types : list string) (output_dir : string) (w : world) :
  let search := Request Search POST (JStr SEARCH_URL) in
  ∃ es,
    trace (main env render format asset_types output_dir true w).2
      = trace w ++ es ∧
    (es = [] ∨
     ∃ a d o es',
       es = ELog (LogSummary a d) :: EReq search o :: es' ∧
       Forall (activate_only_event
                 (omap (scene_of format) (features_of_reply o)) output_dir)
              es') ∧
    count (is_request_at Status) es = 0%nat ∧
    count (is_request_at Download) es = 0%nat.
Proof.
  intros search. unfold main. rewrite bind_run.
  unfold display_status_summary. rewrite bind_run, load_status_run.
  destruct (ledger_of w) as [l|].
  2:{ exists []. rewrite app_nil_r. split; [done|]. split; [by left|]. done. }
  rewrite log_run.
  set (a := size (activated_scenes l)). set (d := size (downloaded_scenes l)).
  set (w1 := after_log (LogSummary a d) w).
  rewrite bind_run, search_run. cbv zeta. fold search.
  assert (Hfin : ∀ o lat (run : result unit * world),
    emits (activate_only_event
             (omap (scene_of format) (features_of_reply o)) output_dir)
          (after_req search o lat w1) run.2 →
    ∃ es,
      trace run.2 = trace w ++ es ∧
      (es = [] ∨
       ∃ a d o es',
         es = ELog (LogSummary a d) :: EReq search o :: es' ∧
         Forall (activate_only_event
                   (omap (scene_of format) (features_of_reply o)) output_dir)
                es') ∧
      count (is_request_at Status) es = 0%nat ∧
      count (is_request_at Download) es = 0%nat).
  { intros o lat run (es' & Htr & Hes).
    exists (ELog (LogSummary a d) :: EReq search o :: es').
    split; [rewrite Htr; cbn; by rewrite <- !app_assoc|].
    split; [right; by exists a, d, o, es'|].
    rewrite !count_cons. cbn [is_request_at search req_site].
    split; (rewrite count_zero; [done|]); (eapply Forall_impl; [exact Hes|]);
      intros [[[] m u] o'| | | | |]; cbn; intros H; try done; by destruct H. }
  destruct (env (trace w1) search) as [[resp|] lat].
  2:{ apply (Hfin Failed lat (Raise RequestException, _)). reflexivity. }
  set (w2 := after_req search (Replied resp) lat w1).
  assert (Hlog : ∀ m, emits (activate_only_event
                    (omap (scene_of format) (features_of_reply (Replied resp)))
                    output_dir) w2 (log m w2).2).
  { intros m. by apply emits_log. }
  cbn [features_of_reply] in *.
  destruct (status_code resp =? 200)%nat eqn:H200; cbn [negb andb] in *.
  2:{ apply (Hfin (Replied resp) lat). cbn [features_of_reply].
      rewrite H200. apply Hlog. }
  destruct (json_ok resp) eqn:Hj; cbn [negb] in *.
  2:{ apply (Hfin (Replied resp) lat (Raise RequestsJSONDecodeError, _)).
      reflexivity. }
  assert (Hfin' : ∀ run : result unit * world,
    emits (activate_only_event
             (omap (scene_of format)
                match Py.get (body resp) "features" (JArr []) with
                | Ok v => match Py.items v with Ok l => l | Raise _ => [] end
                | Raise _ => []
                end) output_dir) w2 run.2 →
    ∃ es,
      trace run.2 = trace w ++ es ∧
      (es = [] ∨
       ∃ a d o es',
         es = ELog (LogSummary a d) :: EReq search o :: es' ∧
         Forall (activate_only_event
                   (omap (scene_of format) (features_of_reply o)) output_dir)
                es') ∧
      count (is_request_at Status) es = 0%nat ∧
      count (is_request_at Download) es = 0%nat).
  { intros run Hrun. apply (Hfin (Replied resp) lat).
    cbn [features_of_reply]. by rewrite H200, Hj. }
  destruct (Py.get (body resp) "features" (JArr [])) as [v|e].
  2:{ apply (Hfin' (Raise e, _)). reflexivity. }
  destruct (negb (Py.truthy v)); [apply Hfin', Hlog|].
  rewrite bind_run. unfold lift at 1.
  destruct (Py.items v) as [js|e].
  2:{ apply (Hfin' (Raise e, _)). reflexivity. }
  apply Hfin'.
  apply steps_bind; [typeclasses eauto|apply activate_only_features|].
  intros n. apply steps_bind; [typeclasses eauto|by apply emits_log|].
  intros _. unfold display_status_summary. steps_go. by apply emits_log.
Qed.

(* ===================================================================== *)
(** * The listing request of process_scene *)
(* ===================================================================== *)

Section Listing.

Variable env : provider.
Variable render : scene → string.

Lemma save_metadata_world sc out w :
  save_metadata render sc out w
  = (Ok (date_dir_of sc out),
     World (clock w)
           (trace w ++ [EOpenW (metadata_path_of sc out);
                        EWrite (metadata_path_of sc out) (render sc)])
           (status_file w)
           (<[metadata_path_of sc out := render sc]> (disk w))).
Proof.
  unfold save_metadata, open_w, write. rewrite !bind_run. cbn.
  fold (metadata_path_of sc out). rewrite lookup_insert_eq. cbn.
  rewrite insert_insert_eq, <- app_assoc. reflexivity.
Qed.

End Listing.





(* ===================================================================== *)
(** * The ledger file over a run *)
(* ===================================================================== *)


#[global] Instance ledger_grows_preorder : PreOrder ledger_grows.
Proof.
  split.
  - intros w l Hl. by exists l.
  - intros w1 w2 w3 H12 H23 l Hl.
    destruct (H12 l Hl) as (l2 & Hl2 & Ha & Hd).
    destruct (H23 l2 Hl2) as (l3 & Hl3 & Ha' & Hd').
    exists l3. split; [done|]. split; by etrans.
Qed.

Lemma ledger_grows_same_status w w' :
  status_file w' = status_file w → ledger_grows w w'.
Proof.
  intros H l Hl. exists l. by rewrite (ledger_of_same_status _ _ H).
Qed.

Section LedgerGrows.

Variable env : provider.
Variable render : scene → string.

(** A poll changes only the value of an entry that is there. *)
Lemma wait_same_keys u t ci w r w' lf :
  wait_for_asset_activation env u t ci w = (r, w') →
  ledger_of w = Some lf →
  ∃ lf', ledger_of w' = Some lf' ∧
         dom (activated_scenes lf') = dom (activated_scenes lf) ∧
         downloaded_scenes lf' = downloaded_scenes lf.
Proof.
  intros Hrun Hl.
  destruct (wait_ledger env _ _ _ _ _ _ Hrun)
    as [Hs|(s & key & _ & _ & _ & l0 & Hl0 & Hin & Hs)].
  - exists lf. by rewrite (ledger_of_same_status _ _ Hs).
  - rewrite Hl in Hl0. injection Hl0 as <-.
    exists (with_active key lf). split; [unfold ledger_of; by rewrite Hs|].
    split; [|done]. cbn. rewrite dom_insert_L.
    apply subseteq_union_1_L, singleton_subseteq_l. by apply elem_of_dom.
Qed.

(** After the activation stage the ledger file has the keys of the
    in-memory ledger the stage hands on. *)
Lemma activation_step_keys l key act self ao w r w2 :
  ledger_of w = Some l →
  activation_step env l key act self ao w = (r, w2) →
  ∃ lf, ledger_of w2 = Some lf ∧
        dom (activated_scenes l) ⊆ dom (activated_scenes lf) ∧
        downloaded_scenes lf = downloaded_scenes l ∧
        ∀ l', r = Ok (Some l') →
              dom (activated_scenes l') = dom (activated_scenes lf) ∧
              downloaded_scenes l' = downloaded_scenes l.
Proof.
  intros Hl. rewrite activation_step_run. cbv zeta.
  assert (Hwait : ∀ l1 w1,
    ledger_of w1 = Some l1 →
    dom (activated_scenes l) ⊆ dom (activated_scenes l1) →
    downloaded_scenes l1 = downloaded_scenes l →
    (if ao then (Ok (Some l1), w1)
     else after_wait l1 (wait_for_asset_activation env self 300 5 w1))
      = (r, w2) →
    ∃ lf, ledger_of w2 = Some lf ∧
          dom (activated_scenes l) ⊆ dom (activated_scenes lf) ∧
          downloaded_scenes lf = downloaded_scenes l ∧
          ∀ l', r = Ok (Some l') →
                dom (activated_scenes l') = dom (activated_scenes lf) ∧
                downloaded_scenes l' = downloaded_scenes l).
  { intros l1 w1 Hl1 Ha1 Hd1. destruct ao.
    - intros [= <- <-]. exists l1. split; [done|]. split; [done|].
      split; [done|]. by intros l' [= <-].
    - destruct (wait_for_asset_activation env self 300 5 w1) as [rw w'] eqn:Hw.
      destruct (wait_same_keys _ _ _ _ _ _ l1 Hw Hl1) as (lf' & Hlf & Ha & Hd).
      unfold after_wait. destruct rw as [[]|e]; intros [= <- <-];
        exists lf'; (split; [done|]); (split; [by rewrite Ha|]);
        (split; [congruence|]); intros l' [= <-]. by rewrite Ha. }
  destruct (bool_decide _).
  - by apply Hwait.
  - destruct (activate_asset_facts env act w)
      as (b & w1 & es1 & -> & _ & Hst1 & _).
    destruct b.
    + apply Hwait; [done| |done]. cbn. rewrite dom_insert_L.
      apply union_subseteq_r.
    + intros [= <- <-]. exists l.
      split; [by rewrite (ledger_of_same_status _ _ Hst1)|]. done.
Qed.

Lemma download_step_grows l' key self path ao w lf :
  ledger_of w = Some lf →
  dom (activated_scenes l') = dom (activated_scenes lf) →
  dom (downloaded_scenes lf) ⊆ dom (downloaded_scenes l') →
  ledger_grows w (download_step env l' key self path ao w).2.
Proof.
  intros Hl Ha Hd. rewrite download_step_run. destruct ao; [done|].
  destruct (_ && _); [by apply ledger_grows_same_status|].
  assert (Hs : same_status w (download_asset env self path w).2).
  { apply (steps_download_asset same_status env); intros;
      first [ apply same_status_sleep | apply same_status_http
            | apply same_status_open_w | apply same_status_write ]. }
  destruct (download_asset env self path w) as [[[]|e] w1]; cbn [snd] in *;
    try by apply ledger_grows_same_status.
  intros l0 Hl0. rewrite Hl in Hl0. injection Hl0 as <-.
  exists (with_downloaded key l'). split; [done|]. cbn.
  split; [by rewrite Ha|]. rewrite dom_insert_L.
  etrans; [exact Hd|]. apply union_subseteq_r.
Qed.

Lemma process_scene_grows sc t out ao :
  steps ledger_grows (process_scene env render sc t out ao).
Proof.
  intros w. rewrite process_scene_run, save_metadata_world. cbv zeta.
  cbn [snd].
  destruct (ledger_of w) as [l|] eqn:Hl; [|by apply ledger_grows_same_status].
  destruct (env _ _) as [[resp|] lat]; [|by apply ledger_grows_same_status].
  destruct (negb _); [by apply ledger_grows_same_status|].
  destruct (negb _); [by apply ledger_grows_same_status|].
  destruct (asset_links _ _ _).1 as [[[act self]|]|e];
    try by apply ledger_grows_same_status.
  destruct (activation_step _ _ _ _ _ _ _) as [r w2] eqn:Hact.
  match type of Hact with
  | activation_step _ _ _ _ _ _ ?w1 = _ =>
      assert (Hl1 : ledger_of w1 = Some l) by exact Hl
  end.
  destruct (activation_step_keys _ _ _ _ _ _ _ _ Hl1 Hact)
    as (lf & Hlf & Ha & Hd & Hr).
  assert (H12 : ledger_grows w w2).
  { intros l0 Hl0. rewrite Hl in Hl0. injection Hl0 as <-.
    exists lf. by rewrite Hd. }
  destruct r as [[l'|]|e]; cbn [snd]; try exact H12.
  destruct (Hr l' eq_refl) as [Ha' Hd'].
  etrans; [exact H12|].
  apply (download_step_grows l' _ _ _ _ _ lf); [done|done|].
  by rewrite Hd, Hd'.
Qed.

End LedgerGrows.

(** X16. The ledger only gains keys over a batch: whatever the provider
    answers and however [main] ends, every key that the ledger file held
    in [activated_scenes] or [downloaded_scenes] when [main] started is
    still in that table when it stops, and the file still decodes.  (The
    value of an activation entry may change, in either direction.) *)
Theorem batch_never_drops_a_ledger_key
    (env : provider) (render : json → string) (format : json → string)
    (asset_types : list string)
    (output_dir : string) (activate_only : bool) (w : world) (l : ledger) :
  ledger_of w = Some l →
  ∃ l',
    ledger_of (main env render format asset_types output_dir
                 activate_only w).2 = Some l' ∧
    dom (activated_scenes l) ⊆ dom (activated_scenes l') ∧
    dom (downloaded_scenes l) ⊆ dom (downloaded_scenes l').
Proof.
  intros Hl.
  apply (steps_main_items ledger_grows env render format asset_types
           output_dir activate_only); [| | | |exact Hl].
  - intros m w0. by apply ledger_grows_same_status.
  - intros r w0. apply ledger_grows_same_status. apply same_status_http.
  - intros rd sc w0. apply ledger_grows_same_status.
    by rewrite save_metadata_world.
  - intros rd sc t. apply process_scene_grows.
Qed.

Lemma batch_never_drops_a_ledger_key_witness :
  ∃ l',
    ledger_of (main (env_happy self_documented) demo_render_feature
                 demo_format [demo_type] "planet_data" false
                 other_world).2 = Some l' ∧
    is_Some (activated_scenes l' !! "S0_basic_analytic_8b") ∧
    is_Some (downloaded_scenes l' !! "S0_basic_analytic_8b").
Proof.
  destruct (batch_never_drops_a_ledger_key (env_happy self_documented)
              demo_render_feature demo_format [demo_type] "planet_data" false
              other_world other_ledger eq_refl) as (l' & Hl' & Ha & Hd).
  exists l'. split; [exact Hl'|].
  split; apply elem_of_dom; [apply Ha | apply Hd]; apply elem_of_dom; cbn;
    rewrite lookup_singleton_eq; eauto.
Defined.

(* ===================================================================== *)
(** * Where the files of an item go *)
(* ===================================================================== *)

Lemma free_of_app c a b : free_of c (a +:+ b) = free_of c a && free_of c b.
Proof.
  induction a as [|x a IH]; [done|].
  change (String x a +:+ b) with (String x (a +:+ b)). cbn.
  by rewrite IH, andb_assoc.
Qed.

(** [(a + sep + b).split(sep)[0] == a] when [a] has no separator. *)
Lemma hd_split c a b :
  free_of c a = true → hd "" (PyStr.split c (a +:+ String c b)) = a.
Proof. intros Ha. by rewrite split_app, (split_free _ _ Ha). Qed.

Lemma starts_with_sep_free s :
  free_of "/" s = true → PyStr.starts_with_sep s = false.
Proof.
  destruct s as [|x s]; [done|]. cbn.
  intros [Hx _]%andb_true_iff. by apply negb_true_iff.
Qed.

Lemma starts_with_sep_app s t :
  s ≠ "" → PyStr.starts_with_sep (s +:+ t) = PyStr.starts_with_sep s.
Proof. by destruct s. Qed.

Lemma ends_with_sep_free s : free_of "/" s = true → PyStr.ends_with_sep s = false.
Proof.
  unfold PyStr.ends_with_sep. induction s as [|x s IH]; [done|].
  cbn [free_of PyStr.last_char]. intros [Hx Hs]%andb_true_iff.
  destruct s; [by apply negb_true_iff|by apply IH].
Qed.

Lemma ends_with_sep_app s t :
  t ≠ "" → free_of "/" t = true → PyStr.ends_with_sep (s +:+ t) = false.
Proof.
  intros Hne Ht. pose proof (ends_with_sep_free t Ht) as H.
  unfold PyStr.ends_with_sep in *. by rewrite last_char_app.
Qed.

(** [os.path.join(a, b) == a + "/" + b] for a relative [b] and a
    non-empty [a] without a trailing slash. *)
Lemma path_join_plain a b :
  a ≠ "" → PyStr.ends_with_sep a = false → PyStr.starts_with_sep b = false →
  PyStr.path_join a b = a +:+ "/" +:+ b.
Proof.
  intros Hne Ha Hb. unfold PyStr.path_join. rewrite Hb, Ha.
  destruct (String.eqb a "") eqn:E; [|done].
  by apply String.eqb_eq in E.
Qed.


